(** * Flight-delay service: shallow embedding of [challenge/model.py] and
    [challenge/api.py], and the properties of its feature pipeline.

    Conventions of the embedding.
    - Python [str] values are [string]s of 8-bit characters.  The models
      of [strptime] and [int] recognise the ASCII digits and the ASCII
      white space; Python also takes the other decimal digits and white
      space of Unicode, so the models stand for the program on ASCII
      texts.
    - Python [int] is [Z].  The two [float]s of the program,
      [total_seconds()/60] and the class weights [n/len(target)], are
      quotients of two integers and are kept as the exact rational in lowest
      terms ([Qred]); a comparison such as [min_diff > 15] of the correctly
      rounded quotient against an integer agrees with the exact one, as
      do the sign and the order of two such quotients.
    - A raised exception is a value of [result]; state that a call has
      changed before it raised is kept. *)

From stdpp Require Import gmap strings pretty list.
From Stdlib Require Import ZArith QArith Ascii String Lia Bool.

Open Scope string_scope.
Open Scope Z_scope.

(** ** Exceptions and results *)

Inductive exn :=
  | KeyError | ValueError | TypeError | IndexError
  | ZeroDivisionError | AttributeError | FileNotFoundError.

Inductive result (A : Type) :=
  | Ok (a : A)
  | Raise (e : exn).
Arguments Ok {A} a.
Arguments Raise {A} e.

Definition rbind {A B} (r : result A) (k : A -> result B) : result B :=
  match r with
  | Ok a => k a
  | Raise e => Raise e
  end.

Notation "'let*' x ':=' c 'in' k" := (rbind c (fun x => k))
  (at level 10, x name, c at level 100, k at level 200).

Fixpoint rmap {A B} (f : A -> result B) (l : list A) : result (list B) :=
  match l with
  | [] => Ok []
  | a :: l' => let* b := f a in let* bs := rmap f l' in Ok (b :: bs)
  end.

(** ** [datetime]: the part of Python's module the program uses *)

Module Datetime.

Record time := mk_time { t_hour : Z; t_minute : Z; t_second : Z }.

Record datetime := mk_datetime {
  year : Z; month : Z; day : Z;
  hour : Z; minute : Z; second : Z
}.

Definition time_of (d : datetime) : time :=
  mk_time (hour d) (minute d) (second d).

Definition is_leap (y : Z) : bool :=
  (y mod 4 =? 0) && (negb (y mod 100 =? 0) || (y mod 400 =? 0)).

Definition days_in_month (y m : Z) : Z :=
  if m =? 2 then (if is_leap y then 29 else 28)
  else if (m =? 4) || (m =? 6) || (m =? 9) || (m =? 11) then 30
  else 31.

(** [_DAYS_BEFORE_MONTH] of the module. *)
Definition days_before_month_tbl (m : Z) : Z :=
  match m with
  | 1 => 0 | 2 => 31 | 3 => 59 | 4 => 90 | 5 => 120 | 6 => 151
  | 7 => 181 | 8 => 212 | 9 => 243 | 10 => 273 | 11 => 304 | _ => 334
  end.

Definition days_before_year (y : Z) : Z :=
  let y1 := y - 1 in y1 * 365 + y1 / 4 - y1 / 100 + y1 / 400.

Definition days_before_month (y m : Z) : Z :=
  days_before_month_tbl m + (if (2 <? m) && is_leap y then 1 else 0).

Definition toordinal (d : datetime) : Z :=
  days_before_year (year d) + days_before_month (year d) (month d) + day d.

(** What the constructor accepts; anything else raises [ValueError]. *)
Definition valid (d : datetime) : bool :=
  (1 <=? year d) && (year d <=? 9999) &&
  (1 <=? month d) && (month d <=? 12) &&
  (1 <=? day d) && (day d <=? days_in_month (year d) (month d)) &&
  (0 <=? hour d) && (hour d <=? 23) &&
  (0 <=? minute d) && (minute d <=? 59) &&
  (0 <=? second d) && (second d <=? 59).

(** Comparison is that of the field tuples. *)
Definition lex (c1 c2 : comparison) : comparison :=
  match c1 with Eq => c2 | _ => c1 end.

Definition time_cmp (a b : time) : comparison :=
  lex (t_hour a ?= t_hour b)
 (lex (t_minute a ?= t_minute b) (t_second a ?= t_second b)).

Definition cmp (a b : datetime) : comparison :=
  lex (year a ?= year b)
 (lex (month a ?= month b)
 (lex (day a ?= day b) (time_cmp (time_of a) (time_of b)))).

Definition time_lt (a b : time) : bool :=
  match time_cmp a b with Lt => true | _ => false end.
Definition time_gt (a b : time) : bool := time_lt b a.

Definition le (a b : datetime) : bool :=
  match cmp a b with Gt => false | _ => true end.
Definition ge (a b : datetime) : bool := le b a.

(** [a - b] as a [timedelta], read through [total_seconds()]. *)
Definition seconds_of_day (d : datetime) : Z :=
  second d + minute d * 60 + hour d * 3600.

Definition sub_total_seconds (a b : datetime) : Z :=
  (toordinal a - toordinal b) * 86400 + (seconds_of_day a - seconds_of_day b).

Definition replace_year (d : datetime) (y : Z) : result datetime :=
  let d' := mk_datetime y (month d) (day d) (hour d) (minute d) (second d) in
  if valid d' then Ok d' else Raise ValueError.

(** *** [strptime]

    [_strptime] turns the format into a regular expression, one group per
    directive, and matches it at the start of the text; text left over is
    an error.  The groups are transcribed below.  Every group but the last
    is followed by a literal, or by white space, that no digit matches, so
    taking the first alternative that matches is what backtracking finds. *)

Definition matcher := string -> option (Z * string).

Definition in_range (lo hi c : ascii) : bool :=
  (nat_of_ascii lo <=? nat_of_ascii c)%nat &&
  (nat_of_ascii c <=? nat_of_ascii hi)%nat.

Definition digit_of (c : ascii) : Z := Z.of_nat (nat_of_ascii c) - 48.

Definition d1 (lo hi : ascii) : matcher := fun s =>
  match s with
  | String c r => if in_range lo hi c then Some (digit_of c, r) else None
  | _ => None
  end.

Definition d2 (lo1 hi1 lo2 hi2 : ascii) : matcher := fun s =>
  match s with
  | String a (String b r) =>
      if in_range lo1 hi1 a && in_range lo2 hi2 b
      then Some (10 * digit_of a + digit_of b, r) else None
  | _ => None
  end.

Definition alt (p q : matcher) : matcher := fun s =>
  match p s with
  | Some x => Some x
  | None => q s
  end.

Definition lit (c : ascii) (s : string) : option string :=
  match s with
  | String c' r => if Ascii.eqb c c' then Some r else None
  | _ => None
  end.

(** [\s] on ASCII: TAB, LF, VT, FF, CR, the separators FS to US, and SP. *)
Definition is_space (c : ascii) : bool :=
  let n := nat_of_ascii c in
  ((9 <=? n)%nat && (n <=? 13)%nat) || ((28 <=? n)%nat && (n <=? 32)%nat).

Fixpoint skip_spaces (s : string) : string :=
  match s with
  | String c r => if is_space c then skip_spaces r else s
  | EmptyString => s
  end.

(** [\s+] *)
Definition spaces1 (s : string) : option string :=
  match s with
  | String c r => if is_space c then Some (skip_spaces r) else None
  | _ => None
  end.

(** [%Y] is [\d\d\d\d]. *)
Definition re_Y : matcher := fun s =>
  match d2 "0" "9" "0" "9" s with
  | Some (hi, r) =>
      match d2 "0" "9" "0" "9" r with
      | Some (lo, r') => Some (100 * hi + lo, r')
      | None => None
      end
  | None => None
  end.

(** [%m] is [1[0-2]|0[1-9]|[1-9]]. *)
Definition re_m : matcher :=
  alt (d2 "1" "1" "0" "2") (alt (d2 "0" "0" "1" "9") (d1 "1" "9")).

(** [%d] is [3[0-1]|[1-2]\d|0[1-9]|[1-9]| [1-9]]. *)
Definition re_d : matcher :=
  alt (d2 "3" "3" "0" "1")
 (alt (d2 "1" "2" "0" "9")
 (alt (d2 "0" "0" "1" "9")
 (alt (d1 "1" "9")
      (fun s => match lit " " s with Some r => d1 "1" "9" r | None => None end)))).

(** [%H] is [2[0-3]|[0-1]\d|\d]. *)
Definition re_H : matcher :=
  alt (d2 "2" "2" "0" "3") (alt (d2 "0" "1" "0" "9") (d1 "0" "9")).

(** [%M] is [[0-5]\d|\d]. *)
Definition re_M : matcher :=
  alt (d2 "0" "5" "0" "9") (d1 "0" "9").

(** [%S] is [6[0-1]|[0-5]\d|\d]. *)
Definition re_S : matcher :=
  alt (d2 "6" "6" "0" "1") (alt (d2 "0" "5" "0" "9") (d1 "0" "9")).

Definition lower (c : ascii) : ascii :=
  if in_range "A" "Z" c then ascii_of_nat (nat_of_ascii c + 32) else c.

(** [%b]: the abbreviated month names of the C locale, matched without
    regard to case. *)
Definition re_b : matcher := fun s =>
  match s with
  | String a (String b (String c r)) =>
      let k := String (lower a) (String (lower b) (String (lower c) "")) in
      let some m := Some (m, r) in
      if String.eqb k "jan" then some 1 else if String.eqb k "feb" then some 2
      else if String.eqb k "mar" then some 3 else if String.eqb k "apr" then some 4
      else if String.eqb k "may" then some 5 else if String.eqb k "jun" then some 6
      else if String.eqb k "jul" then some 7 else if String.eqb k "aug" then some 8
      else if String.eqb k "sep" then some 9 else if String.eqb k "oct" then some 10
      else if String.eqb k "nov" then some 11 else if String.eqb k "dec" then some 12
      else None
  | _ => None
  end.

Definition obind {A B} (o : option A) (k : A -> option B) : option B :=
  match o with
  | Some a => k a
  | None => None
  end.

Notation "'let?' x ':=' c 'in' k" := (obind c (fun x => k))
  (at level 10, x name, c at level 100, k at level 200).

Definition construct (d : datetime) : result datetime :=
  if valid d then Ok d else Raise ValueError.

Definition of_match (o : option (datetime * string)) : result datetime :=
  match o with
  | Some (d, "") => construct d
  | _ => Raise ValueError
  end.

(** [datetime.strptime(s, '%Y-%m-%d %H:%M:%S')] *)
Definition strptime_Ymd_HMS (s : string) : result datetime :=
  of_match (
    let? y := re_Y s in let? r := lit "-" (snd y) in
    let? m := re_m r in let? r := lit "-" (snd m) in
    let? d := re_d r in let? r := spaces1 (snd d) in
    let? H := re_H r in let? r := lit ":" (snd H) in
    let? M := re_M r in let? r := lit ":" (snd M) in
    let? S := re_S r in
    Some (mk_datetime (fst y) (fst m) (fst d) (fst H) (fst M) (fst S), snd S)).

(** [datetime.strptime(s, '%H:%M')]: the date defaults to 1900-01-01. *)
Definition strptime_HM (s : string) : result datetime :=
  of_match (
    let? H := re_H s in let? r := lit ":" (snd H) in
    let? M := re_M r in
    Some (mk_datetime 1900 1 1 (fst H) (fst M) 0, snd M)).

(** [datetime.strptime(s, '%d-%b')]: the year defaults to 1900. *)
Definition strptime_db (s : string) : result datetime :=
  of_match (
    let? d := re_d s in let? r := lit "-" (snd d) in
    let? b := re_b r in
    Some (mk_datetime 1900 (fst b) (fst d) 0 0 0, snd b)).

End Datetime.

Import Datetime.

(** ** The [str] methods the program calls *)

Module Str.

(** [s.split(sep)[0]] for a one-character separator. *)
Fixpoint split0 (sep : ascii) (s : string) : string :=
  match s with
  | String c r => if Ascii.eqb c sep then "" else String c (split0 sep r)
  | EmptyString => ""
  end.

Fixpoint rstrip (s : string) : string :=
  match s with
  | String c r =>
      let r' := rstrip r in
      if is_space c && String.eqb r' "" then "" else String c r'
  | EmptyString => ""
  end.

Definition strip (s : string) : string := rstrip (skip_spaces s).

(** Decimal digits, single underscores allowed between two digits. *)
Fixpoint digits (acc : Z) (after_digit : bool) (s : string) : option Z :=
  match s with
  | EmptyString => if after_digit then Some acc else None
  | String c r =>
      if in_range "0" "9" c then digits (10 * acc + digit_of c) true r
      else if Ascii.eqb c "_" && after_digit then digits acc false r
      else None
  end.

(** [int(s)] in base 10. *)
Definition int (s : string) : result Z :=
  let signed :=
    match strip s with
    | String c r =>
        if Ascii.eqb c "-" then option_map Z.opp (digits 0 false r)
        else if Ascii.eqb c "+" then digits 0 false r
        else digits 0 false (String c r)
    | EmptyString => None
    end in
  match signed with
  | Some z => Ok z
  | None => Raise ValueError
  end.

Definition startswith (s p : string) : bool := String.prefix p s.

(** [s.replace(old, new)]: every occurrence, left to right, without
    overlap.  [skip] counts the characters of a match still to drop. *)
Fixpoint replace_from (old new : string) (skip : nat) (s : string) : string :=
  match s with
  | EmptyString => if String.eqb old "" then new else ""
  | String c r =>
      match skip with
      | S k => replace_from old new k r
      | O =>
          if String.eqb old "" then new +:+ String c (replace_from old new 0 r)
          else if String.prefix old s
          then new +:+ replace_from old new (String.length old - 1) r
          else String c (replace_from old new 0 r)
      end
  end.

Definition replace (s old new : string) : string := replace_from old new 0 s.

End Str.

(** ** Cells, rows and data frames *)

Inductive cell :=
  | VStr (s : string)
  | VInt (z : Z)
  | VFloat (q : Q)
  | VNone.

(** A row handed to a function by [DataFrame.apply(..., axis=1)]. *)
Definition row := list (string * cell).

Fixpoint row_get (r : row) (k : string) : result cell :=
  match r with
  | [] => Raise KeyError
  | (k', v) :: r' => if String.eqb k' k then Ok v else row_get r' k
  end.

(** [datetime.strptime(x, '%Y-%m-%d %H:%M:%S')] on a cell. *)
Definition strptime_cell (x : cell) : result datetime :=
  match x with
  | VStr s => strptime_Ymd_HMS s
  | _ => Raise TypeError
  end.

(** ** The feature derivations of [DelayModel] *)

Definition get_period_day (date : string) : result (option string) :=
  let* date_time := (let* d := strptime_Ymd_HMS date in Ok (time_of d)) in
  let* morning_min := (let* d := strptime_HM "05:00" in Ok (time_of d)) in
  let* morning_max := (let* d := strptime_HM "11:59" in Ok (time_of d)) in
  let* afternoon_min := (let* d := strptime_HM "12:00" in Ok (time_of d)) in
  let* afternoon_max := (let* d := strptime_HM "18:59" in Ok (time_of d)) in
  let* evening_min := (let* d := strptime_HM "19:00" in Ok (time_of d)) in
  let* evening_max := (let* d := strptime_HM "23:59" in Ok (time_of d)) in
  let* night_min := (let* d := strptime_HM "00:00" in Ok (time_of d)) in
  let* night_max := (let* d := strptime_HM "4:59" in Ok (time_of d)) in
  if time_gt date_time morning_min && time_lt date_time morning_max then
    Ok (Some "mañana")
  else if time_gt date_time afternoon_min && time_lt date_time afternoon_max then
    Ok (Some "tarde")
  else if (time_gt date_time evening_min && time_lt date_time evening_max) ||
          (time_gt date_time night_min && time_lt date_time night_max) then
    Ok (Some "noche")
  else Ok None.

Definition is_high_season (fecha : string) : result Z :=
  let* fecha_año := Str.int (Str.split0 "-" fecha) in
  let* fecha := strptime_Ymd_HMS fecha in
  let* range1_min := (let* d := strptime_db "15-Dec" in replace_year d fecha_año) in
  let* range1_max := (let* d := strptime_db "31-Dec" in replace_year d fecha_año) in
  let* range2_min := (let* d := strptime_db "1-Jan" in replace_year d fecha_año) in
  let* range2_max := (let* d := strptime_db "3-Mar" in replace_year d fecha_año) in
  let* range3_min := (let* d := strptime_db "15-Jul" in replace_year d fecha_año) in
  let* range3_max := (let* d := strptime_db "31-Jul" in replace_year d fecha_año) in
  let* range4_min := (let* d := strptime_db "11-Sep" in replace_year d fecha_año) in
  let* range4_max := (let* d := strptime_db "30-Sep" in replace_year d fecha_año) in
  if (ge fecha range1_min && le fecha range1_max) ||
     (ge fecha range2_min && le fecha range2_max) ||
     (ge fecha range3_min && le fecha range3_max) ||
     (ge fecha range4_min && le fecha range4_max)
  then Ok 1 else Ok 0.

Definition get_min_diff (data : row) : result Q :=
  let* o := row_get data "Fecha-O" in
  let* fecha_o := strptime_cell o in
  let* i := row_get data "Fecha-I" in
  let* fecha_i := strptime_cell i in
  let min_diff := Qred (Qmake (sub_total_seconds fecha_o fecha_i) 60) in
  Ok min_diff.

(** ** Data frames: ordered, named columns *)

Definition DataFrame := list (string * list cell).

Definition columns (df : DataFrame) : list string := map fst df.

(** The length of the index. *)
Definition nrows (df : DataFrame) : nat :=
  match df with
  | [] => 0%nat
  | (_, c) :: _ => List.length c
  end.

(** [df[k]] *)
Fixpoint df_get (df : DataFrame) (k : string) : result (list cell) :=
  match df with
  | [] => Raise KeyError
  | (k', c) :: df' => if String.eqb k' k then Ok c else df_get df' k
  end.

(** [df[k] = v]: an existing column is replaced where it stands, a new one
    is appended. *)
Fixpoint df_set (df : DataFrame) (k : string) (v : list cell) : DataFrame :=
  match df with
  | [] => [(k, v)]
  | (k', c) :: df' =>
      if String.eqb k' k then (k', v) :: df' else (k', c) :: df_set df' k v
  end.

Definition df_row (df : DataFrame) (i : nat) : row :=
  map (fun kc => (fst kc, nth i (snd kc) VNone)) df.

Definition df_rows (df : DataFrame) : list row :=
  map (df_row df) (seq 0 (nrows df)).

(** [df[names]] *)
Definition df_select (df : DataFrame) (names : list string) : result DataFrame :=
  rmap (fun k => let* c := df_get df k in Ok (k, c)) names.

(** [pd.concat(frames, axis=1)] of frames over one index. *)
Definition concat_axis1 (dfs : list DataFrame) : DataFrame := List.concat dfs.

(** [DataFrame(rows, columns=cols)] *)
Definition frame_of_rows (rows : list (list cell)) (cols : list string)
  : result DataFrame :=
  if forallb (fun r => (List.length r =? List.length cols)%nat) rows
  then Ok (imap (fun j k => (k, map (fun r => nth j r VNone) rows)) cols)
  else Raise ValueError.

(** [df.to_numpy().ravel()] *)
Definition to_numpy_ravel (df : DataFrame) : list cell :=
  flat_map (fun r => map snd r) (df_rows df).

Definition cell_eqb (a b : cell) : bool :=
  match a, b with
  | VStr s, VStr t => String.eqb s t
  | VInt x, VInt y => x =? y
  | VFloat p, VFloat q => Qeq_bool p q
  | VInt x, VFloat q | VFloat q, VInt x => Qeq_bool (inject_Z x) q
  | _, _ => false
  end.

(** [c > n] for an integer [n], as [Series > n] does per element. *)
Definition cell_gt (c : cell) (n : Z) : result bool :=
  match c with
  | VInt z => Ok (n <? z)
  | VFloat q => Ok (negb (Qle_bool q (inject_Z n)))
  | VNone => Ok false
  | VStr _ => Raise TypeError
  end.

(** *** [pd.get_dummies(series, prefix=p)]

    One indicator column per distinct value, in sorted order, named
    [p_value].  The model covers series of strings and series of integers,
    with missing values, which are what the program's three categorical
    columns hold; a missing value has no column of its own. *)

Definition cell_leb (a b : cell) : bool :=
  match a, b with
  | VStr s, VStr t => String.leb s t
  | VInt x, VInt y => x <=? y
  | _, _ => true
  end.

Fixpoint insert_category (v : cell) (l : list cell) : list cell :=
  match l with
  | [] => [v]
  | x :: l' =>
      if cell_eqb v x then l
      else if cell_leb v x then v :: l
      else x :: insert_category v l'
  end.

Definition is_VStr (c : cell) : bool := match c with VStr _ => true | _ => false end.
Definition is_VInt (c : cell) : bool := match c with VInt _ => true | _ => false end.
Definition notna (c : cell) : bool := match c with VNone => false | _ => true end.

Definition categories (data : list cell) : result (list cell) :=
  let present := List.filter notna data in
  if forallb is_VStr present || forallb is_VInt present
  then Ok (fold_right insert_category [] present)
  else Raise TypeError.

Definition cell_str (c : cell) : string :=
  match c with
  | VStr s => s
  | VInt z => pretty z
  | _ => ""
  end.

(** [pd.get_dummies(data, prefix=prefix)] on a column of strings or of
    integers, missing values left out.  A column of floats, which is what
    pandas makes of integers read together with missing values, is outside
    the model. *)
Definition get_dummies (data : list cell) (prefix : string) : result DataFrame :=
  let* cats := categories data in
  Ok (map (fun v => (prefix +:+ "_" +:+ cell_str v,
                     map (fun x => VInt (if cell_eqb x v then 1 else 0)) data))
          cats).

(** ** Requests and responses *)

Record flight := mk_flight { OPERA : string; TIPOVUELO : string; MES : Z }.

Record PredictRequest := mk_request { flights : list flight }.

(** What [check_response] returns: the error pair, or the labels. *)
Inductive check_out :=
  | ErrTuple (field message : string)
  | Labels (predicted : list Z).

(** What the client of [/predict] receives.  An exception other than
    [HTTPException] leaves the handler and becomes a server error. *)
Inductive http_response :=
  | Response200 (predict : check_out)
  | HTTPException (status_code : Z) (detail : string)
  | ServerError (e : exn).

(** [DataFrame(data_df, columns=['OPERA', 'TIPOVUELO', 'MES'])] *)
Definition frame_of_flights (data_df : list flight) : DataFrame :=
  [("OPERA", map (fun f => VStr (OPERA f)) data_df);
   ("TIPOVUELO", map (fun f => VStr (TIPOVUELO f)) data_df);
   ("MES", map (fun f => VInt (MES f)) data_df)].

(** [l.index(x)] *)
Fixpoint index (l : list string) (x : string) : result nat :=
  match l with
  | [] => Raise ValueError
  | y :: l' => if String.eqb y x then Ok 0%nat
               else let* i := index l' x in Ok (S i)
  end.

Definition contains (l : list string) (x : string) : bool :=
  existsb (String.eqb x) l.

(** [m[i][j] = v] *)
Definition setitem2 (m : list (list cell)) (i j : nat) (v : cell)
  : result (list (list cell)) :=
  match m !! i with
  | Some r =>
      if (j <? List.length r)%nat then Ok (<[i := <[j := v]> r]> m)
      else Raise IndexError
  | None => Raise IndexError
  end.

(** [series.values[0]] *)
Definition values0 (c : list cell) : result cell :=
  match c with
  | v :: _ => Ok v
  | [] => Raise IndexError
  end.

(** The truth value of [target_column]. *)
Definition truthy (target_column : option string) : bool :=
  match target_column with
  | Some s => negb (String.eqb s "")
  | None => false
  end.

(** What [preprocess] returns. *)
Inductive preprocessed :=
  | Features (features : DataFrame)
  | FeaturesTarget (features target : DataFrame).

Definition features_of (p : preprocessed) : DataFrame :=
  match p with
  | Features f => f
  | FeaturesTarget f _ => f
  end.

Inductive io_event :=
  | PickleLoad (path : string)
  | PickleDump (path : string).

(** ** [DelayModel] and the HTTP handler

    The classifier is scikit-learn's: its constructor, [fit] and [predict]
    are parameters of the development. *)

Section Service.

Variable Model : Type.
Variable LogisticRegression : list (Z * Q) -> Model.
Variable sk_fit : Model -> DataFrame -> list cell -> result Model.
Variable sk_predict : Model -> DataFrame -> result (list Z).

Definition loc := positive.

(** The objects the caller holds, the two pickle files under [data/], and
    the trace of accesses to them. *)
Record world := mk_world {
  frames : gmap loc DataFrame;
  model_h5 : option Model;
  all_features_p : option DataFrame;
  io : list io_event
}.

Definition M (A : Type) : Type := world -> world * result A.

Definition mret {A} (a : A) : M A := fun w => (w, Ok a).

Definition mbind {A B} (c : M A) (k : A -> M B) : M B := fun w =>
  match c w with
  | (w', Ok a) => k a w'
  | (w', Raise e) => (w', Raise e)
  end.

Definition lift {A} (r : result A) : M A := fun w => (w, r).

Notation "'let!' x ':=' c 'in' k" := (mbind c (fun x => k))
  (at level 10, x name, c at level 100, k at level 200).
Notation "c ';;' k" := (mbind c (fun _ => k))
  (at level 100, k at level 200, right associativity).

Definition log (e : io_event) (w : world) : world :=
  mk_world (frames w) (model_h5 w) (all_features_p w) (io w ++ [e]).

(** [data[k]] and [data[k] = v] on the frame object at [data]. *)
Definition getitem (data : loc) (k : string) : M (list cell) := fun w =>
  match frames w !! data with
  | Some df => (w, df_get df k)
  | None => (w, Raise KeyError)
  end.

Definition setitem (data : loc) (k : string) (v : list cell) : M unit := fun w =>
  match frames w !! data with
  | Some df =>
      (mk_world (<[data := df_set df k v]> (frames w))
                (model_h5 w) (all_features_p w) (io w), Ok tt)
  | None => (w, Raise KeyError)
  end.

(** [data.apply(f, axis=1)] for the assignment of line 75.  On a frame
    without rows pandas does not call [f] on rows: [apply] gives back a copy
    of the frame, which the assignment to one column refuses. *)
Definition apply_axis1 {A} (data : loc) (f : row -> result A) : M (list A) :=
  fun w =>
  match frames w !! data with
  | Some df =>
      if (nrows df =? 0)%nat then (w, Raise ValueError)
      else (w, rmap f (df_rows df))
  | None => (w, Raise KeyError)
  end.

(** [pickle.dump(x, open(path, 'wb'))] and [pickle.load(open(path, 'rb'))] *)
Definition dump_features (x : DataFrame) : M unit := fun w =>
  (mk_world (frames w) (model_h5 w) (Some x)
            (io w ++ [PickleDump "data/all_features.p"]), Ok tt).

Definition dump_model (x : Model) : M unit := fun w =>
  (mk_world (frames w) (Some x) (all_features_p w)
            (io w ++ [PickleDump "data/model.h5"]), Ok tt).

Definition load_features : M DataFrame := fun w =>
  (log (PickleLoad "data/all_features.p") w,
   match all_features_p w with
   | Some x => Ok x
   | None => Raise FileNotFoundError
   end).

Definition load_model : M Model := fun w =>
  (log (PickleLoad "data/model.h5") w,
   match model_h5 w with
   | Some x => Ok x
   | None => Raise FileNotFoundError
   end).

Record DelayModel := mk_DelayModel {
  _model : option Model;
  top_10_features : list string;
  THRESHOLD_IN_MINUTES : Z
}.

(** [DelayModel()] *)
Definition __init__ : M DelayModel := fun w =>
  let '(w', loaded) := load_model w in
  let model := match loaded with Ok m => Some m | Raise _ => None end in
  (w', Ok (mk_DelayModel model
    ["OPERA_Latin American Wings"; "MES_7"; "MES_10"; "OPERA_Grupo LATAM";
     "MES_12"; "TIPOVUELO_I"; "MES_4"; "MES_11"; "OPERA_Sky Airline";
     "OPERA_Copa Air"]
    15)).

Definition period_cell (p : option string) : cell :=
  match p with
  | Some s => VStr s
  | None => VNone
  end.

(** [np.where(c > n, 1, 0)] *)
Definition np_where_gt (c : list cell) (n : Z) : result (list cell) :=
  let* b := rmap (fun x => cell_gt x n) c in
  Ok (map (fun b : bool => VInt (if b then 1 else 0)) b).

(** Lines 72-77 of [preprocess]: the four derived columns. *)
Definition derive_columns (self : DelayModel) (data : loc) : M unit :=
  let! fecha_i := getitem data "Fecha-I" in
  let! period_day := lift (rmap (fun c =>
      match c with VStr s => get_period_day s | _ => Raise TypeError end) fecha_i) in
  setitem data "period_day" (map period_cell period_day) ;;
  let! fecha_i := getitem data "Fecha-I" in
  let! high_season := lift (rmap (fun c =>
      match c with VStr s => is_high_season s | _ => Raise AttributeError end) fecha_i) in
  setitem data "high_season" (map VInt high_season) ;;

  let! min_diff := apply_axis1 data get_min_diff in
  setitem data "min_diff" (map VFloat min_diff) ;;

  let! min_diff := getitem data "min_diff" in
  let! delay := lift (np_where_gt min_diff (THRESHOLD_IN_MINUTES self)) in
  setitem data "delay" delay.

(** Lines 79-84: the one-hot columns of the three categorical columns. *)
Definition one_hot (data : loc) : M DataFrame :=
  let! opera := getitem data "OPERA" in
  let! d_opera := lift (get_dummies opera "OPERA") in
  let! tipovuelo := getitem data "TIPOVUELO" in
  let! d_tipovuelo := lift (get_dummies tipovuelo "TIPOVUELO") in
  let! mes := getitem data "MES" in
  let! d_mes := lift (get_dummies mes "MES") in
  mret (concat_axis1 [d_opera; d_tipovuelo; d_mes]).

Definition preprocess (self : DelayModel) (data : loc)
    (target_column : option string) : M preprocessed :=
  derive_columns self data ;;
  let! features := one_hot data in

  dump_features features ;;

  let! projected := lift (df_select features (top_10_features self)) in
  if truthy target_column then
    let! delay := getitem data "delay" in
    mret (FeaturesTarget projected [("delay", delay)])
  else mret (Features projected).

(** [target.iloc[:, 0]] *)
Definition iloc_col0 (target : DataFrame) : result (list cell) :=
  match target with
  | (_, c) :: _ => Ok c
  | [] => Raise IndexError
  end.

Definition count_eq (c : list cell) (n : Z) : Z :=
  Z.of_nat (List.length (List.filter (fun x => cell_eqb x (VInt n)) c)).

(** [a / b] on two integers. *)
Definition truediv (a b : Z) : result Q :=
  match b with
  | Zpos p => Ok (Qred (Qmake a p))
  | Zneg p => Ok (Qred (Qmake (- a) p))
  | Z0 => Raise ZeroDivisionError
  end.

Definition class_weight (target : DataFrame) : result (list (Z * Q)) :=
  let* col := iloc_col0 target in
  let n_y0 := count_eq col 0 in
  let* col := iloc_col0 target in
  let n_y1 := count_eq col 1 in
  let* w1 := truediv n_y0 (Z.of_nat (nrows target)) in
  let* w0 := truediv n_y1 (Z.of_nat (nrows target)) in
  Ok [(1, w1); (0, w0)].

(** [fit] returns nothing; the model gives back the updated [self].  When
    the call raises, the [self] it had reached (line 112 has assigned the
    classifier before line 113 fits it) is not given back. *)
Definition fit (self : DelayModel) (features target : DataFrame) : M DelayModel :=
  let! weights := lift (class_weight target) in
  let self := mk_DelayModel (Some (LogisticRegression weights))
                (top_10_features self) (THRESHOLD_IN_MINUTES self) in
  let! fitted := lift (sk_fit (LogisticRegression weights) features
                              (to_numpy_ravel target)) in
  let self := mk_DelayModel (Some fitted)
                (top_10_features self) (THRESHOLD_IN_MINUTES self) in
  dump_model fitted ;;
  mret self.

Definition predict (self : DelayModel) (features : DataFrame) : result (list Z) :=
  match _model self with
  | Some m => sk_predict m features
  | None => Raise AttributeError
  end.

(** The validation loop of [check_response], lines 261-269: the error pair
    of the first offending flight, or the flights collected. *)
Fixpoint validate (replace_opera : list string) (todo data_df : list flight)
  : (string * string) + list flight :=
  match todo with
  | [] => inr data_df
  | flight :: rest =>
      if (MES flight >? 12) || (MES flight <? 1) then
        inl ("MES", "Column MES not found")
      else if negb (String.eqb (TIPOVUELO flight) "N" ||
                    String.eqb (TIPOVUELO flight) "I") then
        inl ("TIPOVUELO", "Column TIPOVUELO not found")
      else if negb (contains replace_opera (OPERA flight)) then
        inl ("OPERA", "Column OPERA not found")
      else validate replace_opera rest (data_df ++ [flight])
  end.

(** The loop of lines 282-284. *)
Fixpoint fill (top : list string) (features_df : DataFrame)
    (cols : list string) (data_predict : list (list cell))
  : result (list (list cell)) :=
  match cols with
  | [] => Ok data_predict
  | col :: cols' =>
      if contains top col then
        let* i := index top col in
        let* c := df_get features_df col in
        let* v := values0 c in
        let* data_predict := setitem2 data_predict 0 i v in
        fill top features_df cols' data_predict
      else fill top features_df cols' data_predict
  end.

(** Lines 271-286: the frame handed to [predict]. *)
Definition encode (top : list string) (data_df : list flight) : result DataFrame :=
  let data_df := frame_of_flights data_df in
  let* opera := df_get data_df "OPERA" in
  let* d_opera := get_dummies opera "OPERA" in
  let* tipovuelo := df_get data_df "TIPOVUELO" in
  let* d_tipovuelo := get_dummies tipovuelo "TIPOVUELO" in
  let* mes := df_get data_df "MES" in
  let* d_mes := get_dummies mes "MES" in
  let features_df := concat_axis1 [d_opera; d_tipovuelo; d_mes] in
  let data_predict := [repeat (VInt 0) (List.length top)] in
  let* data_predict := fill top features_df (columns features_df) data_predict in
  frame_of_rows data_predict top.

Definition replace_opera_of (features : DataFrame) : list string :=
  let opera_columns :=
    List.filter (fun col => Str.startswith col "OPERA") (columns features) in
  map (fun col => Str.replace col "OPERA_" "") opera_columns.

Definition check_response (self : DelayModel) (data : PredictRequest)
  : M check_out :=
  let! features := load_features in
  let replace_opera := replace_opera_of features in
  match validate replace_opera (flights data) [] with
  | inl (field, message) => mret (ErrTuple field message)
  | inr data_df =>
      let! df := lift (encode (top_10_features self) data_df) in
      let! predicted := lift (predict self df) in
      mret (Labels predicted)
  end.

(** [GET /health] *)
Definition get_health : string * string := ("status", "OK").

(** [POST /predict] *)
Definition post_predict (data : PredictRequest) (w : world)
  : world * http_response :=
  let handler :=
    let! self := __init__ in
    check_response self data in
  match handler w with
  | (w', Raise e) => (w', ServerError e)
  | (w', Ok response) =>
      (w',
       match response with
       | ErrTuple field _ =>
           if String.eqb field "MES" then
             HTTPException 400 "Value in column MES is incorrect"
           else if String.eqb field "TIPOVUELO" then
             HTTPException 400 "Value in column TIPOVUELO is incorrect"
           else if String.eqb field "OPERA" then
             HTTPException 400 "Value in column OPERA is incorrect"
           else Response200 response
       | Labels _ => Response200 response
       end)
  end.

End Service.

(** ** The serving process

    The module body of [challenge/api.py] runs once, when the server
    imports the application: the imports (that of [challenge.model]
    defines the class [DelayModel] and creates no instance), the class
    [PredictRequest], [app = FastAPI()] and the two decorators, which
    register the handlers under their routes.  None of these statements
    opens a file.  The server then calls the handler of each request it
    receives, one request at a time. *)

Module Api.

Section Process.

Variable Model : Type.
Variable sk_predict : Model -> DataFrame -> result (list Z).

Inductive route :=
  | GET (path : string)
  | POST (path : string).

Record FastAPI := mk_FastAPI { routes : list route }.

Definition app : M Model FastAPI :=
  let app := mk_FastAPI [] in
  let app := mk_FastAPI (routes app ++ [GET "/health"]) in
  let app := mk_FastAPI (routes app ++ [POST "/predict"]) in
  mret Model app.

Inductive http_request :=
  | GET_health
  | POST_predict (data : PredictRequest).

Inductive http_answer :=
  | Health (body : string * string)
  | Predict (response : http_response).

Definition handle (request : http_request) (w : world Model)
  : world Model * http_answer :=
  match request with
  | GET_health => (w, Health get_health)
  | POST_predict data =>
      let '(w', response) := post_predict Model sk_predict data w in (w', Predict response)
  end.

Fixpoint serve (requests : list http_request) (w : world Model)
  : world Model * list http_answer :=
  match requests with
  | [] => (w, [])
  | request :: requests =>
      let '(w1, answer) := handle request w in
      let '(w2, answers) := serve requests w1 in
      (w2, answer :: answers)
  end.

(** Startup, then the requests in the order received. *)
Definition process (requests : list http_request) (w : world Model)
  : world Model * list http_answer :=
  match app w with
  | (w0, Ok _) => serve requests w0
  | (w0, Raise _) => (w0, [])
  end.

End Process.

End Api.

(** * Vocabulary of the properties *)

Record in_bounds (d : datetime) : Prop := {
  b_year : 1 <= year d <= 9999;
  b_month : 1 <= month d <= 12;
  b_day : 1 <= day d <= days_in_month (year d) (month d);
  b_hour : 0 <= hour d <= 23;
  b_minute : 0 <= minute d <= 59;
  b_second : 0 <= second d <= 59
}.

Definition seconds_of_time (t : time) : Z :=
  t_second t + t_minute t * 60 + t_hour t * 3600.

Definition time_ok (t : time) : Prop :=
  0 <= t_minute t <= 59 /\ 0 <= t_second t <= 59.

(** The chain of comparisons of [get_period_day], on the seconds since
    midnight. *)
Definition period_of_seconds (t : Z) : option string :=
  if (18000 <? t) && (t <? 43140) then Some "mañana"
  else if (43200 <? t) && (t <? 68340) then Some "tarde"
  else if ((68400 <? t) && (t <? 86340)) || ((0 <? t) && (t <? 17940))
  then Some "noche"
  else None.

(** Seconds since midnight of the wall-clock time [h:m:s]. *)
Definition hms (h m s : Z) : Z := s + m * 60 + h * 3600.

(** The field tuple as one number. *)
Definition key (d : datetime) : Z :=
  ((((year d * 13 + month d) * 32 + day d) * 24 + hour d) * 60 + minute d) * 60
  + second d.

Definition fields_ok (d : datetime) : Prop :=
  1 <= month d <= 12 /\ 1 <= day d <= 31 /\ 0 <= hour d <= 23 /\
  0 <= minute d <= 59 /\ 0 <= second d <= 59.

(** What the comparisons of [is_high_season] accept. *)
Definition in_season (d : datetime) : Prop :=
  let midnight := seconds_of_day d = 0 in
  (month d = 12 /\ 15 <= day d /\ (day d < 31 \/ midnight)) \/
  month d = 1 \/ month d = 2 \/
  (month d = 3 /\ (day d < 3 \/ day d = 3 /\ midnight)) \/
  (month d = 7 /\ 15 <= day d /\ (day d < 31 \/ midnight)) \/
  (month d = 9 /\ 11 <= day d /\ (day d < 30 \/ midnight)).

Definition days_in_year (y : Z) : Z := if is_leap y then 366 else 365.

Definition day_of_year (d : datetime) : Z :=
  days_before_month (year d) (month d) + day d.

(** Elapsed time counted from the calendar: the difference between two
    timestamps as the words 'actual minus scheduled, in minutes' read,
    written without the ordinals and the day length of the [timedelta]
    arithmetic.  The days of the years and of the months before a date are
    added up one by one, a day has 24 hours, an hour 60 minutes and a
    minute 60 seconds. *)
Definition leap_year (y : Z) : bool :=
  if y mod 400 =? 0 then true
  else if y mod 100 =? 0 then false
  else y mod 4 =? 0.

Definition month_length (y m : Z) : Z :=
  match m with
  | 2 => if leap_year y then 29 else 28
  | 4 | 6 | 9 | 11 => 30
  | _ => 31
  end.

(** The days of the years 1 to [n]. *)
Fixpoint days_of_years (n : nat) : Z :=
  match n with
  | O => 0
  | S k => days_of_years k + (if leap_year (Z.of_nat (S k)) then 366 else 365)
  end.

(** The days of the months 1 to [n] of the year [y]. *)
Fixpoint days_of_months (y : Z) (n : nat) : Z :=
  match n with
  | O => 0
  | S k => days_of_months y k + month_length y (Z.of_nat (S k))
  end.

(** Whole days from 0001-01-01 to the date of [d]. *)
Definition days_elapsed (d : datetime) : Z :=
  days_of_years (Z.to_nat (year d - 1)) +
  days_of_months (year d) (Z.to_nat (month d - 1)) +
  (day d - 1).

(** Seconds from 0001-01-01 00:00:00 to [d]. *)
Definition seconds_elapsed (d : datetime) : Z :=
  ((days_elapsed d * 24 + hour d) * 60 + minute d) * 60 + second d.

Definition elapsed_seconds (scheduled actual : datetime) : Z :=
  seconds_elapsed actual - seconds_elapsed scheduled.

Definition elapsed_minutes (scheduled actual : datetime) : Q :=
  elapsed_seconds scheduled actual # 60.

(** Number of labels equal to [c], and number of labels different from it. *)
Definition count_label (c : Z) (labels : list Z) : Z :=
  Z.of_nat (count_occ Z.eq_dec labels c).

Definition count_other (c : Z) (labels : list Z) : Z :=
  Z.of_nat (List.length (List.filter (fun l => negb (l =? c)) labels)).

Definition n_samples (labels : list Z) : Z := Z.of_nat (List.length labels).

Definition valid_flight (vocab : list string) (f : flight) : Prop :=
  1 <= MES f <= 12 /\ (TIPOVUELO f = "N" \/ TIPOVUELO f = "I") /\
  In (OPERA f) vocab.

(** The field an invalid flight is rejected for: the first that fails, in
    the order MES, TIPOVUELO, OPERA. *)
Inductive first_error (vocab : list string) (f : flight) : string -> Prop :=
  | error_MES :
      ~ 1 <= MES f <= 12 -> first_error vocab f "MES"
  | error_TIPOVUELO :
      1 <= MES f <= 12 -> TIPOVUELO f <> "N" -> TIPOVUELO f <> "I" ->
      first_error vocab f "TIPOVUELO"
  | error_OPERA :
      1 <= MES f <= 12 -> TIPOVUELO f = "N" \/ TIPOVUELO f = "I" ->
      ~ In (OPERA f) vocab -> first_error vocab f "OPERA".

(** The name [get_dummies] gives the column of a value. *)
Definition dummy_name (prefix : string) (v : cell) : string :=
  prefix +:+ "_" +:+ cell_str v.

(** The one-hot columns a flight has a 1 in. *)
Definition one_hot_names (f : flight) : list string :=
  [dummy_name "OPERA" (VStr (OPERA f));
   dummy_name "TIPOVUELO" (VStr (TIPOVUELO f));
   dummy_name "MES" (VInt (MES f))].

(** [series.values[0]] of column [k], when there is one. *)
Definition first_value (df : DataFrame) (k : string) : cell :=
  match df_get df k with
  | Ok (v :: _) => v
  | _ => VNone
  end.

Definition indicator (data : list cell) (v : cell) : list cell :=
  map (fun x => VInt (if cell_eqb x v then 1 else 0)) data.

Definition dummies (prefix : string) (data cats : list cell) : DataFrame :=
  map (fun v => (dummy_name prefix v, indicator data v)) cats.

Definition K_str (c : cell) : Prop := exists s, c = VStr s.
Definition K_int (c : cell) : Prop := exists z, c = VInt z.

(** The indicator of one row in vocabulary column [k]. *)
Definition hot (k : string) (f : flight) : cell :=
  VInt (if contains (one_hot_names f) k then 1 else 0).

(** The frame [check_response] hands to [predict] for a first flight [f],
    and the one it hands over for no flight at all. *)
Definition encode_row (top : list string) (f : flight) : DataFrame :=
  map (fun k => (k, [hot k f])) top.

Definition zero_frame (top : list string) : DataFrame :=
  map (fun k => (k, [VInt 0])) top.

Definition features_of_flights (data_df : list flight) : DataFrame :=
  (dummies "OPERA" (map VStr (map OPERA data_df))
     (fold_right insert_category [] (map VStr (map OPERA data_df))) ++
   dummies "TIPOVUELO" (map VStr (map TIPOVUELO data_df))
     (fold_right insert_category [] (map VStr (map TIPOVUELO data_df))) ++
   dummies "MES" (map VInt (map MES data_df))
     (fold_right insert_category [] (map VInt (map MES data_df))) ++ [])%list.

(** The list [__init__] assigns to [top_10_features]. *)
Definition vocabulary : list string :=
  ["OPERA_Latin American Wings"; "MES_7"; "MES_10"; "OPERA_Grupo LATAM";
   "MES_12"; "TIPOVUELO_I"; "MES_4"; "MES_11"; "OPERA_Sky Airline";
   "OPERA_Copa Air"].

(** What the program expects of the fitted classifier: one label, 0 or 1,
    per row of the frame it is given. *)
Definition binary_classifier {Model : Type}
    (sk_predict : Model -> DataFrame -> result (list Z)) (m : Model) : Prop :=
  forall X, exists l,
    sk_predict m X = Ok l /\ List.length l = nrows X /\
    Forall (fun y => y = 0 \/ y = 1) l.

(** The files a request makes the program open. *)
Definition loads_of (request : Api.http_request) : list io_event :=
  match request with
  | Api.GET_health => []
  | Api.POST_predict _ => [PickleLoad "data/model.h5"; PickleLoad "data/all_features.p"]
  end.

(** Every column is as long as the index. *)
Definition wf_frame (df : DataFrame) : Prop :=
  Forall (fun kc => List.length (snd kc) = nrows df) df.

(** The label [preprocess] derives from a minute difference. *)
Definition delay_label (threshold : Z) (q : Q) : cell :=
  VInt (if Qle_bool q (inject_Z threshold) then 0 else 1).

(** A timestamp [strptime] accepts in the program's format. *)
Definition parses (s : string) : Prop :=
  exists d, strptime_Ymd_HMS s = Ok d.

(** The columns [preprocess] adds. *)
Definition derived_names : list string :=
  ["period_day"; "high_season"; "min_diff"; "delay"].

(** The caller's frame after lines 72-77. *)
Definition derived_frame (df : DataFrame) (threshold : Z)
    (period_day : list (option string)) (high_season : list Z) (min_diff : list Q)
  : DataFrame :=
  df_set (df_set (df_set (df_set df
    "period_day" (map period_cell period_day))
    "high_season" (map VInt high_season))
    "min_diff" (map VFloat min_diff))
    "delay" (map (delay_label threshold) min_diff).

(** [df[names]], when every name is a column. *)
Definition projection (df : DataFrame) (names : list string) : DataFrame :=
  map (fun k => (k, match df_get df k with Ok c => c | Raise _ => [] end)) names.

(** The world with the frame at [data] replaced. *)
Definition with_frame (Model : Type) (w : world Model) (data : loc)
    (df : DataFrame) : world Model :=
  mk_world Model (<[data := df]> (frames Model w)) (model_h5 Model w)
           (all_features_p Model w) (io Model w).

(** The three details [POST /predict] can give with status 400. *)
Definition details_400 : list string :=
  ["Value in column MES is incorrect"; "Value in column TIPOVUELO is incorrect";
   "Value in column OPERA is incorrect"].

(** [old in s]: [old] occurs somewhere in [s]. *)
Fixpoint occurs (old s : string) : bool :=
  match s with
  | EmptyString => String.prefix old ""
  | String _ r => String.prefix old s || occurs old r
  end.


(** A row with the two timestamps [get_min_diff] reads. *)
Definition timestamps (scheduled actual : string) : row :=
  [("Fecha-I", VStr scheduled); ("Fecha-O", VStr actual)].

(** [s.isascii()] *)
Fixpoint isascii (s : string) : bool :=
  match s with
  | EmptyString => true
  | String c r => (nat_of_ascii c <? 128)%nat && isascii r
  end.

(** [str(d)], the text of a timestamp as the data writes it:
    [YYYY-MM-DD HH:MM:SS], every field padded with zeros. *)
Definition digit (n : Z) : ascii := ascii_of_nat (Z.to_nat (48 + n)).

Definition two_digits (n : Z) : string :=
  String (digit (n / 10)) (String (digit (n mod 10)) "").

Definition isoformat (d : datetime) : string :=
  two_digits (year d / 100) +:+ two_digits (year d mod 100) +:+ "-" +:+
  two_digits (month d) +:+ "-" +:+ two_digits (day d) +:+ " " +:+
  two_digits (hour d) +:+ ":" +:+ two_digits (minute d) +:+ ":" +:+
  two_digits (second d).

(** Strictly below, in the order [get_dummies] sorts categories by. *)
Definition cell_lt (a b : cell) : Prop :=
  cell_leb a b = true /\ cell_eqb a b = false.

(** Every element strictly below all later ones. *)
Fixpoint ascending (l : list cell) : Prop :=
  match l with
  | [] => True
  | x :: l' => Forall (cell_lt x) l' /\ ascending l'
  end.

(** ** A small classifier and store to run the service on *)

Module Demo.

(** A model is a column name: a row is labelled by that column's cell. *)
Definition Model := string.

Definition LogisticRegression (w : list (Z * Q)) : Model := "TIPOVUELO_I".

Definition sk_fit (m : Model) (X : DataFrame) (y : list cell) : result Model :=
  Ok m.

Definition sk_predict (m : Model) (X : DataFrame) : result (list Z) :=
  Ok (map (fun r => match row_get r m with Ok (VInt 1) => 1 | _ => 0 end)
          (df_rows X)).

Definition self : DelayModel Model :=
  mk_DelayModel Model (Some "TIPOVUELO_I") vocabulary 15.

Definition stored_features : DataFrame :=
  [("OPERA_American Airlines", []); ("OPERA_Grupo LATAM", []);
   ("OPERA_Sky Airline", []); ("TIPOVUELO_I", []); ("TIPOVUELO_N", []);
   ("MES_1", []); ("MES_7", [])].

Definition train_flights : list flight :=
  [mk_flight "Latin American Wings" "I" 7; mk_flight "Grupo LATAM" "N" 10;
   mk_flight "Sky Airline" "N" 12; mk_flight "Copa Air" "N" 4;
   mk_flight "Copa Air" "I" 11].

(** Five flights that between them have every column of the vocabulary. *)
Definition training : DataFrame :=
  [("Fecha-I", map VStr ["2023-07-15 10:00:00"; "2023-10-01 13:00:00";
                         "2023-12-31 23:00:00"; "2023-04-02 05:00:00";
                         "2023-11-05 20:00:00"]);
   ("Fecha-O", map VStr ["2023-07-15 10:20:00"; "2023-10-01 13:15:00";
                         "2024-01-01 00:30:00"; "2023-04-02 04:50:00";
                         "2023-11-05 20:00:30"]);
   ("OPERA", map VStr (map OPERA train_flights));
   ("TIPOVUELO", map VStr (map TIPOVUELO train_flights));
   ("MES", map VInt (map MES train_flights))].

(** One flight whose airline, type and month are all outside it. *)
Definition outside : DataFrame :=
  [("Fecha-I", [VStr "2023-06-01 10:00:00"]);
   ("Fecha-O", [VStr "2023-06-01 10:05:00"]);
   ("OPERA", [VStr "American Airlines"]);
   ("TIPOVUELO", [VStr "N"]);
   ("MES", [VInt 1])].

Definition w0 : world Model :=
  mk_world Model {[ 1%positive := training; 2%positive := outside ]}
           (Some "TIPOVUELO_I") (Some stored_features) [].

Definition two_flights : PredictRequest :=
  mk_request [mk_flight "Grupo LATAM" "N" 1; mk_flight "Sky Airline" "I" 7].

End Demo.

(** ** Stores and frames at the edges *)

Module Edges.

(** A store with the features but no model, and one with neither. *)
Definition no_model : world Demo.Model :=
  mk_world Demo.Model ∅ None (Some Demo.stored_features) [].

Definition nothing_stored : world Demo.Model :=
  mk_world Demo.Model ∅ None None [].

(** A frame whose scheduled timestamp has month 13. *)
Definition bad_schedule : DataFrame :=
  [("Fecha-I", [VStr "2023-13-01 10:00:00"]);
   ("Fecha-O", [VStr "2023-12-01 10:05:00"]);
   ("OPERA", [VStr "Grupo LATAM"]); ("TIPOVUELO", [VStr "N"]); ("MES", [VInt 12])].

(** A frame whose actual timestamp is not a timestamp. *)
Definition bad_actual : DataFrame :=
  [("Fecha-I", [VStr "2023-12-01 10:00:00"]);
   ("Fecha-O", [VStr "cancelled"]);
   ("OPERA", [VStr "Grupo LATAM"]); ("TIPOVUELO", [VStr "N"]); ("MES", [VInt 12])].

Definition frames_world : world Demo.Model :=
  mk_world Demo.Model
    {[ 1%positive := Demo.training; 2%positive := bad_schedule;
       3%positive := bad_actual ]}
    None None [].

(** A frame with the raw columns and no rows. *)
Definition no_rows : DataFrame :=
  [("Fecha-I", []); ("Fecha-O", []); ("OPERA", []); ("TIPOVUELO", []); ("MES", [])].

Definition no_rows_world : world Demo.Model :=
  mk_world Demo.Model {[ 1%positive := no_rows ]} None None [].

End Edges.

(** * Properties *)

(** ** Parsing and time of day *)

Lemma construct_valid d d' : construct d = Ok d' -> d' = d /\ valid d = true.
Proof.
  unfold construct. destruct (valid d) eqn:E; intros H; inversion H; auto.
Qed.

Lemma of_match_valid o d : of_match o = Ok d -> valid d = true.
Proof.
  destruct o as [[d0 [|c r]]|]; simpl; try discriminate.
  intros H. apply construct_valid in H as [-> H]. exact H.
Qed.

Lemma strptime_valid s d : strptime_Ymd_HMS s = Ok d -> valid d = true.
Proof. apply of_match_valid. Qed.

Lemma valid_bounds d : valid d = true -> in_bounds d.
Proof.
  unfold valid. rewrite !andb_true_iff, !Z.leb_le.
  intros H. constructor; lia.
Qed.

Lemma time_lt_seconds a b :
  time_ok a -> time_ok b ->
  time_lt a b = (seconds_of_time a <? seconds_of_time b).
Proof.
  unfold time_ok, time_lt, time_cmp, seconds_of_time, lex. intros Ha Hb.
  destruct (Z.compare_spec (t_hour a) (t_hour b));
  destruct (Z.compare_spec (t_minute a) (t_minute b));
  destruct (Z.compare_spec (t_second a) (t_second b));
  symmetry; first [ apply Z.ltb_lt; lia | apply Z.ltb_ge; lia ].
Qed.

Lemma get_period_day_seconds date d :
  strptime_Ymd_HMS date = Ok d ->
  get_period_day date = Ok (period_of_seconds (seconds_of_day d)).
Proof.
  intros H. pose proof (valid_bounds _ (strptime_valid _ _ H)) as [].
  unfold get_period_day. rewrite H. cbn [rbind].
  change (strptime_HM "05:00") with (Ok (mk_datetime 1900 1 1 5 0 0)).
  change (strptime_HM "11:59") with (Ok (mk_datetime 1900 1 1 11 59 0)).
  change (strptime_HM "12:00") with (Ok (mk_datetime 1900 1 1 12 0 0)).
  change (strptime_HM "18:59") with (Ok (mk_datetime 1900 1 1 18 59 0)).
  change (strptime_HM "19:00") with (Ok (mk_datetime 1900 1 1 19 0 0)).
  change (strptime_HM "23:59") with (Ok (mk_datetime 1900 1 1 23 59 0)).
  change (strptime_HM "00:00") with (Ok (mk_datetime 1900 1 1 0 0 0)).
  change (strptime_HM "4:59") with (Ok (mk_datetime 1900 1 1 4 59 0)).
  cbn [rbind]. unfold time_gt.
  rewrite !time_lt_seconds by (unfold time_ok, time_of; simpl; lia).
  unfold period_of_seconds, time_of, seconds_of_time, seconds_of_day.
  cbn [t_hour t_minute t_second hour minute second].
  change (0 + 0 * 60 + 5 * 3600) with 18000.
  change (0 + 59 * 60 + 11 * 3600) with 43140.
  change (0 + 0 * 60 + 12 * 3600) with 43200.
  change (0 + 59 * 60 + 18 * 3600) with 68340.
  change (0 + 0 * 60 + 19 * 3600) with 68400.
  change (0 + 59 * 60 + 23 * 3600) with 86340.
  change (0 + 0 * 60 + 0 * 3600) with 0.
  change (0 + 59 * 60 + 4 * 3600) with 17940.
  repeat match goal with
         | |- context [if ?b then Ok _ else _] => destruct b
         end; reflexivity.
Qed.

Ltac split_ltb :=
  repeat match goal with
         | |- context [Z.ltb ?a ?b] => destruct (Z.ltb_spec a b)
         end.

(** C5. For every timestamp that parses, [get_period_day] classifies the
    time of day by strict open intervals: 'mañana' exactly for the times
    strictly between 05:00 and 11:59, 'tarde' exactly for those strictly
    between 12:00 and 18:59, 'noche' exactly for those strictly between
    19:00 and 23:59 or strictly between 00:00 and 04:59, and nothing
    ([None]) at every other instant, among them exactly 05:00:00 and
    exactly 11:59:00. *)
Theorem get_period_day_open_intervals date d :
  strptime_Ymd_HMS date = Ok d ->
  let t := seconds_of_day d in
  (get_period_day date = Ok (Some "mañana") <-> hms 5 0 0 < t < hms 11 59 0) /\
  (get_period_day date = Ok (Some "tarde") <-> hms 12 0 0 < t < hms 18 59 0) /\
  (get_period_day date = Ok (Some "noche") <->
     hms 19 0 0 < t < hms 23 59 0 \/ hms 0 0 0 < t < hms 4 59 0) /\
  (get_period_day date = Ok None <->
     t = hms 0 0 0 \/ hms 4 59 0 <= t <= hms 5 0 0 \/
     hms 11 59 0 <= t <= hms 12 0 0 \/ hms 18 59 0 <= t <= hms 19 0 0 \/
     hms 23 59 0 <= t) /\
  (t = hms 5 0 0 \/ t = hms 11 59 0 -> get_period_day date = Ok None).
Proof.
  intros H t.
  assert (Ht : 0 <= t).
  { pose proof (valid_bounds _ (strptime_valid _ _ H)) as [].
    subst t. unfold seconds_of_day. lia. }
  rewrite (get_period_day_seconds _ _ H). fold t. clearbody t.
  unfold period_of_seconds, hms.
  split_ltb; cbn [andb orb];
    repeat split; intros; try discriminate; try reflexivity; try lia.
Qed.

Lemma get_period_day_open_intervals_witness :
  get_period_day "2023-01-01 07:00:00" = Ok (Some "mañana") /\
  get_period_day "2023-01-01 11:59:00" = Ok None.
Proof.
  split.
  - apply (get_period_day_open_intervals "2023-01-01 07:00:00" _ eq_refl).
    vm_compute. split; reflexivity.
  - apply (get_period_day_open_intervals "2023-01-01 11:59:00" _ eq_refl).
    right. reflexivity.
Defined.

(** ** High season *)

Lemma digit_char c :
  in_range "0" "9" c = true ->
  Ascii.eqb c "-" = false /\ Ascii.eqb c "+" = false /\ Ascii.eqb c "_" = false /\
  is_space c = false /\ 0 <= digit_of c <= 9.
Proof.
  destruct c as [[] [] [] [] [] [] [] []]; vm_compute; intros H;
    try discriminate H; repeat split; discriminate.
Qed.

Lemma d2_inv lo1 hi1 lo2 hi2 s v r :
  d2 lo1 hi1 lo2 hi2 s = Some (v, r) ->
  exists a b, s = String a (String b r) /\ in_range lo1 hi1 a = true /\
              in_range lo2 hi2 b = true /\ v = 10 * digit_of a + digit_of b.
Proof.
  destruct s as [|a [|b s]]; simpl; try discriminate.
  destruct (in_range lo1 hi1 a) eqn:Ea; destruct (in_range lo2 hi2 b) eqn:Eb;
    simpl; try discriminate.
  intros H; inversion H; subst. eauto 6.
Qed.

Lemma strptime_year_prefix s d :
  strptime_Ymd_HMS s = Ok d -> Str.int (Str.split0 "-" s) = Ok (year d).
Proof.
  unfold strptime_Ymd_HMS. intros H.
  destruct (re_Y s) as [[y r]|] eqn:EY; [|discriminate H].
  cbn [obind snd fst] in H.
  destruct (lit "-" r) as [r1|] eqn:EL; [|discriminate H].
  assert (Hy : year d = y).
  { cbn [obind] in H.
    repeat match type of H with
      | of_match (obind ?o _) = _ => destruct o; cbn [obind] in H; [|discriminate H]
      end.
    unfold of_match in H.
    match type of H with
    | context [match ?x with EmptyString => _ | String _ _ => _ end] => destruct x
    end; [|discriminate H].
    apply construct_valid in H as [-> _]. reflexivity. }
  rewrite Hy. clear H Hy.
  unfold re_Y in EY.
  destruct (d2 "0" "9" "0" "9" s) as [[hi r0]|] eqn:E1; [|discriminate].
  destruct (d2 "0" "9" "0" "9" r0) as [[lo r2]|] eqn:E2; [|discriminate].
  inversion EY; subst; clear EY.
  apply d2_inv in E1 as (a & b & -> & Ha & Hb & ->).
  apply d2_inv in E2 as (c & e & -> & Hc & He & ->).
  destruct r as [|m r]; cbn [lit] in EL; [discriminate EL|].
  destruct (Ascii.eqb "-" m) eqn:Em; [|discriminate EL].
  apply Ascii.eqb_eq in Em. subst m.
  destruct (digit_char _ Ha) as (Ha1 & Ha2 & Ha3 & Ha4 & Ha5).
  destruct (digit_char _ Hb) as (Hb1 & Hb2 & Hb3 & Hb4 & Hb5).
  destruct (digit_char _ Hc) as (Hc1 & Hc2 & Hc3 & Hc4 & Hc5).
  destruct (digit_char _ He) as (He1 & He2 & He3 & He4 & He5).
  cbn [Str.split0]. rewrite Ha1, Hb1, Hc1, He1. cbn [Ascii.eqb Bool.eqb].
  unfold Str.int, Str.strip. cbn [skip_spaces]. rewrite Ha4.
  cbn [Str.rstrip]. rewrite Ha4, Hb4, Hc4, He4. cbn [andb].
  rewrite Ha1, Ha2. cbn [Str.digits]. rewrite Ha, Hb, Hc, He.
  f_equal. lia.
Qed.

Lemma days_in_month_le y m : days_in_month y m <= 31.
Proof.
  unfold days_in_month.
  destruct (m =? 2); [destruct (is_leap y); lia|].
  destruct ((m =? 4) || (m =? 6) || (m =? 9) || (m =? 11)); lia.
Qed.

Lemma bounds_fields_ok d : in_bounds d -> fields_ok d.
Proof.
  intros []. pose proof (days_in_month_le (year d) (month d)).
  unfold fields_ok. lia.
Qed.

Lemma cmp_key a b : fields_ok a -> fields_ok b -> cmp a b = (key a ?= key b).
Proof.
  unfold fields_ok, cmp, time_cmp, time_of, key, lex.
  cbn [t_hour t_minute t_second]. intros Ha Hb.
  destruct (Z.compare_spec (year a) (year b));
  [destruct (Z.compare_spec (month a) (month b));
   [destruct (Z.compare_spec (day a) (day b));
    [destruct (Z.compare_spec (hour a) (hour b));
     [destruct (Z.compare_spec (minute a) (minute b));
      [destruct (Z.compare_spec (second a) (second b))|..]|..]|..]|..]|..];
  symmetry;
  first [ apply Z.compare_eq_iff; lia | apply Z.compare_lt_iff; lia
        | apply Z.compare_gt_iff; lia ].
Qed.

Lemma le_key a b : fields_ok a -> fields_ok b -> le a b = (key a <=? key b).
Proof. intros Ha Hb. unfold le, Z.leb. now rewrite cmp_key. Qed.

Lemma replace_year_ok d y :
  1 <= y <= 9999 -> valid d = true -> month d <> 2 ->
  replace_year d y =
  Ok (mk_datetime y (month d) (day d) (hour d) (minute d) (second d)).
Proof.
  intros Hy Hv Hm. unfold replace_year.
  assert (E : valid (mk_datetime y (month d) (day d) (hour d) (minute d) (second d))
              = true).
  { apply valid_bounds in Hv as [].
    unfold valid. cbn [year month day hour minute second].
    assert (days_in_month y (month d) = days_in_month (year d) (month d)) as ->.
    { unfold days_in_month. destruct (Z.eqb_spec (month d) 2); [lia|reflexivity]. }
    rewrite !andb_true_iff, !Z.leb_le. lia. }
  now rewrite E.
Qed.

Lemma is_high_season_eval fecha d :
  strptime_Ymd_HMS fecha = Ok d ->
  (is_high_season fecha = Ok 1 /\ in_season d) \/
  (is_high_season fecha = Ok 0 /\ ~ in_season d).
Proof.
  intros H. pose proof (strptime_valid _ _ H) as Hv.
  pose proof (valid_bounds _ Hv) as Hb.
  pose proof (bounds_fields_ok _ Hb) as Hf.
  destruct Hb as [Hby Hbm Hbd Hbh Hbmi Hbs].
  assert (Hsep : month d = 9 -> day d <= 30).
  { intros E. rewrite E in Hbd. exact (proj2 Hbd). }
  unfold is_high_season.
  rewrite (strptime_year_prefix _ _ H), H. cbn [rbind].
  change (strptime_db "15-Dec") with (Ok (mk_datetime 1900 12 15 0 0 0)).
  change (strptime_db "31-Dec") with (Ok (mk_datetime 1900 12 31 0 0 0)).
  change (strptime_db "1-Jan") with (Ok (mk_datetime 1900 1 1 0 0 0)).
  change (strptime_db "3-Mar") with (Ok (mk_datetime 1900 3 3 0 0 0)).
  change (strptime_db "15-Jul") with (Ok (mk_datetime 1900 7 15 0 0 0)).
  change (strptime_db "31-Jul") with (Ok (mk_datetime 1900 7 31 0 0 0)).
  change (strptime_db "11-Sep") with (Ok (mk_datetime 1900 9 11 0 0 0)).
  change (strptime_db "30-Sep") with (Ok (mk_datetime 1900 9 30 0 0 0)).
  cbn [rbind].
  rewrite !replace_year_ok by (try reflexivity; try lia; cbn; lia).
  cbn [rbind month day hour minute second]. unfold ge.
  rewrite !le_key by (try assumption; unfold fields_ok; cbn; lia).
  unfold in_season, seconds_of_day, key. cbn [year month day hour minute second].
  unfold fields_ok in Hf.
  repeat match goal with
         | |- context [Z.leb ?a ?b] => destruct (Z.leb_spec a b)
         end; cbn [andb orb];
    first [left; split; [reflexivity|lia] | right; split; [reflexivity|lia] ].
Qed.

(** C4. The code departs from the claim on the last day of each range.
    For every timestamp that parses, [is_high_season] returns 1 exactly on
    15-Dec to 30-Dec, 1-Jan to 2-Mar, 15-Jul to 30-Jul and 11-Sep to
    29-Sep at any time of day, and on 31-Dec, 3-Mar, 31-Jul and 30-Sep
    at 00:00:00 only; it returns 0 everywhere else, so also at any later
    time of those four end days. *)
Theorem is_high_season_end_day_midnight fecha d :
  strptime_Ymd_HMS fecha = Ok d ->
  (is_high_season fecha = Ok 1 <-> in_season d) /\
  (is_high_season fecha = Ok 0 <-> ~ in_season d).
Proof.
  intros H.
  destruct (is_high_season_eval _ _ H) as [[-> Hs]|[-> Hs]];
    split; split; intros; try discriminate; try reflexivity; tauto.
Qed.

Lemma is_high_season_end_day_midnight_witness :
  is_high_season "2023-12-31 10:00:00" = Ok 0 /\
  is_high_season "2023-12-31 00:00:00" = Ok 1.
Proof.
  split.
  - apply (is_high_season_end_day_midnight "2023-12-31 10:00:00"
             (mk_datetime 2023 12 31 10 0 0) eq_refl).
    unfold in_season, seconds_of_day. cbn [month day hour minute second]. lia.
  - apply (is_high_season_end_day_midnight "2023-12-31 00:00:00"
             (mk_datetime 2023 12 31 0 0 0) eq_refl).
    unfold in_season, seconds_of_day. cbn [month day hour minute second]. lia.
Defined.

(** ** Minute difference and delay label *)

Lemma is_leap_spec y :
  is_leap y = true <-> y mod 4 = 0 /\ (y mod 100 <> 0 \/ y mod 400 = 0).
Proof.
  unfold is_leap.
  rewrite andb_true_iff, orb_true_iff, negb_true_iff, !Z.eqb_eq, Z.eqb_neq.
  tauto.
Qed.

Lemma days_before_year_succ y :
  days_before_year (y + 1) = days_before_year y + days_in_year y.
Proof.
  unfold days_before_year, days_in_year.
  destruct (is_leap y) eqn:E.
  - apply is_leap_spec in E. cbv zeta. Z.div_mod_to_equations. lia.
  - assert (~ (y mod 4 = 0 /\ (y mod 100 <> 0 \/ y mod 400 = 0))) as E'
      by (rewrite <- is_leap_spec; congruence).
    cbv zeta. Z.div_mod_to_equations. lia.
Qed.

Lemma days_before_year_mono y y' :
  y <= y' -> days_before_year y <= days_before_year y'.
Proof.
  unfold days_before_year. intros H. cbv zeta. Z.div_mod_to_equations. lia.
Qed.

Lemma month_cases m : 1 <= m <= 12 ->
  m = 1 \/ m = 2 \/ m = 3 \/ m = 4 \/ m = 5 \/ m = 6 \/
  m = 7 \/ m = 8 \/ m = 9 \/ m = 10 \/ m = 11 \/ m = 12.
Proof. lia. Qed.

Lemma day_of_year_bounds d :
  in_bounds d -> 1 <= day_of_year d <= days_in_year (year d).
Proof.
  intros [Hy Hm Hd _ _ _]. unfold day_of_year, days_in_year, days_before_month.
  unfold days_in_month in Hd.
  destruct (month_cases _ Hm) as [E|[E|[E|[E|[E|[E|[E|[E|[E|[E|[E|E]]]]]]]]]]];
    rewrite E in *; cbn in Hd |- *; destruct (is_leap (year d)); cbn in Hd |- *; lia.
Qed.

Lemma day_of_year_lt a b :
  in_bounds a -> in_bounds b -> year a = year b ->
  month a < month b -> day_of_year a < day_of_year b.
Proof.
  intros [_ Hm Hd _ _ _] [_ Hm' Hd' _ _ _] Ey Hlt.
  unfold day_of_year, days_before_month. rewrite <- Ey in *.
  unfold days_in_month in Hd, Hd'.
  destruct (month_cases _ Hm) as [E|[E|[E|[E|[E|[E|[E|[E|[E|[E|[E|E]]]]]]]]]]];
  destruct (month_cases _ Hm') as [E'|[E'|[E'|[E'|[E'|[E'|[E'|[E'|[E'|[E'|[E'|E']]]]]]]]]]];
    rewrite E, E' in *; try lia;
    cbn in Hd, Hd' |- *; destruct (is_leap (year a)); cbn in Hd, Hd' |- *; lia.
Qed.

(** Dates are ordered as their ordinals are. *)
Lemma toordinal_compare a b :
  in_bounds a -> in_bounds b ->
  (toordinal a ?= toordinal b) =
  lex (year a ?= year b) (lex (month a ?= month b) (day a ?= day b)).
Proof.
  intros Ha Hb.
  pose proof (day_of_year_bounds _ Ha) as Da.
  pose proof (day_of_year_bounds _ Hb) as Db.
  assert (toordinal a = days_before_year (year a) + day_of_year a) as ->
    by (unfold toordinal, day_of_year; lia).
  assert (toordinal b = days_before_year (year b) + day_of_year b) as ->
    by (unfold toordinal, day_of_year; lia).
  unfold lex.
  destruct (Z.compare_spec (year a) (year b)) as [Ey|Ey|Ey].
  - rewrite Ey in *.
    destruct (Z.compare_spec (month a) (month b)) as [Em|Em|Em].
    + unfold day_of_year. rewrite Ey, Em.
      destruct (Z.compare_spec (day a) (day b));
        [apply Z.compare_eq_iff|apply Z.compare_lt_iff|apply Z.compare_gt_iff]; lia.
    + apply Z.compare_lt_iff.
      pose proof (day_of_year_lt a b Ha Hb). lia.
    + apply Z.compare_gt_iff.
      pose proof (day_of_year_lt b a Hb Ha). lia.
  - apply Z.compare_lt_iff.
    pose proof (days_before_year_succ (year a)).
    pose proof (days_before_year_mono (year a + 1) (year b)). lia.
  - apply Z.compare_gt_iff.
    pose proof (days_before_year_succ (year b)).
    pose proof (days_before_year_mono (year b + 1) (year a)). lia.
Qed.

(** The sign of [a - b] is the order of [a] and [b]. *)
Lemma sub_total_seconds_compare a b :
  in_bounds a -> in_bounds b ->
  (sub_total_seconds a b ?= 0) = cmp a b.
Proof.
  intros Ha Hb. pose proof (toordinal_compare a b Ha Hb) as Ho.
  rewrite (cmp_key a b) by now apply bounds_fields_ok.
  pose proof (bounds_fields_ok _ Ha) as Fa.
  pose proof (bounds_fields_ok _ Hb) as Fb.
  unfold fields_ok in Fa, Fb. clear Ha Hb.
  unfold cmp, time_cmp, time_of, lex, sub_total_seconds, seconds_of_day.
  cbn [t_hour t_minute t_second].
  unfold lex in Ho.
  destruct (Z.compare_spec (toordinal a) (toordinal b));
  destruct (Z.compare_spec (year a) (year b));
  destruct (Z.compare_spec (month a) (month b));
  destruct (Z.compare_spec (day a) (day b));
  try discriminate Ho; clear Ho; unfold key;
  match goal with
  | |- _ = (?x ?= ?y) => destruct (Z.compare_spec x y)
  end;
  first [ apply Z.compare_eq_iff; lia | apply Z.compare_lt_iff; lia
        | apply Z.compare_gt_iff; lia ].
Qed.

Lemma init_eq Model (w : world Model) :
  __init__ Model w =
  (log Model (PickleLoad "data/model.h5") w,
   Ok (mk_DelayModel Model (model_h5 Model w)
     ["OPERA_Latin American Wings"; "MES_7"; "MES_10"; "OPERA_Grupo LATAM";
      "MES_12"; "TIPOVUELO_I"; "MES_4"; "MES_11"; "OPERA_Sky Airline";
      "OPERA_Copa Air"] 15)).
Proof.
  unfold __init__, load_model. destruct (model_h5 Model w); reflexivity.
Qed.

Lemma leap_year_is_leap y : leap_year y = is_leap y.
Proof.
  unfold leap_year, is_leap.
  destruct (Z.eqb_spec (y mod 400) 0) as [E4|E4];
  destruct (Z.eqb_spec (y mod 100) 0) as [E1|E1];
  destruct (Z.eqb_spec (y mod 4) 0) as [E|E]; cbn; try reflexivity;
    exfalso; revert E4 E1 E; Z.div_mod_to_equations; lia.
Qed.

Lemma days_of_years_ordinal n :
  days_of_years n = days_before_year (Z.of_nat n + 1).
Proof.
  induction n as [|k IH].
  - reflexivity.
  - cbn [days_of_years]. rewrite IH, leap_year_is_leap.
    replace (Z.of_nat (S k) + 1) with ((Z.of_nat k + 1) + 1) by lia.
    rewrite (days_before_year_succ (Z.of_nat k + 1)). unfold days_in_year.
    replace (Z.of_nat (S k)) with (Z.of_nat k + 1) by lia. reflexivity.
Qed.

Lemma days_of_months_ordinal y m :
  1 <= m <= 12 ->
  days_of_months y (Z.to_nat (m - 1)) = days_before_month y m.
Proof.
  intros Hm. unfold days_before_month.
  destruct (month_cases _ Hm) as [E|[E|[E|[E|[E|[E|[E|[E|[E|[E|[E|E]]]]]]]]]]];
    subst m; rewrite <- leap_year_is_leap; cbv - [leap_year];
    destruct (leap_year y); reflexivity.
Qed.

Lemma days_elapsed_ordinal d :
  in_bounds d -> days_elapsed d = toordinal d - 1.
Proof.
  intros [Hy Hm _ _ _ _]. unfold days_elapsed, toordinal.
  rewrite days_of_years_ordinal, (days_of_months_ordinal _ _ Hm).
  replace (Z.of_nat (Z.to_nat (year d - 1)) + 1) with (year d) by lia. lia.
Qed.

(** The [timedelta] of the program spans the seconds counted from the
    calendar. *)
Lemma sub_total_seconds_elapsed a b :
  in_bounds a -> in_bounds b ->
  sub_total_seconds a b = elapsed_seconds b a.
Proof.
  intros Ha Hb.
  unfold sub_total_seconds, elapsed_seconds, seconds_elapsed, seconds_of_day.
  rewrite (days_elapsed_ordinal a Ha), (days_elapsed_ordinal b Hb). lia.
Qed.

(** C6. For every row whose scheduled ('Fecha-I') and actual ('Fecha-O')
    timestamps parse, [get_min_diff] returns the difference actual minus
    scheduled in minutes: the seconds that elapse from the scheduled to
    the actual timestamp, counted from the calendar, over 60; it is
    positive exactly when the actual timestamp is the later one.  The
    label derived from it with the threshold [DelayModel()] sets is 1 if
    and only if the difference is strictly greater than 15 minutes, that
    is, more than 900 seconds elapse, and 0 otherwise; a difference of
    exactly 15 minutes is labelled 0. *)
Theorem get_min_diff_minutes_and_label
    Model (w w' : world Model) (self : DelayModel Model)
    (data : row) (so si : string) (fecha_o fecha_i : datetime) :
  __init__ Model w = (w', Ok self) ->
  row_get data "Fecha-O" = Ok (VStr so) ->
  row_get data "Fecha-I" = Ok (VStr si) ->
  strptime_Ymd_HMS so = Ok fecha_o ->
  strptime_Ymd_HMS si = Ok fecha_i ->
  exists (q : Q) (label : Z),
    get_min_diff data = Ok q /\
    (q == elapsed_minutes fecha_i fecha_o)%Q /\
    (q ?= 0)%Q = cmp fecha_o fecha_i /\
    np_where_gt [VFloat q] (THRESHOLD_IN_MINUTES Model self) = Ok [VInt label] /\
    (label = 1 <-> (15 < q)%Q) /\
    (label = 0 <-> (q <= 15)%Q) /\
    ((q == 15)%Q -> label = 0) /\
    (label = 1 <-> 900 < elapsed_seconds fecha_i fecha_o).
Proof.
  intros Hinit Ho Hi Hpo Hpi.
  rewrite init_eq in Hinit. inversion Hinit; subst; clear Hinit.
  cbn [THRESHOLD_IN_MINUTES].
  assert (Bo : in_bounds fecha_o)
    by (apply valid_bounds; eapply strptime_valid; eassumption).
  assert (Bi : in_bounds fecha_i)
    by (apply valid_bounds; eapply strptime_valid; eassumption).
  pose proof (sub_total_seconds_elapsed fecha_o fecha_i Bo Bi) as Hel.
  unfold elapsed_minutes. rewrite <- Hel.
  set (t := sub_total_seconds fecha_o fecha_i).
  exists (Qred (t # 60)), (if Qle_bool (Qred (t # 60)) (inject_Z 15) then 0 else 1).
  assert (Eq : (Qred (t # 60) == t # 60)%Q) by apply Qred_correct.
  split; [|split; [|split; [|split]]].
  - unfold get_min_diff. rewrite Ho. cbn [rbind strptime_cell].
    rewrite Hpo. cbn [rbind]. rewrite Hi. cbn [rbind strptime_cell].
    rewrite Hpi. reflexivity.
  - exact Eq.
  - rewrite <- (sub_total_seconds_compare fecha_o fecha_i Bo Bi).
    fold t. rewrite Eq. unfold Qcompare. cbn [Qnum Qden].
    f_equal; lia.
  - unfold np_where_gt. cbn [rmap rbind cell_gt map].
    destruct (Qle_bool (Qred (t # 60)) (inject_Z 15)); reflexivity.
  - destruct (Qle_bool (Qred (t # 60)) (inject_Z 15)) eqn:E.
    + apply Qle_bool_iff in E. change (inject_Z 15) with 15%Q in E.
      assert (t <= 900) as Ht
        by (rewrite Eq in E; unfold Qle in E; cbn [Qnum Qden] in E; lia).
      repeat split; intros; try discriminate; try reflexivity; try assumption;
        try lia.
      exfalso. eapply Qlt_not_le; eassumption.
    + assert (~ (Qred (t # 60) <= 15)%Q) as E'.
      { intros C. apply Qle_bool_iff in C. change (inject_Z 15) with 15%Q in E.
        congruence. }
      assert (900 < t) as Ht.
      { apply Qnot_le_lt in E'. rewrite Eq in E'. unfold Qlt in E'.
        cbn [Qnum Qden] in E'. lia. }
      repeat split; intros; try discriminate; try reflexivity; try assumption.
      * apply Qnot_le_lt. exact E'.
      * contradiction.
      * exfalso. apply E'. rewrite H. apply Qle_refl.
Qed.

Lemma get_min_diff_minutes_and_label_witness :
  exists q label,
    get_min_diff [("Fecha-I", VStr "2024-02-28 23:50:30");
                  ("Fecha-O", VStr "2024-03-01 00:10:45")] = Ok q /\
    (q == 24 * 60 + 20 + (1 # 4))%Q /\ label = 1.
Proof.
  destruct (get_min_diff_minutes_and_label Demo.Model Demo.w0 _ _
              [("Fecha-I", VStr "2024-02-28 23:50:30");
               ("Fecha-O", VStr "2024-03-01 00:10:45")]
              "2024-03-01 00:10:45" "2024-02-28 23:50:30"
              (mk_datetime 2024 3 1 0 10 45) (mk_datetime 2024 2 28 23 50 30)
              eq_refl eq_refl eq_refl eq_refl eq_refl)
    as (q & label & Hq & Hv & _ & _ & Hl & _).
  exists q, label. split; [exact Hq|]. split.
  - rewrite Hv. vm_compute. reflexivity.
  - apply Hl. rewrite Hv. vm_compute. reflexivity.
Defined.

(** ** Class weights *)

Lemma count_eq_labels labels c :
  count_eq (map VInt labels) c = count_label c labels.
Proof.
  unfold count_eq, count_label. f_equal.
  induction labels as [|l labels IH]; [reflexivity|].
  cbn [map List.filter cell_eqb count_occ].
  destruct (Z.eqb_spec l c); destruct (Z.eq_dec l c); try lia; cbn; congruence.
Qed.

Lemma count_other_binary labels :
  Forall (fun l => l = 0 \/ l = 1) labels ->
  count_other 1 labels = count_label 0 labels /\
  count_other 0 labels = count_label 1 labels.
Proof.
  unfold count_other, count_label.
  induction 1 as [|l labels Hl _ [IH1 IH0]]; [split; reflexivity|].
  destruct Hl as [-> | ->]; cbn [List.filter count_occ];
    change (0 =? 1) with false; change (1 =? 0) with false;
    change (0 =? 0) with true; change (1 =? 1) with true; cbn [negb];
    repeat match goal with
           | |- context [Z.eq_dec ?a ?b] => destruct (Z.eq_dec a b); try lia
           end; cbn [List.length]; lia.
Qed.

Lemma truediv_pos a n :
  (0 < n)%nat ->
  exists q, truediv a (Z.of_nat n) = Ok q /\
            (q == inject_Z a / inject_Z (Z.of_nat n))%Q.
Proof.
  intros Hn. destruct n as [|n]; [lia|].
  cbn [Z.of_nat truediv]. eexists; split; [reflexivity|].
  rewrite Qred_correct. apply Qmake_Qdiv.
Qed.

Section Fit.

Context (Model : Type) (LogisticRegression : list (Z * Q) -> Model)
        (sk_fit : Model -> DataFrame -> list cell -> result Model).

(** C7. In [fit], on a non-empty target of integer labels, the weight of
    class 1 is the number of samples labelled 0 over the number of samples
    and the weight of class 0 is the number of samples labelled 1 over the
    number of samples; on a 0/1 target each weight is the number of samples
    of the other class over the total.  These are the weights the
    classifier is constructed with. *)
Theorem fit_class_weight (self : DelayModel Model) (features : DataFrame)
    (labels : list Z) (w : world Model) :
  labels <> [] ->
  let target := [("delay", map VInt labels)] in
  let total := inject_Z (n_samples labels) in
  exists w1 w0 : Q,
    class_weight target = Ok [(1, w1); (0, w0)] /\
    (w1 == inject_Z (count_label 0 labels) / total)%Q /\
    (w0 == inject_Z (count_label 1 labels) / total)%Q /\
    (Forall (fun l => l = 0 \/ l = 1) labels ->
       (w1 == inject_Z (count_other 1 labels) / total)%Q /\
       (w0 == inject_Z (count_other 0 labels) / total)%Q) /\
    fit Model LogisticRegression sk_fit self features target w =
      match sk_fit (LogisticRegression [(1, w1); (0, w0)]) features
                   (to_numpy_ravel target) with
      | Ok fitted =>
          (mk_world Model (frames Model w) (Some fitted) (all_features_p Model w)
                    (io Model w ++ [PickleDump "data/model.h5"]),
           Ok (mk_DelayModel Model (Some fitted) (top_10_features Model self)
                             (THRESHOLD_IN_MINUTES Model self)))
      | Raise e => (w, Raise e)
      end.
Proof.
  intros Hne target total.
  assert (Hlen : (0 < List.length labels)%nat)
    by (destruct labels; [congruence|cbn; lia]).
  assert (Hrows : nrows target = List.length labels)
    by (unfold target; cbn [nrows]; apply length_map).
  destruct (truediv_pos (count_label 0 labels) _ Hlen) as (w1 & E1 & Q1).
  destruct (truediv_pos (count_label 1 labels) _ Hlen) as (w0 & E0 & Q0).
  assert (Hcw : class_weight target = Ok [(1, w1); (0, w0)]).
  { unfold class_weight. cbn [iloc_col0 target rbind].
    rewrite !count_eq_labels, Hrows, E1. cbn [rbind]. rewrite E0. reflexivity. }
  exists w1, w0. split; [exact Hcw|]. split; [exact Q1|]. split; [exact Q0|].
  split.
  - intros Hb. destruct (count_other_binary labels Hb) as [-> ->]. split; assumption.
  - unfold fit, mbind, lift. rewrite Hcw.
    destruct (sk_fit _ _ _); reflexivity.
Qed.

End Fit.

Lemma fit_class_weight_witness :
  exists w1 w0,
    class_weight [("delay", map VInt [1; 0; 0; 0])] = Ok [(1, w1); (0, w0)] /\
    (w1 == 3 # 4)%Q /\ (w0 == 1 # 4)%Q.
Proof.
  destruct (fit_class_weight Demo.Model Demo.LogisticRegression Demo.sk_fit
              (mk_DelayModel _ None [] 15) [] [1; 0; 0; 0] Demo.w0)
    as (w1 & w0 & H & H1 & H0 & _); [discriminate|].
  exists w1, w0. split; [exact H|]. split.
  - rewrite H1. reflexivity.
  - rewrite H0. reflexivity.
Defined.

(** ** Validation of a batch *)

Lemma contains_In l x : contains l x = true <-> In x l.
Proof.
  unfold contains. rewrite existsb_exists. split.
  - intros (y & Hy & E). apply String.eqb_eq in E. now subst.
  - intros H. exists x. split; [assumption|apply String.eqb_refl].
Qed.

Lemma validate_cases vocab (todo acc : list flight) :
  (Forall (valid_flight vocab) todo /\
   validate vocab todo acc = inr (acc ++ todo)%list) \/
  (exists pre bad post field message,
     todo = (pre ++ bad :: post)%list /\ Forall (valid_flight vocab) pre /\
     first_error vocab bad field /\
     validate vocab todo acc = inl (field, message)).
Proof.
  revert acc. induction todo as [|f todo IH]; intros acc.
  - left. split; [constructor|]. cbn. now rewrite app_nil_r.
  - cbn [validate].
    destruct (Z.gtb_spec (MES f) 12) as [Hhi|Hhi]; cbn [orb].
    { right. exists [], f, todo, "MES", "Column MES not found".
      repeat split; [constructor|]. apply error_MES. lia. }
    destruct (Z.ltb_spec (MES f) 1) as [Hlo|Hlo].
    { right. exists [], f, todo, "MES", "Column MES not found".
      repeat split; [constructor|]. apply error_MES. lia. }
    destruct (String.eqb_spec (TIPOVUELO f) "N") as [HN|HN];
    destruct (String.eqb_spec (TIPOVUELO f) "I") as [HI|HI]; cbn [orb negb].
    4: { right. exists [], f, todo, "TIPOVUELO", "Column TIPOVUELO not found".
         repeat split; [constructor|]. apply error_TIPOVUELO; [lia|assumption..]. }
    all: destruct (contains vocab (OPERA f)) eqn:Ec; cbn [negb].
    all: try (right; exists [], f, todo, "OPERA", "Column OPERA not found";
              repeat split; [constructor|];
              apply error_OPERA; [lia|tauto|];
              rewrite <- contains_In; congruence).
    all: apply contains_In in Ec;
      assert (Hv : valid_flight vocab f) by (unfold valid_flight; split; [lia|tauto]);
      destruct (IH (acc ++ [f])%list) as [[Hall E]|(pre & bad & post & field & msg & -> & Hpre & Herr & E)];
      [ left; split; [constructor; assumption|]; rewrite E, <- app_assoc; reflexivity
      | right; exists (f :: pre), bad, post, field, msg;
        repeat split; [constructor; assumption|assumption|exact E] ].
Qed.

Lemma first_error_not_valid vocab f field :
  first_error vocab f field -> ~ valid_flight vocab f.
Proof. unfold valid_flight. destruct 1; tauto. Qed.

Lemma Forall_app_invalid {A} (P : A -> Prop) pre bad post :
  ~ P bad -> ~ Forall P (pre ++ bad :: post)%list.
Proof.
  intros Hbad H. apply Forall_app in H as [_ H]. inversion H; contradiction.
Qed.

Section Validation.

Context (Model : Type) (sk_predict : Model -> DataFrame -> result (list Z)).

(** C2. When some flight of a batch is invalid, [check_response] goes
    through the flights in order, checks each in the order MES (1..12),
    TIPOVUELO ('N' or 'I'), OPERA (in the airlines of the stored features)
    and stops at the first field that fails: every flight before is valid,
    the error pair names that field, no label is returned, and
    [POST /predict] answers 400 with a detail naming that field. *)
Theorem invalid_batch_rejected (w : world Model) (features : DataFrame)
    (self : DelayModel Model) (data : PredictRequest) :
  all_features_p Model w = Some features ->
  let vocab := replace_opera_of features in
  ~ Forall (valid_flight vocab) (flights data) ->
  exists pre bad post field message,
    flights data = (pre ++ bad :: post)%list /\
    Forall (valid_flight vocab) pre /\
    first_error vocab bad field /\
    check_response Model sk_predict self data w =
      (log Model (PickleLoad "data/all_features.p") w, Ok (ErrTuple field message)) /\
    snd (post_predict Model sk_predict data w) =
      HTTPException 400 ("Value in column " +:+ field +:+ " is incorrect").
Proof.
  intros Hf vocab Hinv.
  destruct (validate_cases vocab (flights data) [])
    as [[Hall _]|(pre & bad & post & field & msg & E & Hpre & Herr & Hval)];
    [contradiction|].
  exists pre, bad, post, field, msg.
  split; [exact E|]. split; [exact Hpre|]. split; [exact Herr|].
  assert (Hcr : forall self' w1, all_features_p Model w1 = Some features ->
            check_response Model sk_predict self' data w1 =
            (log Model (PickleLoad "data/all_features.p") w1, Ok (ErrTuple field msg))).
  { intros self' w1 H1. unfold check_response, mbind, load_features.
    rewrite H1. fold vocab. rewrite Hval. reflexivity. }
  split; [apply Hcr; exact Hf|].
  unfold post_predict, mbind. rewrite init_eq.
  rewrite Hcr by exact Hf. cbn [snd].
  destruct Herr; reflexivity.
Qed.

End Validation.

Lemma invalid_batch_rejected_witness :
  exists field,
    snd (post_predict Demo.Model Demo.sk_predict
           (mk_request [mk_flight "Grupo LATAM" "N" 1; mk_flight "x" "I" 13;
                        mk_flight "y" "Z" 3]) Demo.w0)
    = HTTPException 400 ("Value in column " +:+ field +:+ " is incorrect").
Proof.
  destruct (invalid_batch_rejected Demo.Model Demo.sk_predict Demo.w0
              Demo.stored_features (mk_DelayModel _ None [] 15)
              (mk_request [mk_flight "Grupo LATAM" "N" 1; mk_flight "x" "I" 13;
                           mk_flight "y" "Z" 3]) eq_refl)
    as (pre & bad & post & field & msg & E & Hpre & Herr & _ & H).
  - intros H. inversion H as [|? ? _ H']; subst.
    inversion H' as [|? ? [Hm _] _]; subst. cbn in Hm. lia.
  - exists field. exact H.
Defined.

(** ** One-hot encoding of a batch *)

Lemma index_spec top k :
  contains top k = true ->
  exists i, index top k = Ok i /\ top !! i = Some k.
Proof.
  induction top as [|y top IH]; [discriminate|].
  unfold contains. cbn [existsb index]. rewrite String.eqb_sym.
  destruct (String.eqb_spec y k) as [->|Hne]; cbn [orb].
  - intros _. exists 0%nat. split; reflexivity.
  - intros H. destruct (IH H) as (i & -> & Hi). exists (S i). split; [reflexivity|exact Hi].
Qed.

Lemma contains_cons l y k :
  contains (y :: l) k = String.eqb k y || contains l k.
Proof. reflexivity. Qed.

Lemma fill_spec top fdf cols (r : list cell) :
  NoDup top -> List.length r = List.length top ->
  (forall col, In col cols -> In col top ->
     exists v c, df_get fdf col = Ok (v :: c)) ->
  exists r',
    fill top fdf cols [r] = Ok [r'] /\ List.length r' = List.length top /\
    forall j k, top !! j = Some k ->
      r' !! j = if contains cols k then Some (first_value fdf k) else r !! j.
Proof.
  intros Hnd. revert r. induction cols as [|col cols IH]; intros r Hlen Hget.
  - exists r. split; [reflexivity|]. split; [assumption|]. intros j k Hj. reflexivity.
  - cbn [fill]. destruct (contains top col) eqn:Ec.
    + destruct (index_spec _ _ Ec) as (i & Ei & Hi).
      destruct (Hget col (or_introl eq_refl) (proj1 (contains_In _ _) Ec))
        as (v & c & Eg).
      rewrite Ei, Eg. cbn [rbind values0]. unfold setitem2. cbn [lookup list_lookup].
      assert (Hlt : (i < List.length r)%nat)
        by (rewrite Hlen; eapply lookup_lt_Some; exact Hi).
      destruct (Nat.ltb_spec i (List.length r)) as [_|]; [|lia].
      cbn [rbind]. cbn [insert list_insert].
      destruct (IH (<[i:=v]> r)) as (r' & Ef & Hl' & Hr').
      { now rewrite length_insert. }
      { intros col' Hin. apply Hget. now right. }
      exists r'. split; [exact Ef|]. split; [exact Hl'|].
      intros j k Hj. rewrite (Hr' j k Hj), contains_cons.
      destruct (contains cols k) eqn:Ek; [now rewrite orb_true_r|].
      rewrite orb_false_r.
      destruct (String.eqb_spec k col) as [->|Hne].
      * assert (j = i) as -> by (eapply NoDup_lookup; eassumption).
        rewrite list_lookup_insert_eq by exact Hlt.
        unfold first_value. now rewrite Eg.
      * apply list_lookup_insert_ne. intros ->. congruence.
    + destruct (IH r Hlen) as (r' & Ef & Hl' & Hr').
      { intros col' Hin. apply Hget. now right. }
      exists r'. split; [exact Ef|]. split; [exact Hl'|].
      intros j k Hj. rewrite (Hr' j k Hj), contains_cons.
      destruct (String.eqb_spec k col) as [->|Hne]; [|reflexivity].
      assert (contains top col = true)
        by (apply contains_In, list_elem_of_In, list_elem_of_lookup; eauto).
      congruence.
Qed.

Lemma df_get_app a b k :
  df_get (a ++ b)%list k =
  match df_get a k with
  | Ok c => Ok c
  | Raise _ => df_get b k
  end.
Proof.
  induction a as [|[k' c] a IH]; [reflexivity|].
  cbn [app df_get]. destruct (String.eqb k' k); [reflexivity|exact IH].
Qed.

Lemma df_get_columns df k :
  match df_get df k with
  | Ok _ => contains (columns df) k = true
  | Raise e => e = KeyError /\ contains (columns df) k = false
  end.
Proof.
  induction df as [|[k' c] df IH]; [split; reflexivity|].
  cbn [df_get columns map fst]. rewrite contains_cons, (String.eqb_sym k k').
  destruct (String.eqb k' k); [reflexivity|exact IH].
Qed.

Section Dummies.

(** A kind of cell, strings or integers, on which equality and the
    printed value determine the cell. *)
Variable K : cell -> Prop.
Hypothesis K_eqb : forall a b, K a -> K b -> cell_eqb a b = true -> a = b.
Hypothesis K_refl : forall a, K a -> cell_eqb a a = true.
Hypothesis K_str : forall a b, K a -> K b -> cell_str a = cell_str b -> a = b.

Lemma insert_category_In v l y :
  K v -> Forall K l -> In y (insert_category v l) <-> y = v \/ In y l.
Proof.
  intros Kv. induction 1 as [|x l Kx Kl IH]; cbn [insert_category].
  - cbn. intuition congruence.
  - destruct (cell_eqb v x) eqn:E.
    + apply K_eqb in E as ->; try assumption. cbn. intuition congruence.
    + destruct (cell_leb v x); cbn [In]; [intuition congruence|].
      rewrite IH. intuition congruence.
Qed.

Lemma insert_category_K v l : K v -> Forall K l -> Forall K (insert_category v l).
Proof.
  intros Kv Kl. apply List.Forall_forall. intros y Hy.
  apply insert_category_In in Hy as [->|Hy]; try assumption.
  rewrite List.Forall_forall in Kl. now apply Kl.
Qed.

Lemma categories_spec data :
  Forall K data ->
  Forall K (fold_right insert_category [] data) /\
  forall y, In y (fold_right insert_category [] data) <-> In y data.
Proof.
  induction 1 as [|x data Kx Kd [IHK IHin]]; cbn [fold_right].
  - split; [constructor|tauto].
  - split; [now apply insert_category_K|].
    intros y. rewrite insert_category_In by assumption. cbn [In].
    rewrite IHin. intuition congruence.
Qed.

Lemma dummy_name_inj prefix a b :
  K a -> K b -> dummy_name prefix a = dummy_name prefix b -> a = b.
Proof.
  intros Ka Kb H. apply K_str; try assumption.
  unfold dummy_name in H.
  apply (inj (String.app prefix)) in H. now apply (inj (String.app "_")) in H.
Qed.

Lemma df_get_dummies prefix data cats k :
  (exists v, In v cats /\ k = dummy_name prefix v /\
             df_get (dummies prefix data cats) k = Ok (indicator data v)) \/
  ((forall v, In v cats -> k <> dummy_name prefix v) /\
   df_get (dummies prefix data cats) k = Raise KeyError).
Proof.
  induction cats as [|v cats IH].
  - right. split; [intros v []|reflexivity].
  - cbn [dummies map df_get]. fold (dummies prefix data cats).
    destruct (String.eqb_spec (dummy_name prefix v) k) as [E|E].
    + left. exists v. split; [now left|]. split; [now symmetry|reflexivity].
    + destruct IH as [(v' & Hin & -> & Eg)|[Hno Eg]].
      * left. exists v'. split; [now right|]. split; [reflexivity|exact Eg].
      * right. split; [|exact Eg]. intros v' [->|Hin]; [congruence|now apply Hno].
Qed.

(** Column [k] of the dummies of a series: the rows whose value is named
    [k]. *)
Lemma df_get_dummies_rows prefix data k :
  Forall K data ->
  let dm := dummies prefix data (fold_right insert_category [] data) in
  match df_get dm k with
  | Ok c =>
      (exists v, k = dummy_name prefix v) /\
      c = map (fun x => VInt (if String.eqb k (dummy_name prefix x) then 1 else 0))
              data
  | Raise _ => forall x, In x data -> k <> dummy_name prefix x
  end.
Proof.
  intros HK dm. destruct (categories_spec _ HK) as [Kc Hin].
  destruct (df_get_dummies prefix data (fold_right insert_category [] data) k)
    as [(v & Hv & -> & Eg)|[Hno Eg]]; subst dm; rewrite Eg.
  - split; [now exists v|]. unfold indicator. apply map_ext_in.
    intros x Hx. f_equal.
    assert (Kv : K v) by (rewrite List.Forall_forall in Kc; now apply Kc).
    assert (Kx : K x) by (rewrite List.Forall_forall in HK; now apply HK).
    destruct (String.eqb_spec (dummy_name prefix v) (dummy_name prefix x)) as [E|E].
    + apply dummy_name_inj in E as ->; try assumption. now rewrite K_refl.
    + destruct (cell_eqb x v) eqn:E'; [|reflexivity].
      apply K_eqb in E' as ->; try assumption. congruence.
  - intros x Hx. apply Hno. now apply Hin.
Qed.

End Dummies.

Lemma get_dummies_str prefix (ss : list string) :
  get_dummies (map VStr ss) prefix =
  Ok (dummies prefix (map VStr ss) (fold_right insert_category [] (map VStr ss))).
Proof.
  unfold get_dummies, categories.
  assert (List.filter notna (map VStr ss) = map VStr ss) as ->
    by (induction ss; cbn; congruence).
  assert (forallb is_VStr (map VStr ss) = true) as ->
    by (induction ss; cbn; congruence).
  reflexivity.
Qed.

Lemma get_dummies_int prefix (zs : list Z) :
  get_dummies (map VInt zs) prefix =
  Ok (dummies prefix (map VInt zs) (fold_right insert_category [] (map VInt zs))).
Proof.
  unfold get_dummies, categories.
  assert (List.filter notna (map VInt zs) = map VInt zs) as ->
    by (induction zs; cbn; congruence).
  assert (forallb is_VInt (map VInt zs) = true) as ->
    by (induction zs; cbn; congruence).
  rewrite orb_true_r. reflexivity.
Qed.

Lemma Forall_K_str ss : Forall K_str (map VStr ss).
Proof. induction ss; constructor; [now eexists|assumption]. Qed.

Lemma Forall_K_int zs : Forall K_int (map VInt zs).
Proof. induction zs; constructor; [now eexists|assumption]. Qed.

Lemma dummies_str_rows prefix ss k :
  let dm := dummies prefix (map VStr ss)
              (fold_right insert_category [] (map VStr ss)) in
  match df_get dm k with
  | Ok c =>
      (exists v, k = dummy_name prefix v) /\
      c = map (fun s => VInt (if String.eqb k (dummy_name prefix (VStr s))
                              then 1 else 0)) ss
  | Raise _ => forall s, In s ss -> k <> dummy_name prefix (VStr s)
  end.
Proof.
  pose proof (df_get_dummies_rows K_str) as H.
  specialize (H ltac:(intros a b [x ->] [y ->]; cbn; intros E;
                      apply String.eqb_eq in E; congruence)).
  specialize (H ltac:(intros a [x ->]; cbn; apply String.eqb_refl)).
  specialize (H ltac:(intros a b [x ->] [y ->]; cbn; congruence)).
  specialize (H prefix (map VStr ss) k (Forall_K_str ss)). cbv zeta in H |- *.
  destruct (df_get _ k) as [c|e].
  - destruct H as [Hv ->]. split; [exact Hv|]. now rewrite map_map.
  - intros s Hs. apply H. now apply in_map.
Qed.

Lemma dummies_int_rows prefix zs k :
  let dm := dummies prefix (map VInt zs)
              (fold_right insert_category [] (map VInt zs)) in
  match df_get dm k with
  | Ok c =>
      (exists v, k = dummy_name prefix v) /\
      c = map (fun z => VInt (if String.eqb k (dummy_name prefix (VInt z))
                              then 1 else 0)) zs
  | Raise _ => forall z, In z zs -> k <> dummy_name prefix (VInt z)
  end.
Proof.
  pose proof (df_get_dummies_rows K_int) as H.
  specialize (H ltac:(intros a b [x ->] [y ->]; cbn; intros E;
                      apply Z.eqb_eq in E; congruence)).
  specialize (H ltac:(intros a [x ->]; cbn; apply Z.eqb_refl)).
  specialize (H ltac:(intros a b [x ->] [y ->]; cbn; intros E; f_equal;
                      now apply (inj pretty))).
  specialize (H prefix (map VInt zs) k (Forall_K_int zs)). cbv zeta in H |- *.
  destruct (df_get _ k) as [c|e].
  - destruct H as [Hv ->]. split; [exact Hv|]. now rewrite map_map.
  - intros z Hz. apply H. now apply in_map.
Qed.

Lemma prefix_OPERA_TIPOVUELO v v' :
  dummy_name "OPERA" v <> dummy_name "TIPOVUELO" v'.
Proof. unfold dummy_name. cbn. discriminate. Qed.

Lemma prefix_OPERA_MES v v' : dummy_name "OPERA" v <> dummy_name "MES" v'.
Proof. unfold dummy_name. cbn. discriminate. Qed.

Lemma prefix_TIPOVUELO_MES v v' : dummy_name "TIPOVUELO" v <> dummy_name "MES" v'.
Proof. unfold dummy_name. cbn. discriminate. Qed.

Lemma eqb_neq_false (a b : string) : a <> b -> String.eqb a b = false.
Proof. intros H. now apply String.eqb_neq. Qed.

Lemma features_rows fs k :
  match df_get (features_of_flights fs) k with
  | Ok c => c = map (hot k) fs
  | Raise _ => forall f, In f fs -> contains (one_hot_names f) k = false
  end.
Proof.
  unfold features_of_flights. rewrite !df_get_app.
  pose proof (dummies_str_rows "OPERA" (map OPERA fs) k) as Ho.
  pose proof (dummies_str_rows "TIPOVUELO" (map TIPOVUELO fs) k) as Ht.
  pose proof (dummies_int_rows "MES" (map MES fs) k) as Hm.
  cbv zeta in Ho, Ht, Hm.
  assert (Hc : forall f, contains (one_hot_names f) k =
     String.eqb k (dummy_name "OPERA" (VStr (OPERA f))) ||
     (String.eqb k (dummy_name "TIPOVUELO" (VStr (TIPOVUELO f))) ||
      String.eqb k (dummy_name "MES" (VInt (MES f))))).
  { intros f. unfold one_hot_names. rewrite !contains_cons.
    change (contains [] k) with false. now rewrite !orb_false_r. }
  destruct (df_get (dummies "OPERA" _ _) k) as [c|e].
  { destruct Ho as [[v ->] ->]. rewrite map_map. apply map_ext. intros f.
    unfold hot. rewrite Hc.
    rewrite (eqb_neq_false _ _ (prefix_OPERA_TIPOVUELO v (VStr (TIPOVUELO f)))).
    rewrite (eqb_neq_false _ _ (prefix_OPERA_MES v (VInt (MES f)))).
    now rewrite !orb_false_r. }
  assert (Ho' : forall f, In f fs ->
            String.eqb k (dummy_name "OPERA" (VStr (OPERA f))) = false).
  { intros f Hf. apply eqb_neq_false, Ho. now apply in_map. }
  destruct (df_get (dummies "TIPOVUELO" _ _) k) as [c|e'].
  { destruct Ht as [[v ->] ->]. rewrite map_map. apply map_ext_in. intros f Hf.
    unfold hot. rewrite Hc, (Ho' f Hf).
    rewrite (eqb_neq_false _ _ (prefix_TIPOVUELO_MES v (VInt (MES f)))).
    now rewrite !orb_false_r. }
  assert (Ht' : forall f, In f fs ->
            String.eqb k (dummy_name "TIPOVUELO" (VStr (TIPOVUELO f))) = false).
  { intros f Hf. apply eqb_neq_false, Ht. now apply in_map. }
  destruct (df_get (dummies "MES" _ _) k) as [c|e''].
  { destruct Hm as [_ ->]. rewrite map_map. apply map_ext_in. intros f Hf.
    unfold hot. now rewrite Hc, (Ho' f Hf), (Ht' f Hf). }
  cbn [df_get]. intros f Hf. rewrite Hc, (Ho' f Hf), (Ht' f Hf).
  apply eqb_neq_false, Hm. now apply in_map.
Qed.

Lemma encode_features top data_df :
  encode top data_df =
  (let features_df := features_of_flights data_df in
   let* data_predict :=
     fill top features_df (columns features_df)
          [repeat (VInt 0) (List.length top)] in
   frame_of_rows data_predict top).
Proof.
  unfold encode, frame_of_flights. cbn [df_get String.eqb Ascii.eqb Bool.eqb].
  cbn [rbind].
  rewrite <- (map_map OPERA VStr), <- (map_map TIPOVUELO VStr),
          <- (map_map MES VInt).
  rewrite !get_dummies_str, get_dummies_int. reflexivity.
Qed.

Lemma frame_of_row (r : list cell) (top : list string) (g : string -> cell) :
  List.length r = List.length top ->
  (forall j k, top !! j = Some k -> r !! j = Some (g k)) ->
  frame_of_rows [r] top = Ok (map (fun k => (k, [g k])) top).
Proof.
  intros Hlen Hr. unfold frame_of_rows. cbn [forallb].
  rewrite Hlen, Nat.eqb_refl. cbn [andb]. f_equal.
  apply list_eq. intros j. rewrite list_lookup_imap.
  change (map (fun k => (k, [g k])) top) with ((fun k => (k, [g k])) <$> top).
  rewrite list_lookup_fmap.
  destruct (top !! j) as [k|] eqn:E; [|reflexivity].
  cbn. rewrite nth_lookup, (Hr j k E). reflexivity.
Qed.

Lemma lookup_repeat_lt {A} (x : A) (n j : nat) :
  (j < n)%nat -> repeat x n !! j = Some x.
Proof.
  revert j. induction n as [|n IH]; intros [|j] H; try lia; cbn; [reflexivity|].
  apply IH. lia.
Qed.

Lemma encode_first top f fs :
  NoDup top -> encode top (f :: fs) = Ok (encode_row top f).
Proof.
  intros Hnd. rewrite encode_features. cbv zeta.
  set (fdf := features_of_flights (f :: fs)).
  destruct (fill_spec top fdf (columns fdf) (repeat (VInt 0) (List.length top)) Hnd)
    as (r' & Ef & Hl & Hr).
  { apply repeat_length. }
  { intros col Hc _. pose proof (features_rows (f :: fs) col) as H.
    pose proof (df_get_columns fdf col) as Hcol. fold fdf in H.
    destruct (df_get fdf col) as [c|e].
    - rewrite H. cbn [map]. eauto.
    - destruct Hcol as [_ Hcol]. apply contains_In in Hc. congruence. }
  rewrite Ef. cbn [rbind]. apply (frame_of_row r' top (fun k => hot k f)); [exact Hl|].
  intros j k Hj. rewrite (Hr j k Hj).
  pose proof (features_rows (f :: fs) k) as H.
  pose proof (df_get_columns fdf k) as Hcol. fold fdf in H.
  unfold first_value. destruct (df_get fdf k) as [c|e].
  - rewrite Hcol, H. reflexivity.
  - destruct Hcol as [_ ->]. unfold hot. rewrite (H f) by now left.
    apply lookup_lt_Some in Hj. now apply lookup_repeat_lt.
Qed.

Lemma encode_empty top : encode top [] = Ok (zero_frame top).
Proof.
  rewrite encode_features. cbn [features_of_flights map fold_right dummies app
                               columns fill rbind].
  apply (frame_of_row _ top (fun _ => VInt 0)); [apply repeat_length|].
  intros j k Hj. apply lookup_lt_Some in Hj. now apply lookup_repeat_lt.
Qed.

(** ** Serving a request *)

Lemma NoDup_vocabulary : NoDup vocabulary.
Proof. apply (bool_decide_unpack _). vm_compute. exact I. Qed.

Lemma nrows_map_single {A} (g : A -> cell) (top : list A) (name : A -> string) :
  top <> [] -> nrows (map (fun k => (name k, [g k])) top) = 1%nat.
Proof. destruct top; [congruence|reflexivity]. Qed.

Lemma validate_all_valid vocab (fs : list flight) :
  Forall (valid_flight vocab) fs -> validate vocab fs [] = inr fs.
Proof.
  intros Hall.
  destruct (validate_cases vocab fs [])
    as [[_ E]|(pre & bad & post & field & msg & -> & _ & Herr & _)];
    [exact E|].
  exfalso. apply (Forall_app_invalid _ pre bad post) in Hall; [exact Hall|].
  eapply first_error_not_valid. exact Herr.
Qed.

Section Serving.

Context (Model : Type) (sk_predict : Model -> DataFrame -> result (list Z)).

Lemma single_label (m : Model) (X : DataFrame) :
  binary_classifier sk_predict m -> nrows X = 1%nat ->
  exists y, (y = 0 \/ y = 1) /\ sk_predict m X = Ok [y].
Proof.
  intros Hc HX. destruct (Hc X) as (l & E & Hl & Hb).
  rewrite HX in Hl. destruct l as [|y [|]]; try discriminate Hl.
  exists y. split; [now inversion Hb|exact E].
Qed.

(** What [check_response] does with a batch that passes validation. *)
Lemma check_response_valid (self : DelayModel Model) (w : world Model)
    features (fs : list flight) :
  all_features_p Model w = Some features ->
  Forall (valid_flight (replace_opera_of features)) fs ->
  check_response Model sk_predict self (mk_request fs) w =
  (log Model (PickleLoad "data/all_features.p") w,
   let* df := encode (top_10_features Model self) fs in
   let* predicted := predict Model sk_predict self df in
   Ok (Labels predicted)).
Proof.
  intros Hf Hall. unfold check_response, mbind, load_features, lift, mret.
  rewrite Hf. cbn [flights]. rewrite (validate_all_valid _ _ Hall).
  destruct (encode _ fs) as [df|e]; [|reflexivity]. cbn [rbind].
  destruct (predict _ _ self df); reflexivity.
Qed.

Lemma post_predict_valid (w : world Model) features m (fs : list flight) :
  all_features_p Model w = Some features -> model_h5 Model w = Some m ->
  Forall (valid_flight (replace_opera_of features)) fs ->
  snd (post_predict Model sk_predict (mk_request fs) w) =
  match (let* df := encode vocabulary fs in sk_predict m df) with
  | Ok predicted => Response200 (Labels predicted)
  | Raise e => ServerError e
  end.
Proof.
  intros Hf Hm Hall. unfold post_predict, mbind. rewrite init_eq.
  rewrite (check_response_valid _ _ features fs) by assumption.
  cbn [top_10_features]. fold vocabulary.
  destruct (encode vocabulary fs) as [df|e]; [|reflexivity]. cbn [rbind].
  unfold predict. cbn [_model]. rewrite Hm.
  destruct (sk_predict m df); reflexivity.
Qed.

(** C10. With the stored features and a fitted binary classifier in
    place, [check_response] on an empty list of flights reports no
    validation error: it builds one feature row of ten zeros, predicts on
    it and returns a list of exactly one label, not the empty list. *)
Theorem empty_batch_one_label (w : world Model) (features : DataFrame) (m : Model) :
  all_features_p Model w = Some features ->
  model_h5 Model w = Some m ->
  binary_classifier sk_predict m ->
  exists y,
    (y = 0 \/ y = 1) /\
    encode vocabulary [] = Ok (zero_frame vocabulary) /\
    nrows (zero_frame vocabulary) = 1%nat /\
    Forall (fun kc => snd kc = [VInt 0]) (zero_frame vocabulary) /\
    sk_predict m (zero_frame vocabulary) = Ok [y] /\
    (forall w1 self, __init__ Model w = (w1, Ok self) ->
       check_response Model sk_predict self (mk_request []) w1 =
       (log Model (PickleLoad "data/all_features.p") w1, Ok (Labels [y]))) /\
    snd (post_predict Model sk_predict (mk_request []) w) = Response200 (Labels [y]).
Proof.
  intros Hf Hm Hc.
  assert (Hn : nrows (zero_frame vocabulary) = 1%nat) by reflexivity.
  destruct (single_label m _ Hc Hn) as (y & Hy & Ey).
  exists y. split; [exact Hy|]. split; [apply encode_empty|].
  split; [exact Hn|]. split; [repeat constructor|]. split; [exact Ey|]. split.
  - intros w1 self Hinit. rewrite init_eq in Hinit.
    inversion Hinit; subst; clear Hinit.
    rewrite (check_response_valid _ _ features []); [|exact Hf|constructor].
    cbn [top_10_features]. fold vocabulary. rewrite encode_empty. cbn [rbind].
    unfold predict. cbn [_model]. rewrite Hm, Ey. reflexivity.
  - rewrite (post_predict_valid w features m []); [|assumption..|constructor].
    rewrite encode_empty. cbn [rbind]. now rewrite Ey.
Qed.

(** C1. The code does not return one label per flight.  For every batch
    with at least one flight in which every flight is valid, [POST /predict]
    answers with exactly one label, 0 or 1: the classifier's label for the
    feature row of the first flight, whatever the number of flights. *)
Theorem valid_batch_single_label (w : world Model) (features : DataFrame)
    (m : Model) (f : flight) (fs : list flight) :
  all_features_p Model w = Some features ->
  model_h5 Model w = Some m ->
  binary_classifier sk_predict m ->
  Forall (valid_flight (replace_opera_of features)) (f :: fs) ->
  exists y,
    (y = 0 \/ y = 1) /\
    sk_predict m (encode_row vocabulary f) = Ok [y] /\
    snd (post_predict Model sk_predict (mk_request (f :: fs)) w) = Response200 (Labels [y]).
Proof.
  intros Hf Hm Hc Hall.
  assert (Hn : nrows (encode_row vocabulary f) = 1%nat) by reflexivity.
  destruct (single_label m _ Hc Hn) as (y & Hy & Ey).
  exists y. split; [exact Hy|]. split; [exact Ey|].
  rewrite (post_predict_valid w features m (f :: fs)) by assumption.
  rewrite (encode_first _ f fs NoDup_vocabulary). cbn [rbind]. now rewrite Ey.
Qed.

(** The store after a request, whatever the request and its outcome. *)
Lemma post_predict_world (data : PredictRequest) (w : world Model) :
  fst (post_predict Model sk_predict data w) =
  log Model (PickleLoad "data/all_features.p") (log Model (PickleLoad "data/model.h5") w).
Proof.
  unfold post_predict, mbind. rewrite init_eq.
  unfold check_response, mbind, load_features, lift, mret.
  cbn [all_features_p log].
  destruct (all_features_p Model w) as [features|]; [|reflexivity].
  destruct (validate _ _ _) as [[field message]|data_df]; [reflexivity|].
  destruct (encode _ data_df) as [df|e]; [|reflexivity].
  destruct (predict _ _ _ df); reflexivity.
Qed.

Lemma handle_world (request : Api.http_request) (w : world Model) :
  let w' := fst (Api.handle Model sk_predict request w) in
  io Model w' = (io Model w ++ loads_of request)%list /\
  model_h5 Model w' = model_h5 Model w /\
  all_features_p Model w' = all_features_p Model w /\
  frames Model w' = frames Model w.
Proof.
  destruct request as [|data]; cbn [Api.handle loads_of].
  - cbn [fst]. rewrite app_nil_r. repeat split.
  - pose proof (post_predict_world data w) as E.
    destruct (post_predict Model sk_predict data w) as [w1 response].
    cbn [fst] in E |- *. subst w1. cbn [log io model_h5 all_features_p frames].
    rewrite <- app_assoc. repeat split.
Qed.

Lemma serve_world (requests : list Api.http_request) (w : world Model) :
  let w' := fst (Api.serve Model sk_predict requests w) in
  io Model w' = (io Model w ++ List.concat (map loads_of requests))%list /\
  model_h5 Model w' = model_h5 Model w /\
  all_features_p Model w' = all_features_p Model w /\
  frames Model w' = frames Model w /\
  List.length (snd (Api.serve Model sk_predict requests w)) = List.length requests.
Proof.
  revert w. induction requests as [|request requests IH]; intros w.
  - cbn. rewrite app_nil_r. repeat split.
  - cbn [Api.serve map List.concat].
    pose proof (handle_world request w) as H.
    destruct (Api.handle Model sk_predict request w) as [w1 answer].
    cbn [fst] in H. destruct H as (H1 & H2 & H3 & H4).
    specialize (IH w1).
    destruct (Api.serve Model sk_predict requests w1) as [w2 answers].
    cbn [fst snd] in IH |- *. destruct IH as (I1 & I2 & I3 & I4 & I5).
    rewrite I1, H1, <- app_assoc, I2, I3, I4, H2, H3, H4.
    cbn [List.length]. rewrite I5. repeat split.
Qed.

(** C8. Nothing is loaded at process startup and nothing is kept loaded
    between requests.  Importing the application changes nothing and
    opens no file.  Handling a [POST /predict] request constructs a
    [DelayModel], which loads data/model.h5, and [check_response] then
    loads data/all_features.p; [GET /health] opens no file.  So the
    accesses of a process are, for the requests in the order received,
    the two loads of each [POST /predict] in that order and nothing else;
    every request is answered; and serving changes neither file nor any
    frame. *)
Theorem serving_loads_both_files_per_request
    (requests : list Api.http_request) (w : world Model) :
  (exists routes, Api.app Model w = (w, Ok routes)) /\
  let w' := fst (Api.process Model sk_predict requests w) in
  io Model w' = (io Model w ++ List.concat (map loads_of requests))%list /\
  (forall data w1,
     io Model (fst (post_predict Model sk_predict data w1)) =
     (io Model w1 ++ [PickleLoad "data/model.h5"; PickleLoad "data/all_features.p"])%list) /\
  model_h5 Model w' = model_h5 Model w /\
  all_features_p Model w' = all_features_p Model w /\
  frames Model w' = frames Model w /\
  List.length (snd (Api.process Model sk_predict requests w)) = List.length requests.
Proof.
  split; [eexists; reflexivity|].
  unfold Api.process, Api.app, mret. cbv zeta.
  destruct (serve_world requests w) as (H1 & H2 & H3 & H4 & H5).
  split; [exact H1|]. split.
  - intros data w1. rewrite post_predict_world. cbn [log io].
    now rewrite <- app_assoc.
  - repeat split; assumption.
Qed.

End Serving.

Lemma demo_binary_classifier m : binary_classifier Demo.sk_predict m.
Proof.
  intros X. eexists. split; [reflexivity|]. split.
  - unfold df_rows. now rewrite !length_map, length_seq.
  - apply List.Forall_forall. intros y Hy. apply in_map_iff in Hy as (r & <- & _).
    destruct (row_get r m) as [[| [| [] |] | |]|]; auto.
Qed.

Lemma empty_batch_one_label_witness :
  exists y,
    snd (post_predict Demo.Model Demo.sk_predict (mk_request []) Demo.w0)
    = Response200 (Labels [y]).
Proof.
  destruct (empty_batch_one_label Demo.Model Demo.sk_predict Demo.w0
              Demo.stored_features "TIPOVUELO_I" eq_refl eq_refl
              (demo_binary_classifier _))
    as (y & _ & _ & _ & _ & _ & _ & H).
  exists y. exact H.
Defined.

Lemma valid_batch_single_label_witness :
  exists y,
    snd (post_predict Demo.Model Demo.sk_predict Demo.two_flights Demo.w0)
    = Response200 (Labels [y]).
Proof.
  destruct (valid_batch_single_label Demo.Model Demo.sk_predict Demo.w0
              Demo.stored_features "TIPOVUELO_I"
              (mk_flight "Grupo LATAM" "N" 1) [mk_flight "Sky Airline" "I" 7]
              eq_refl eq_refl (demo_binary_classifier _))
    as (y & _ & _ & H).
  - constructor; [|constructor; [|constructor]];
      (split; [cbn; lia|split; [cbn; auto|vm_compute; auto 10]]).
  - exists y. exact H.
Defined.

(** C8 does not hold in its load-once wording: serving a request on a store
    that has seen no access reads both persisted files. *)
Lemma predict_request_reloads :
  io Demo.Model Demo.w0 = [] /\
  io Demo.Model (fst (post_predict Demo.Model Demo.sk_predict Demo.two_flights Demo.w0))
  = [PickleLoad "data/model.h5"; PickleLoad "data/all_features.p"].
Proof. split; reflexivity. Qed.

(** ** Frames and [preprocess] *)

Lemma df_get_set_eq df k v : df_get (df_set df k v) k = Ok v.
Proof.
  induction df as [|[k' c] df IH]; cbn [df_set df_get].
  - now rewrite String.eqb_refl.
  - destruct (String.eqb k' k) eqn:E; cbn [df_get]; rewrite E; [reflexivity|exact IH].
Qed.

Lemma df_get_set_ne df k k' v :
  k <> k' -> df_get (df_set df k' v) k = df_get df k.
Proof.
  intros Hne. induction df as [|[k0 c] df IH]; cbn [df_set df_get].
  - destruct (String.eqb_spec k' k); [congruence|reflexivity].
  - destruct (String.eqb_spec k0 k') as [->|E]; cbn [df_get].
    + destruct (String.eqb_spec k' k); [congruence|reflexivity].
    + destruct (String.eqb k0 k); [reflexivity|exact IH].
Qed.

Lemma df_get_wf df k c : wf_frame df -> df_get df k = Ok c -> List.length c = nrows df.
Proof.
  unfold wf_frame. generalize (nrows df) as n. intros n H.
  induction H as [|[k' c'] df Hc _ IH]; cbn [df_get]; [discriminate|].
  destruct (String.eqb k' k); [|exact IH]. intros [= <-]. exact Hc.
Qed.

Lemma df_set_wf df k v :
  wf_frame df -> df <> [] -> List.length v = nrows df ->
  wf_frame (df_set df k v) /\ nrows (df_set df k v) = nrows df /\ df_set df k v <> [].
Proof.
  intros Hwf Hne Hv.
  assert (Hn : nrows (df_set df k v) = nrows df).
  { destruct df as [|[k' c] df]; [congruence|]. cbn [df_set].
    destruct (String.eqb k' k); [exact Hv|reflexivity]. }
  split; [|split; [exact Hn|]].
  - unfold wf_frame in *. rewrite Hn. clear Hn Hne.
    generalize dependent (nrows df). intros n Hwf Hv.
    induction Hwf as [|[k' c] df Hc Hdf IH]; cbn [df_set].
    + repeat constructor. exact Hv.
    + destruct (String.eqb k' k); constructor; auto.
  - destruct df as [|[k' c] df]; [congruence|]. cbn [df_set].
    destruct (String.eqb k' k); discriminate.
Qed.

Lemma row_get_df_row df i k :
  row_get (df_row df i) k = (let* c := df_get df k in Ok (nth i c VNone)).
Proof.
  induction df as [|[k' c] df IH]; [reflexivity|].
  cbn [df_row map row_get df_get fst snd]. fold (df_row df i).
  destruct (String.eqb k' k); [reflexivity|exact IH].
Qed.

Lemma rmap_ext_in {A B} (f g : A -> result B) l :
  (forall a, In a l -> f a = g a) -> rmap f l = rmap g l.
Proof.
  induction l as [|a l IH]; intros H; [reflexivity|].
  cbn [rmap]. rewrite (H a) by now left.
  rewrite IH; [reflexivity|]. intros b Hb. apply H. now right.
Qed.

Lemma rmap_length {A B} (f : A -> result B) l bs :
  rmap f l = Ok bs -> List.length bs = List.length l.
Proof.
  revert bs. induction l as [|a l IH]; intros bs; cbn [rmap].
  - intros E; inversion E. reflexivity.
  - destruct (f a) as [b|]; [|discriminate]. cbn [rbind].
    destruct (rmap f l) as [bs'|]; [|discriminate]. cbn [rbind].
    intros E; inversion E. cbn. f_equal. now apply IH.
Qed.

Lemma rmap_total {A B} (f : A -> B) (l : list A) :
  rmap (fun a => Ok (f a)) l = Ok (map f l).
Proof.
  induction l as [|a l IH]; [reflexivity|]. cbn [rmap rbind map]. now rewrite IH.
Qed.

Lemma np_where_gt_floats (md : list Q) (threshold : Z) :
  np_where_gt (map VFloat md) threshold = Ok (map (delay_label threshold) md).
Proof.
  unfold np_where_gt.
  assert (rmap (fun x => cell_gt x threshold) (map VFloat md) =
          Ok (map (fun q => negb (Qle_bool q (inject_Z threshold))) md)) as ->.
  { induction md as [|q md IH]; [reflexivity|].
    cbn [map rmap cell_gt rbind]. now rewrite IH. }
  cbn [rbind]. rewrite map_map. f_equal. apply map_ext. intros q.
  unfold delay_label. now destruct (Qle_bool q (inject_Z threshold)).
Qed.

Lemma rmap_map {A B C} (f : B -> result C) (g : A -> B) l :
  rmap f (map g l) = rmap (fun a => f (g a)) l.
Proof.
  induction l as [|a l IH]; [reflexivity|]. cbn [map rmap]. now rewrite IH.
Qed.

Lemma df_select_ok df names :
  (forall k, In k names -> contains (columns df) k = true) ->
  df_select df names = Ok (projection df names).
Proof.
  unfold df_select, projection.
  induction names as [|k names IH]; intros H; [reflexivity|].
  cbn [rmap map]. pose proof (df_get_columns df k) as Hk.
  destruct (df_get df k) as [c|e].
  - cbn [rbind]. rewrite IH; [reflexivity|]. intros k' Hk'. apply H. now right.
  - destruct Hk as [_ Hk]. rewrite H in Hk by now left. discriminate.
Qed.

Lemma df_select_missing df names k :
  In k names -> contains (columns df) k = false ->
  df_select df names = Raise KeyError.
Proof.
  unfold df_select. intros Hin Hk.
  induction names as [|k' names IH]; [destruct Hin|].
  cbn [rmap]. pose proof (df_get_columns df k') as Hk'.
  destruct (df_get df k') as [c|e].
  - cbn [rbind]. destruct Hin as [->|Hin]; [congruence|].
    now rewrite (IH Hin).
  - destruct Hk' as [-> _]. reflexivity.
Qed.

Lemma df_select_columns df names out :
  df_select df names = Ok out -> columns out = names.
Proof.
  unfold df_select, columns. revert out.
  induction names as [|k names IH]; intros out; cbn [rmap].
  - intros [= <-]. reflexivity.
  - destruct (df_get df k) as [c|]; [|discriminate]. cbn [rbind].
    destruct (rmap _ names) as [out'|]; [|discriminate]. cbn [rbind].
    intros [= <-]. cbn. f_equal. now apply IH.
Qed.

Lemma nth_indep_map {A B} (f : A -> B) (l : list A) (i : nat) (d : B) (d' : A) :
  (i < List.length l)%nat -> nth i (map f l) d = f (nth i l d').
Proof.
  revert i. induction l as [|a l IH]; intros [|i] H; cbn in *; try lia;
    [reflexivity|]. apply IH. lia.
Qed.

Lemma rmap_defined {A B} (f : A -> result B) l :
  (forall a, In a l -> exists b, f a = Ok b) -> exists bs, rmap f l = Ok bs.
Proof.
  induction l as [|a l IH]; intros H; [now exists []|].
  destruct (H a) as [b Eb]; [now left|].
  destruct IH as [bs Ebs]; [intros a' Ha'; apply H; now right|].
  exists (b :: bs). cbn [rmap]. now rewrite Eb, Ebs.
Qed.

Lemma get_period_day_defined s : parses s -> exists p, get_period_day s = Ok p.
Proof. intros [d H]. eexists. apply (get_period_day_seconds _ _ H). Qed.

Lemma is_high_season_defined s : parses s -> exists z, is_high_season s = Ok z.
Proof.
  intros [d H]. destruct (is_high_season_eval _ _ H) as [[E _]|[E _]]; eauto.
Qed.

(** On a frame whose two timestamp columns parse, the derivations of lines
    72-77 are defined on every cell and row. *)
Lemma derivations_defined df (si so : list string) :
  wf_frame df ->
  df_get df "Fecha-I" = Ok (map VStr si) ->
  df_get df "Fecha-O" = Ok (map VStr so) ->
  Forall parses si -> Forall parses so ->
  exists period_day high_season min_diff,
    rmap (fun c => match c with VStr s => get_period_day s | _ => Raise TypeError end)
         (map VStr si) = Ok period_day /\
    rmap (fun c => match c with VStr s => is_high_season s | _ => Raise AttributeError end)
         (map VStr si) = Ok high_season /\
    rmap get_min_diff (df_rows df) = Ok min_diff.
Proof.
  intros Hwf Hi Ho Psi Pso.
  rewrite List.Forall_forall in Psi, Pso.
  destruct (rmap_defined
    (fun c => match c with VStr s => get_period_day s | _ => Raise TypeError end)
    (map VStr si)) as [pd Hpd].
  { intros c Hc. apply in_map_iff in Hc as (s & <- & Hs).
    now apply get_period_day_defined, Psi. }
  destruct (rmap_defined
    (fun c => match c with VStr s => is_high_season s | _ => Raise AttributeError end)
    (map VStr si)) as [hs Hhs].
  { intros c Hc. apply in_map_iff in Hc as (s & <- & Hs).
    now apply is_high_season_defined, Psi. }
  destruct (rmap_defined get_min_diff (df_rows df)) as [md Hmd].
  { intros r Hr. unfold df_rows in Hr. apply in_map_iff in Hr as (i & <- & Hin).
    apply in_seq in Hin. pose proof (df_get_wf _ _ _ Hwf Hi) as Li.
    pose proof (df_get_wf _ _ _ Hwf Ho) as Lo. rewrite length_map in Li, Lo.
    unfold get_min_diff. rewrite !row_get_df_row, Hi, Ho. cbn [rbind].
    assert (Eo : nth i (map VStr so) VNone = VStr (nth i so ""))
      by (apply nth_indep_map; lia).
    assert (Ei : nth i (map VStr si) VNone = VStr (nth i si ""))
      by (apply nth_indep_map; lia).
    rewrite Eo, Ei. cbn [strptime_cell].
    destruct (Pso (nth i so "")) as [d_o ->]; [apply nth_In; lia|].
    destruct (Psi (nth i si "")) as [d_i ->]; [apply nth_In; lia|].
    cbn [rbind]. eauto. }
  eauto 6.
Qed.

Section Preprocess.

Context (Model : Type).

Lemma with_frame_twice w data a b :
  with_frame Model (with_frame Model w data a) data b = with_frame Model w data b.
Proof.
  unfold with_frame. cbn [frames model_h5 all_features_p io].
  now rewrite insert_insert_eq.
Qed.

Lemma with_frame_lookup w data df :
  frames Model (with_frame Model w data df) !! data = Some df.
Proof. unfold with_frame. cbn [frames]. apply lookup_insert_eq. Qed.

Lemma getitem_eq w data df k :
  frames Model w !! data = Some df -> getitem Model data k w = (w, df_get df k).
Proof. intros H. unfold getitem. now rewrite H. Qed.

Lemma setitem_eq w data df k v :
  frames Model w !! data = Some df ->
  setitem Model data k v w = (with_frame Model w data (df_set df k v), Ok tt).
Proof. intros H. unfold setitem. now rewrite H. Qed.

Lemma get_min_diff_row df df' i :
  df_get df' "Fecha-O" = df_get df "Fecha-O" ->
  df_get df' "Fecha-I" = df_get df "Fecha-I" ->
  get_min_diff (df_row df' i) = get_min_diff (df_row df i).
Proof.
  intros Ho Hi. unfold get_min_diff. now rewrite !row_get_df_row, Ho, Hi.
Qed.

Lemma derive_columns_run (self : DelayModel Model) data w df fecha_i
    period_day high_season min_diff :
  frames Model w !! data = Some df ->
  wf_frame df -> nrows df <> 0%nat ->
  df_get df "Fecha-I" = Ok fecha_i ->
  rmap (fun c => match c with VStr s => get_period_day s | _ => Raise TypeError end)
       fecha_i = Ok period_day ->
  rmap (fun c => match c with VStr s => is_high_season s | _ => Raise AttributeError end)
       fecha_i = Ok high_season ->
  rmap get_min_diff (df_rows df) = Ok min_diff ->
  derive_columns Model self data w =
  (with_frame Model w data
     (derived_frame df (THRESHOLD_IN_MINUTES Model self)
                    period_day high_season min_diff), Ok tt).
Proof.
  intros Hw Hwf Hn Hfi Hpd Hhs Hmd.
  assert (Hne : df <> []) by (intros ->; discriminate Hfi).
  pose proof (df_get_wf _ _ _ Hwf Hfi) as Lfi.
  pose proof (rmap_length _ _ _ Hpd) as Lpd.
  pose proof (rmap_length _ _ _ Hhs) as Lhs.
  set (df1 := df_set df "period_day" (map period_cell period_day)).
  destruct (df_set_wf df "period_day" (map period_cell period_day) Hwf Hne)
    as (Hwf1 & Hn1 & Hne1); [rewrite length_map; lia|]. fold df1 in Hwf1, Hn1, Hne1.
  set (df2 := df_set df1 "high_season" (map VInt high_season)).
  destruct (df_set_wf df1 "high_season" (map VInt high_season) Hwf1 Hne1)
    as (Hwf2 & Hn2 & Hne2); [rewrite length_map; lia|]. fold df2 in Hwf2, Hn2, Hne2.
  assert (Hfi1 : df_get df1 "Fecha-I" = Ok fecha_i)
    by (unfold df1; rewrite df_get_set_ne by discriminate; exact Hfi).
  assert (Hrows : rmap get_min_diff (df_rows df2) = Ok min_diff).
  { rewrite <- Hmd. unfold df_rows. rewrite Hn2, Hn1, !rmap_map.
    apply rmap_ext_in. intros i _. apply get_min_diff_row; unfold df2, df1;
      now rewrite !df_get_set_ne by discriminate. }
  unfold derive_columns, mbind, lift.
  rewrite (getitem_eq _ _ _ _ Hw), Hfi, Hpd.
  rewrite (setitem_eq _ _ _ _ _ Hw). fold df1.
  rewrite (getitem_eq _ _ df1 _ (with_frame_lookup _ _ _)), Hfi1, Hhs.
  rewrite (setitem_eq _ _ df1 _ _ (with_frame_lookup _ _ _)), with_frame_twice.
  fold df2. unfold apply_axis1. rewrite with_frame_lookup.
  destruct (Nat.eqb_spec (nrows df2) 0) as [E|_]; [lia|]. rewrite Hrows.
  rewrite (setitem_eq _ _ df2 _ _ (with_frame_lookup _ _ _)), with_frame_twice.
  rewrite (getitem_eq _ _ _ _ (with_frame_lookup _ _ _)), df_get_set_eq.
  rewrite np_where_gt_floats.
  rewrite (setitem_eq _ _ _ _ _ (with_frame_lookup _ _ _)), with_frame_twice.
  reflexivity.
Qed.

Lemma one_hot_fst data (w : world Model) : fst (one_hot Model data w) = w.
Proof.
  unfold one_hot, mbind, lift, mret.
  destruct (frames Model w !! data) as [df|] eqn:E.
  - rewrite !(getitem_eq _ _ _ _ E).
    repeat (first [ destruct (df_get df _) | destruct (get_dummies _ _) ];
            try reflexivity).
  - unfold getitem. rewrite E. reflexivity.
Qed.

(** The lines after the derivation leave every frame as it is. *)
Lemma preprocess_frames (self : DelayModel Model) data target_column w w1 :
  derive_columns Model self data w = (w1, Ok tt) ->
  frames Model (fst (preprocess Model self data target_column w)) = frames Model w1.
Proof.
  intros H. unfold preprocess, mbind at 1. rewrite H.
  unfold mbind at 1. pose proof (one_hot_fst data w1) as E.
  destruct (one_hot Model data w1) as [w2 [features|e]]; cbn [fst] in E; subst w2;
    [|reflexivity].
  unfold mbind, dump_features, lift, getitem, mret. cbn [frames].
  destruct (df_select features _); [|reflexivity].
  destruct (truthy target_column); [|reflexivity]. cbn [frames].
  destruct (frames Model w1 !! data) as [df|]; [|reflexivity].
  destruct (df_get df "delay"); reflexivity.
Qed.

Lemma preprocess_columns (self : DelayModel Model) data target_column w out :
  snd (preprocess Model self data target_column w) = Ok out ->
  columns (features_of out) = top_10_features Model self.
Proof.
  unfold preprocess, mbind at 1.
  destruct (derive_columns Model self data w) as [w1 [[]|e]]; [|discriminate].
  unfold mbind at 1.
  destruct (one_hot Model data w1) as [w2 [features|e]]; [|discriminate].
  unfold mbind, dump_features, lift, getitem, mret. cbn [frames snd].
  destruct (df_select features _) as [proj|] eqn:E; [|discriminate].
  apply df_select_columns in E.
  destruct (truthy target_column).
  - cbn [frames]. destruct (frames Model w2 !! data) as [df|]; [|discriminate].
    destruct (df_get df "delay"); [|discriminate]. intros [= <-]. exact E.
  - intros [= <-]. exact E.
Qed.

End Preprocess.

Lemma K_str_eqb a b : K_str a -> K_str b -> cell_eqb a b = true -> a = b.
Proof. intros [x ->] [y ->]. cbn. intros E. apply String.eqb_eq in E. congruence. Qed.

Lemma K_int_eqb a b : K_int a -> K_int b -> cell_eqb a b = true -> a = b.
Proof. intros [x ->] [y ->]. cbn. intros E. apply Z.eqb_eq in E. congruence. Qed.

Lemma dummies_columns prefix data cats :
  columns (dummies prefix data cats) = map (dummy_name prefix) cats.
Proof. unfold columns, dummies. rewrite map_map. reflexivity. Qed.

(** The one-hot columns of a batch are the one-hot columns of its rows. *)
Lemma features_columns fs k :
  In k (columns (features_of_flights fs)) <->
  exists f, In f fs /\ In k (one_hot_names f).
Proof.
  split.
  - unfold features_of_flights, columns. rewrite !map_app. fold columns.
    rewrite !dummies_columns, !in_app_iff, !in_map_iff.
    intros [(v & <- & Hv)|[(v & <- & Hv)|[(v & <- & Hv)|(x & _ & [])]]].
    + apply (proj2 (categories_spec K_str K_str_eqb _ (Forall_K_str _))) in Hv.
      apply in_map_iff in Hv as (s & <- & Hs). apply in_map_iff in Hs as (f & <- & Hf).
      exists f. split; [exact Hf|]. now left.
    + apply (proj2 (categories_spec K_str K_str_eqb _ (Forall_K_str _))) in Hv.
      apply in_map_iff in Hv as (s & <- & Hs). apply in_map_iff in Hs as (f & <- & Hf).
      exists f. split; [exact Hf|]. right. now left.
    + apply (proj2 (categories_spec K_int K_int_eqb _ (Forall_K_int _))) in Hv.
      apply in_map_iff in Hv as (s & <- & Hs). apply in_map_iff in Hs as (f & <- & Hf).
      exists f. split; [exact Hf|]. right. right. now left.
  - intros (f & Hf & Hk). apply contains_In.
    pose proof (features_rows fs k) as H.
    pose proof (df_get_columns (features_of_flights fs) k) as Hc.
    destruct (df_get (features_of_flights fs) k); [exact Hc|].
    apply contains_In in Hk. rewrite (H f Hf) in Hk. discriminate.
Qed.

Lemma projection_features fs top :
  (forall k, In k top -> In k (columns (features_of_flights fs))) ->
  projection (features_of_flights fs) top = map (fun k => (k, map (hot k) fs)) top.
Proof.
  intros H. unfold projection. apply map_ext_in. intros k Hk. f_equal.
  pose proof (features_rows fs k) as Hr.
  pose proof (df_get_columns (features_of_flights fs) k) as Hc.
  destruct (df_get (features_of_flights fs) k); [exact Hr|].
  destruct Hc as [_ Hc]. apply H, contains_In in Hk. congruence.
Qed.

Lemma encode_row_outside f top :
  (forall k, In k (one_hot_names f) -> ~ In k top) ->
  encode_row top f = zero_frame top.
Proof.
  intros H. unfold encode_row, zero_frame. apply map_ext_in. intros k Hk.
  unfold hot. destruct (contains (one_hot_names f) k) eqn:E; [|reflexivity].
  apply contains_In in E. now apply H in E.
Qed.

Lemma derived_frame_get df th pd hs md :
  let df' := derived_frame df th pd hs md in
  df_get df' "period_day" = Ok (map period_cell pd) /\
  df_get df' "high_season" = Ok (map VInt hs) /\
  df_get df' "min_diff" = Ok (map VFloat md) /\
  df_get df' "delay" = Ok (map (delay_label th) md) /\
  forall k, ~ In k derived_names -> df_get df' k = df_get df k.
Proof.
  cbv zeta. unfold derived_frame.
  repeat split.
  - now rewrite !df_get_set_ne, df_get_set_eq by discriminate.
  - now rewrite !df_get_set_ne, df_get_set_eq by discriminate.
  - now rewrite !df_get_set_ne, df_get_set_eq by discriminate.
  - now rewrite df_get_set_eq.
  - intros k Hk. unfold derived_names in Hk. cbn [In] in Hk.
    rewrite !df_get_set_ne; [reflexivity|intros ->; tauto..].
Qed.

Section PreprocessTheorems.

Context (Model : Type).

(** The frame effect of [preprocess], given the values lines 72-77 derive. *)
Lemma preprocess_frame_effect
    (self : DelayModel Model) (data : loc) (target_column : option string)
    (w : world Model) (df : DataFrame) (fecha_i : list cell)
    (period_day : list (option string)) (high_season : list Z) (min_diff : list Q) :
  frames Model w !! data = Some df ->
  wf_frame df -> nrows df <> 0%nat ->
  df_get df "Fecha-I" = Ok fecha_i ->
  rmap (fun c => match c with VStr s => get_period_day s | _ => Raise TypeError end)
       fecha_i = Ok period_day ->
  rmap (fun c => match c with VStr s => is_high_season s | _ => Raise AttributeError end)
       fecha_i = Ok high_season ->
  rmap get_min_diff (df_rows df) = Ok min_diff ->
  let w' := fst (preprocess Model self data target_column w) in
  let threshold := THRESHOLD_IN_MINUTES Model self in
  exists df',
    frames Model w' !! data = Some df' /\
    df_get df' "period_day" = Ok (map period_cell period_day) /\
    df_get df' "high_season" = Ok (map VInt high_season) /\
    df_get df' "min_diff" = Ok (map VFloat min_diff) /\
    df_get df' "delay" = Ok (map (delay_label threshold) min_diff) /\
    (forall k, ~ In k derived_names -> df_get df' k = df_get df k) /\
    (forall l, l <> data -> frames Model w' !! l = frames Model w !! l) /\
    (forall target_column',
       frames Model (fst (preprocess Model self data target_column' w)) =
       frames Model w') /\
    (forall out, snd (preprocess Model self data target_column w) = Ok out ->
       columns (features_of out) = top_10_features Model self).
Proof.
  intros Hw Hwf Hn Hfi Hpd Hhs Hmd w' threshold.
  pose proof (derive_columns_run Model self data w df fecha_i period_day
                high_season min_diff Hw Hwf Hn Hfi Hpd Hhs Hmd) as Hrun.
  fold threshold in Hrun.
  assert (Hfr : forall tc, frames Model (fst (preprocess Model self data tc w)) =
                 <[data := derived_frame df threshold period_day high_season min_diff]>
                   (frames Model w)).
  { intros tc. now rewrite (preprocess_frames Model self data tc w _ Hrun). }
  destruct (derived_frame_get df threshold period_day high_season min_diff)
    as (G1 & G2 & G3 & G4 & G5).
  exists (derived_frame df threshold period_day high_season min_diff).
  subst w'. rewrite Hfr.
  split; [apply lookup_insert_eq|]. split; [exact G1|]. split; [exact G2|].
  split; [exact G3|]. split; [exact G4|]. split; [exact G5|].
  split; [intros l Hl; now apply lookup_insert_ne|].
  split; [intros tc; apply Hfr|]. apply preprocess_columns.
Qed.

(** C9. [preprocess] changes the frame object the caller passed.  When
    the derivations of lines 72-77 are defined on the frame (it has rows,
    its 'Fecha-I' cells pass [get_period_day] and [is_high_season], its rows
    pass [get_min_diff]), after the call the caller's frame holds the
    columns period_day, high_season, min_diff and delay with the derived
    values, added or overwritten; every other column reads as before;
    every other frame is untouched; the frames are the same whatever
    [target_column] is; and the features returned have the vocabulary as
    their columns, none of them a column of the caller's frame by
    construction. *)
Theorem preprocess_mutates_caller_frame
    (self : DelayModel Model) (data : loc) (target_column : option string)
    (w : world Model) (df : DataFrame) (si so : list string) :
  frames Model w !! data = Some df ->
  wf_frame df -> nrows df <> 0%nat ->
  df_get df "Fecha-I" = Ok (map VStr si) ->
  df_get df "Fecha-O" = Ok (map VStr so) ->
  Forall parses si -> Forall parses so ->
  let w' := fst (preprocess Model self data target_column w) in
  let threshold := THRESHOLD_IN_MINUTES Model self in
  exists period_day high_season min_diff df',
    rmap get_period_day si = Ok period_day /\
    rmap is_high_season si = Ok high_season /\
    rmap get_min_diff (df_rows df) = Ok min_diff /\
    frames Model w' !! data = Some df' /\
    df_get df' "period_day" = Ok (map period_cell period_day) /\
    df_get df' "high_season" = Ok (map VInt high_season) /\
    df_get df' "min_diff" = Ok (map VFloat min_diff) /\
    df_get df' "delay" = Ok (map (delay_label threshold) min_diff) /\
    (forall k, ~ In k derived_names -> df_get df' k = df_get df k) /\
    (forall l, l <> data -> frames Model w' !! l = frames Model w !! l) /\
    (forall target_column',
       frames Model (fst (preprocess Model self data target_column' w)) =
       frames Model w') /\
    (forall out, snd (preprocess Model self data target_column w) = Ok out ->
       columns (features_of out) = top_10_features Model self).
Proof.
  intros Hw Hwf Hn Hi Ho Psi Pso w' threshold.
  destruct (derivations_defined df si so Hwf Hi Ho Psi Pso)
    as (pd & hs & md & Hpd & Hhs & Hmd).
  destruct (preprocess_frame_effect self data target_column w df (map VStr si)
              pd hs md Hw Hwf Hn Hi Hpd Hhs Hmd) as (df' & H).
  exists pd, hs, md, df'. rewrite rmap_map in Hpd. rewrite rmap_map in Hhs.
  split; [exact Hpd|]. split; [exact Hhs|]. split; [exact Hmd|]. exact H.
Qed.

(** The projection of [preprocess], given the values lines 72-77 derive. *)
Lemma preprocess_projection :
  forall (self : DelayModel Model) (data : loc) (target_column : option string)
          (w : world Model) (df : DataFrame) (fecha_i : list cell)
          (period_day : list (option string)) (high_season : list Z)
          (min_diff : list Q) (fs : list flight),
     frames Model w !! data = Some df ->
     wf_frame df -> nrows df <> 0%nat ->
     df_get df "Fecha-I" = Ok fecha_i ->
     rmap (fun c => match c with VStr s => get_period_day s | _ => Raise TypeError end)
          fecha_i = Ok period_day ->
     rmap (fun c => match c with VStr s => is_high_season s | _ => Raise AttributeError end)
          fecha_i = Ok high_season ->
     rmap get_min_diff (df_rows df) = Ok min_diff ->
     df_get df "OPERA" = Ok (map VStr (map OPERA fs)) ->
     df_get df "TIPOVUELO" = Ok (map VStr (map TIPOVUELO fs)) ->
     df_get df "MES" = Ok (map VInt (map MES fs)) ->
     let top := top_10_features Model self in
     let run := preprocess Model self data target_column w in
     all_features_p Model (fst run) = Some (features_of_flights fs) /\
     ((forall k, In k top -> exists f, In f fs /\ In k (one_hot_names f)) ->
        exists out, snd run = Ok out /\
          features_of out = map (fun k => (k, map (hot k) fs)) top) /\
     (forall k, In k top -> (forall f, In f fs -> ~ In k (one_hot_names f)) ->
        snd run = Raise KeyError).
Proof.
  intros self data target_column w df fecha_i period_day high_season min_diff fs
         Hw Hwf Hn Hfi Hpd Hhs Hmd Hop Hti Hme top run.
  pose proof (derive_columns_run Model self data w df fecha_i period_day
                high_season min_diff Hw Hwf Hn Hfi Hpd Hhs Hmd) as Hrun.
  set (df' := derived_frame df (THRESHOLD_IN_MINUTES Model self)
                            period_day high_season min_diff) in Hrun.
  set (w1 := with_frame Model w data df') in Hrun.
  destruct (derived_frame_get df (THRESHOLD_IN_MINUTES Model self)
              period_day high_season min_diff) as (_ & _ & _ & G4 & G5).
  fold df' in G4, G5.
  assert (Hw1 : frames Model w1 !! data = Some df') by apply with_frame_lookup.
  assert (Hhot : one_hot Model data w1 = (w1, Ok (features_of_flights fs))).
  { unfold one_hot, mbind, lift, mret. rewrite !(getitem_eq _ _ _ _ _ Hw1).
    rewrite !G5 by (unfold derived_names; cbn [In]; intuition discriminate).
    rewrite Hop, Hti, Hme, !get_dummies_str, get_dummies_int. reflexivity. }
  assert (Hpre : run =
    let w2 := mk_world Model (frames Model w1) (model_h5 Model w1)
                (Some (features_of_flights fs))
                (io Model w1 ++ [PickleDump "data/all_features.p"]) in
    match df_select (features_of_flights fs) top with
    | Ok projected =>
        if truthy target_column
        then (w2, Ok (FeaturesTarget projected
                [("delay", map (delay_label (THRESHOLD_IN_MINUTES Model self)) min_diff)]))
        else (w2, Ok (Features projected))
    | Raise e => (w2, Raise e)
    end).
  { subst run. unfold preprocess, mbind at 1. rewrite Hrun.
    unfold mbind at 1. rewrite Hhot.
    unfold mbind, dump_features, lift, mret. cbv zeta. fold top.
    destruct (df_select (features_of_flights fs) top); [|reflexivity].
    destruct (truthy target_column); [|reflexivity].
    unfold getitem. cbn [frames]. rewrite Hw1, G4. reflexivity. }
  split; [|split].
  + rewrite Hpre. cbv zeta.
    destruct (df_select _ top); [destruct (truthy target_column)|]; reflexivity.
  + intros Hall.
    assert (Hcols : forall k, In k top -> In k (columns (features_of_flights fs)))
      by (intros k Hk; apply features_columns; now apply Hall).
    rewrite Hpre. cbv zeta. rewrite df_select_ok
      by (intros k Hk; apply contains_In; now apply Hcols).
    rewrite (projection_features fs top Hcols).
    destruct (truthy target_column); eexists; split; reflexivity.
  + intros k Hk Hno. rewrite Hpre. cbv zeta.
    rewrite (df_select_missing _ top k Hk); [reflexivity|].
    destruct (contains (columns (features_of_flights fs)) k) eqn:E; [|reflexivity].
    apply contains_In, features_columns in E as (f & Hf & Hin).
    now apply Hno in Hin.
Qed.

(** C3. In [check_response] the feature row of a one-flight
    batch has the ten vocabulary columns in order, 1 in the columns that
    are the flight's one-hot columns and 0 in every other, the one-hot
    columns outside the vocabulary are dropped, and a flight whose airline,
    type and month are all outside the vocabulary encodes to ten zeros.
    In [preprocess] the projection [features[top_10_features]] is defined
    only when every vocabulary column is the one-hot column of some row:
    then every row is projected in that way, and otherwise the call raises
    [KeyError]. *)
Theorem feature_projection :
  (forall f : flight,
     encode vocabulary [f] = Ok (encode_row vocabulary f) /\
     columns (encode_row vocabulary f) = vocabulary /\
     (forall k, In k vocabulary ->
        df_get (encode_row vocabulary f) k =
        Ok [VInt (if contains (one_hot_names f) k then 1 else 0)]) /\
     ((forall k, In k (one_hot_names f) -> ~ In k vocabulary) ->
        encode vocabulary [f] = Ok (zero_frame vocabulary))) /\
  (forall (self : DelayModel Model) (data : loc) (target_column : option string)
          (w : world Model) (df : DataFrame) (si so : list string)
          (fs : list flight),
     frames Model w !! data = Some df ->
     wf_frame df -> nrows df <> 0%nat ->
     df_get df "Fecha-I" = Ok (map VStr si) ->
     df_get df "Fecha-O" = Ok (map VStr so) ->
     Forall parses si -> Forall parses so ->
     df_get df "OPERA" = Ok (map VStr (map OPERA fs)) ->
     df_get df "TIPOVUELO" = Ok (map VStr (map TIPOVUELO fs)) ->
     df_get df "MES" = Ok (map VInt (map MES fs)) ->
     let top := top_10_features Model self in
     let run := preprocess Model self data target_column w in
     all_features_p Model (fst run) = Some (features_of_flights fs) /\
     ((forall k, In k top -> exists f, In f fs /\ In k (one_hot_names f)) ->
        exists out, snd run = Ok out /\
          features_of out = map (fun k => (k, map (hot k) fs)) top) /\
     (forall k, In k top -> (forall f, In f fs -> ~ In k (one_hot_names f)) ->
        snd run = Raise KeyError)).
Proof.
  split.
  - intros f. split; [apply encode_first, NoDup_vocabulary|].
    split; [unfold encode_row, columns; rewrite map_map; apply map_id|].
    split.
    + intros k Hk. unfold encode_row, hot.
      revert Hk. generalize vocabulary. induction l as [|k' l IH]; [intros []|].
      cbn [map df_get]. destruct (String.eqb_spec k' k) as [->|Hne]; [reflexivity|].
      intros [E|Hk]; [congruence|now apply IH].
    + intros H. rewrite (encode_first _ f [] NoDup_vocabulary).
      now rewrite encode_row_outside.
  - intros self data target_column w df si so fs Hw Hwf Hn Hi Ho Psi Pso.
    destruct (derivations_defined df si so Hwf Hi Ho Psi Pso)
      as (pd & hs & md & Hpd & Hhs & Hmd).
    now apply (preprocess_projection self data target_column w df (map VStr si)
                 pd hs md fs).
Qed.

End PreprocessTheorems.

(** ** Edge cases of serving *)

Lemma encode_defined (fs : list flight) :
  exists df, encode vocabulary fs = Ok df /\ nrows df = 1%nat.
Proof.
  destruct fs as [|f fs].
  - exists (zero_frame vocabulary). split; [apply encode_empty|reflexivity].
  - exists (encode_row vocabulary f).
    split; [apply encode_first, NoDup_vocabulary|reflexivity].
Qed.

Lemma validate_field vocab (todo acc : list flight) field message :
  validate vocab todo acc = inl (field, message) ->
  field = "MES" \/ field = "TIPOVUELO" \/ field = "OPERA".
Proof.
  revert acc. induction todo as [|f todo IH]; intros acc; cbn [validate];
    [discriminate|].
  destruct ((MES f >? 12) || (MES f <? 1)); [intros [= <- _]; auto|].
  destruct (negb _); [intros [= <- _]; auto|].
  destruct (negb _); [intros [= <- _]; auto|]. apply IH.
Qed.

Section ServingEdges.

Context (Model : Type) (sk_predict : Model -> DataFrame -> result (list Z)).

(** The response, read off the two files. *)
Lemma post_predict_response (data : PredictRequest) (w : world Model) :
  snd (post_predict Model sk_predict data w) =
  match all_features_p Model w with
  | None => ServerError FileNotFoundError
  | Some features =>
      match validate (replace_opera_of features) (flights data) [] with
      | inl (field, message) =>
          if String.eqb field "MES" then
            HTTPException 400 "Value in column MES is incorrect"
          else if String.eqb field "TIPOVUELO" then
            HTTPException 400 "Value in column TIPOVUELO is incorrect"
          else if String.eqb field "OPERA" then
            HTTPException 400 "Value in column OPERA is incorrect"
          else Response200 (ErrTuple field message)
      | inr data_df =>
          match encode vocabulary data_df with
          | Ok df =>
              match model_h5 Model w with
              | Some m =>
                  match sk_predict m df with
                  | Ok predicted => Response200 (Labels predicted)
                  | Raise e => ServerError e
                  end
              | None => ServerError AttributeError
              end
          | Raise e => ServerError e
          end
      end
  end.
Proof.
  unfold post_predict, mbind. rewrite init_eq.
  unfold check_response, mbind, load_features, lift, mret.
  cbn [all_features_p log top_10_features]. fold vocabulary.
  destruct (all_features_p Model w) as [features|]; [|reflexivity].
  destruct (validate _ _ _) as [[field message]|data_df]; [reflexivity|].
  destruct (encode vocabulary data_df) as [df|e]; [|reflexivity].
  unfold predict. cbn [_model].
  destruct (model_h5 Model w) as [m|]; [|reflexivity].
  destruct (sk_predict m df); reflexivity.
Qed.

(** X1. When data/model.h5 is missing, [DelayModel()] keeps [_model] at
    [None], [predict] raises [AttributeError], and a batch that passes
    validation gets a server error instead of labels. *)
Theorem no_stored_model_is_server_error (w : world Model) (features : DataFrame)
    (data : PredictRequest) :
  model_h5 Model w = None ->
  all_features_p Model w = Some features ->
  Forall (valid_flight (replace_opera_of features)) (flights data) ->
  (forall w1 self, __init__ Model w = (w1, Ok self) -> _model Model self = None) /\
  (forall self X, _model Model self = None ->
     predict Model sk_predict self X = Raise AttributeError) /\
  snd (post_predict Model sk_predict data w) = ServerError AttributeError.
Proof.
  intros Hm Hf Hall. split; [|split].
  - intros w1 self H. rewrite init_eq in H. injection H as _ <-. exact Hm.
  - intros self X H. unfold predict. now rewrite H.
  - rewrite post_predict_response, Hf, (validate_all_valid _ _ Hall), Hm.
    destruct (encode_defined (flights data)) as (df & -> & _). reflexivity.
Qed.

(** X2. When data/all_features.p is missing, [check_response] raises
    [FileNotFoundError] before it looks at any flight: every request, valid
    or not, gets a server error and never a 400. *)
Theorem no_stored_features_is_server_error (w : world Model)
    (self : DelayModel Model) (data : PredictRequest) :
  all_features_p Model w = None ->
  check_response Model sk_predict self data w =
    (log Model (PickleLoad "data/all_features.p") w, Raise FileNotFoundError) /\
  snd (post_predict Model sk_predict data w) = ServerError FileNotFoundError.
Proof.
  intros Hf. split.
  - unfold check_response, mbind, load_features. now rewrite Hf.
  - now rewrite post_predict_response, Hf.
Qed.

(** X3. With the stored features in place, [POST /predict] answers 400 if
    and only if some flight of the batch is invalid. *)
Theorem bad_request_iff_invalid_flight (w : world Model) (features : DataFrame)
    (data : PredictRequest) :
  all_features_p Model w = Some features ->
  (exists detail,
     snd (post_predict Model sk_predict data w) = HTTPException 400 detail) <->
  ~ Forall (valid_flight (replace_opera_of features)) (flights data).
Proof.
  intros Hf. rewrite post_predict_response, Hf. split.
  - intros [detail H] Hall. rewrite (validate_all_valid _ _ Hall) in H.
    destruct (encode vocabulary (flights data)); [|discriminate H].
    destruct (model_h5 Model w) as [m|]; [|discriminate H].
    destruct (sk_predict m a); discriminate H.
  - intros Hinv.
    destruct (validate_cases (replace_opera_of features) (flights data) [])
      as [[Hall _]|(pre & bad & post & field & msg & _ & _ & Herr & E)];
      [contradiction|].
    rewrite E. destruct Herr; eexists; reflexivity.
Qed.

(** X4. The answer of [POST /predict] is a 200 carrying labels, a 400 whose
    detail is one of the three column messages, or a server error; the
    error pair of [check_response] never reaches the client in a 200. *)
Theorem post_predict_response_shape (data : PredictRequest) (w : world Model) :
  match snd (post_predict Model sk_predict data w) with
  | Response200 (Labels _) => True
  | Response200 (ErrTuple _ _) => False
  | HTTPException status detail => status = 400 /\ In detail details_400
  | ServerError _ => True
  end.
Proof.
  rewrite post_predict_response.
  destruct (all_features_p Model w) as [features|]; [|exact I].
  destruct (validate _ _ _) as [[field message]|data_df] eqn:Ev.
  - apply validate_field in Ev as [-> | [-> | ->]]; cbn;
      (split; [reflexivity|]); auto.
  - destruct (encode vocabulary data_df) as [df|]; [|exact I].
    destruct (model_h5 Model w) as [m|]; [|exact I].
    destruct (sk_predict m df); exact I.
Qed.

(** X5. Serving a request leaves nothing behind that a later request
    sees: after any request, the answer to any request is what it would
    have been before, and no frame is changed. *)
Theorem request_leaves_no_trace_on_answers (data data' : PredictRequest)
    (w : world Model) :
  let w' := fst (post_predict Model sk_predict data' w) in
  snd (post_predict Model sk_predict data w') =
  snd (post_predict Model sk_predict data w) /\
  frames Model w' = frames Model w.
Proof.
  cbv zeta. rewrite post_predict_world. split; [|reflexivity].
  rewrite !post_predict_response. reflexivity.
Qed.

End ServingEdges.

(** ** Edge cases of [fit] *)

Lemma count_label_total labels :
  Forall (fun l => l = 0 \/ l = 1) labels ->
  count_label 0 labels + count_label 1 labels = n_samples labels.
Proof.
  unfold count_label, n_samples.
  induction 1 as [|l labels Hl _ IH]; [reflexivity|].
  cbn [count_occ List.length].
  destruct Hl as [-> | ->];
    repeat match goal with
           | |- context [Z.eq_dec ?a ?b] => destruct (Z.eq_dec a b); try lia
           end.
Qed.

Section FitEdges.

Context (Model : Type) (LogisticRegression : list (Z * Q) -> Model)
        (sk_fit : Model -> DataFrame -> list cell -> result Model)
        (sk_predict : Model -> DataFrame -> result (list Z)).

(** X6. [fit] on a target without rows raises ([ZeroDivisionError] when
    the target has a column, [IndexError] when it has none) and leaves the
    store as it was: nothing is fitted and nothing is written. *)
Theorem fit_without_rows_raises (self : DelayModel Model)
    (features target : DataFrame) (w : world Model) :
  nrows target = 0%nat ->
  exists e,
    fit Model LogisticRegression sk_fit self features target w = (w, Raise e) /\
    (target <> [] -> e = ZeroDivisionError) /\
    (target = [] -> e = IndexError).
Proof.
  intros Hn. unfold fit, mbind, lift, class_weight.
  destruct target as [|[k c] target].
  - exists IndexError. repeat split. congruence.
  - exists ZeroDivisionError. cbn [iloc_col0 rbind]. rewrite Hn. cbn [Z.of_nat truediv].
    repeat split. congruence.
Qed.

(** X7. When [fit] returns, the classifier it fitted with the class
    weights is the one held in [_model], the one written to
    data/model.h5 and the one the next [DelayModel()] loads and the next
    valid [POST /predict] predicts with; [fit] writes that one file, and
    changes neither the stored features nor any frame. *)
Theorem fitted_model_is_the_one_loaded (self self' : DelayModel Model)
    (features target : DataFrame) (w w' : world Model) :
  fit Model LogisticRegression sk_fit self features target w = (w', Ok self') ->
  exists weights fitted,
    class_weight target = Ok weights /\
    sk_fit (LogisticRegression weights) features (to_numpy_ravel target) = Ok fitted /\
    _model Model self' = Some fitted /\
    top_10_features Model self' = top_10_features Model self /\
    THRESHOLD_IN_MINUTES Model self' = THRESHOLD_IN_MINUTES Model self /\
    model_h5 Model w' = Some fitted /\
    all_features_p Model w' = all_features_p Model w /\
    frames Model w' = frames Model w /\
    io Model w' = (io Model w ++ [PickleDump "data/model.h5"])%list /\
    (forall w1 loaded, __init__ Model w' = (w1, Ok loaded) ->
       _model Model loaded = Some fitted) /\
    (forall data features',
       all_features_p Model w = Some features' ->
       Forall (valid_flight (replace_opera_of features')) (flights data) ->
       snd (post_predict Model sk_predict data w') =
       match (let* df := encode vocabulary (flights data) in sk_predict fitted df) with
       | Ok predicted => Response200 (Labels predicted)
       | Raise e => ServerError e
       end).
Proof.
  unfold fit, mbind, lift. intros H.
  destruct (class_weight target) as [weights|]; [|discriminate H].
  destruct (sk_fit _ _ _) as [fitted|] eqn:Ef; [|discriminate H].
  unfold dump_model, mret in H. injection H as <- <-.
  exists weights, fitted. cbn [_model top_10_features THRESHOLD_IN_MINUTES
                               model_h5 all_features_p frames io].
  repeat (split; [first [reflexivity|exact Ef]|]). split.
  - intros w1 loaded H. rewrite init_eq in H. injection H as _ <-. reflexivity.
  - intros [fs] features' Hf Hall. cbn [flights] in *.
    now rewrite (post_predict_valid Model sk_predict _ features' fitted fs).
Qed.

End FitEdges.

(** X8. On a non-empty target of 0/1 labels the two class weights of [fit]
    are non-negative and sum to 1. *)
Theorem class_weights_sum_to_one (labels : list Z) (weights : list (Z * Q)) :
  labels <> [] ->
  Forall (fun l => l = 0 \/ l = 1) labels ->
  class_weight [("delay", map VInt labels)] = Ok weights ->
  exists w1 w0,
    weights = [(1, w1); (0, w0)] /\ (w1 + w0 == 1)%Q /\
    (0 <= w1)%Q /\ (0 <= w0)%Q.
Proof.
  intros Hne Hb.
  assert (Hlen : (0 < List.length labels)%nat)
    by (destruct labels; [congruence|cbn; lia]).
  unfold class_weight. cbn [iloc_col0 rbind nrows].
  rewrite !count_eq_labels, length_map.
  destruct (truediv_pos (count_label 0 labels) _ Hlen) as (w1 & -> & Q1).
  destruct (truediv_pos (count_label 1 labels) _ Hlen) as (w0 & -> & Q0).
  cbn [rbind]. intros [= <-]. exists w1, w0. split; [reflexivity|].
  pose proof (count_label_total labels Hb) as Ht. unfold n_samples in Ht.
  assert (Hpos : (0 < inject_Z (Z.of_nat (List.length labels)))%Q).
  { change 0%Q with (inject_Z 0). rewrite <- Zlt_Qlt. lia. }
  assert (H0 : 0 <= count_label 0 labels) by (unfold count_label; lia).
  assert (H1 : 0 <= count_label 1 labels) by (unfold count_label; lia).
  rewrite Q1, Q0. split; [|split].
  - unfold Qdiv. rewrite <- Qmult_plus_distr_l, <- inject_Z_plus, Ht.
    apply Qmult_inv_r. intros E. rewrite E in Hpos. now apply Qlt_irrefl in Hpos.
  - apply Qle_shift_div_l; [exact Hpos|]. rewrite Qmult_0_l.
    change 0%Q with (inject_Z 0). now rewrite <- Zle_Qle.
  - apply Qle_shift_div_l; [exact Hpos|]. rewrite Qmult_0_l.
    change 0%Q with (inject_Z 0). now rewrite <- Zle_Qle.
Qed.

(** ** Edge cases of [preprocess] *)

Lemma replace_absent old new s :
  old <> "" -> occurs old s = false -> Str.replace s old new = s.
Proof.
  intros Hne. unfold Str.replace.
  assert (E : String.eqb old "" = false) by now apply String.eqb_neq.
  induction s as [|c s IH]; cbn [occurs Str.replace_from]; rewrite E;
    [reflexivity|].
  intros H. apply orb_false_iff in H as [-> H]. now rewrite IH.
Qed.

Lemma replace_OPERA_prefix s :
  Str.replace (dummy_name "OPERA" (VStr s)) "OPERA_" "" = Str.replace s "OPERA_" "".
Proof. destruct s; reflexivity. Qed.

Lemma startswith_OPERA v : Str.startswith (dummy_name "OPERA" v) "OPERA" = true.
Proof. reflexivity. Qed.

Lemma not_startswith_TIPOVUELO v :
  Str.startswith (dummy_name "TIPOVUELO" v) "OPERA" = false.
Proof. reflexivity. Qed.

Lemma not_startswith_MES v : Str.startswith (dummy_name "MES" v) "OPERA" = false.
Proof. reflexivity. Qed.

(** The airlines validation accepts once [features_of_flights fs] is stored. *)
Lemma replace_opera_of_features fs x :
  In x (replace_opera_of (features_of_flights fs)) <->
  exists f, In f fs /\ x = Str.replace (OPERA f) "OPERA_" "".
Proof.
  unfold replace_opera_of. rewrite in_map_iff. split.
  - intros (col & <- & Hcol). apply filter_In in Hcol as [Hin Hsw].
    apply features_columns in Hin as (f & Hf & Hk).
    unfold one_hot_names in Hk. cbn [In] in Hk.
    destruct Hk as [<-|[<-|[<-|[]]]].
    + exists f. split; [exact Hf|]. apply replace_OPERA_prefix.
    + now rewrite not_startswith_TIPOVUELO in Hsw.
    + now rewrite not_startswith_MES in Hsw.
  - intros (f & Hf & ->). exists (dummy_name "OPERA" (VStr (OPERA f))).
    split; [apply replace_OPERA_prefix|]. apply filter_In.
    split; [|apply startswith_OPERA].
    apply features_columns. exists f. split; [exact Hf|]. now left.
Qed.


Lemma df_set_same df k v : df_get df k = Ok v -> df_set df k v = df.
Proof.
  induction df as [|[k' c] df IH]; cbn [df_get df_set]; [discriminate|].
  destruct (String.eqb k' k); [now intros [= ->]|]. intros H. now rewrite IH.
Qed.

Lemma columns_df_set df k v :
  columns (df_set df k v) =
  if contains (columns df) k then columns df else (columns df ++ [k])%list.
Proof.
  induction df as [|[k' c] df IH]; [reflexivity|].
  cbn [df_set columns map fst]. rewrite contains_cons, (String.eqb_sym k k').
  destruct (String.eqb k' k); [reflexivity|]. cbn [orb map fst].
  fold (columns (df_set df k v)). fold (columns df). rewrite IH.
  now destruct (contains (columns df) k).
Qed.

Lemma contains_app l1 l2 k : contains (l1 ++ l2)%list k = contains l1 k || contains l2 k.
Proof. unfold contains. apply existsb_app. Qed.

Lemma contains_df_set_ne df k k' v :
  k' <> k -> contains (columns (df_set df k v)) k' = contains (columns df) k'.
Proof.
  intros Hne. rewrite columns_df_set.
  destruct (contains (columns df) k); [reflexivity|].
  rewrite contains_app. change (contains [k] k') with (String.eqb k' k || false).
  apply String.eqb_neq in Hne. now rewrite Hne, !orb_false_r.
Qed.

(** Assignments to distinct names: the columns there stay where they are,
    the new names are appended in the order of assignment. *)
Lemma columns_assignments (kvs : list (string * list cell)) df :
  List.NoDup (map fst kvs) ->
  columns (fold_left (fun d kv => df_set d (fst kv) (snd kv)) kvs df) =
  (columns df ++
   List.filter (fun k => negb (contains (columns df) k)) (map fst kvs))%list.
Proof.
  revert df. induction kvs as [|[k v] kvs IH]; intros df Hnd.
  - cbn. now rewrite app_nil_r.
  - inversion Hnd as [|? ? Hk Hnd']; subst. cbn [fold_left fst snd map].
    rewrite (IH _ Hnd').
    assert (E : List.filter (fun k' => negb (contains (columns (df_set df k v)) k'))
                  (map fst kvs) =
                List.filter (fun k' => negb (contains (columns df) k')) (map fst kvs)).
    { apply filter_ext_in. intros k' Hk'. rewrite contains_df_set_ne; [reflexivity|].
      intros ->. contradiction. }
    rewrite E, columns_df_set. cbn [List.filter].
    destruct (contains (columns df) k); cbn [negb]; [reflexivity|].
    now rewrite <- app_assoc.
Qed.

Lemma derived_frame_columns df th pd hs md :
  columns (derived_frame df th pd hs md) =
  (columns df ++
   List.filter (fun k => negb (contains (columns df) k)) derived_names)%list.
Proof.
  apply (columns_assignments
    [("period_day", map period_cell pd); ("high_season", map VInt hs);
     ("min_diff", map VFloat md); ("delay", map (delay_label th) md)]).
  repeat constructor; cbn [In map fst]; intuition discriminate.
Qed.


Lemma df_rows_length df : List.length (df_rows df) = nrows df.
Proof. unfold df_rows. now rewrite length_map, length_seq. Qed.

Lemma derived_frame_wf df th pd hs md :
  wf_frame df -> df <> [] ->
  List.length pd = nrows df -> List.length hs = nrows df ->
  List.length md = nrows df ->
  wf_frame (derived_frame df th pd hs md) /\
  nrows (derived_frame df th pd hs md) = nrows df.
Proof.
  intros Hwf Hne Lpd Lhs Lmd. unfold derived_frame.
  destruct (df_set_wf df "period_day" (map period_cell pd) Hwf Hne)
    as (W1 & N1 & E1); [now rewrite length_map|].
  destruct (df_set_wf _ "high_season" (map VInt hs) W1 E1)
    as (W2 & N2 & E2); [rewrite length_map; lia|].
  destruct (df_set_wf _ "min_diff" (map VFloat md) W2 E2)
    as (W3 & N3 & E3); [rewrite length_map; lia|].
  destruct (df_set_wf _ "delay" (map (delay_label th) md) W3 E3)
    as (W4 & N4 & E4); [rewrite length_map; lia|].
  split; [exact W4|lia].
Qed.

Lemma derived_frame_again df th pd hs md :
  let df' := derived_frame df th pd hs md in
  derived_frame df' th pd hs md = df'.
Proof.
  cbv zeta. destruct (derived_frame_get df th pd hs md) as (G1 & G2 & G3 & G4 & _).
  set (df' := derived_frame df th pd hs md) in *.
  unfold derived_frame at 1.
  now rewrite (df_set_same df' _ _ G1), (df_set_same df' _ _ G2),
              (df_set_same df' _ _ G3), (df_set_same df' _ _ G4).
Qed.

Section PreprocessEdges.

Context (Model : Type).

(** [preprocess] on a frame of flights, given the values lines 72-77
    derive. *)
Lemma preprocess_run (self : DelayModel Model) data target_column
    (w : world Model) df fecha_i period_day high_season min_diff fs :
  frames Model w !! data = Some df ->
  wf_frame df -> nrows df <> 0%nat ->
  df_get df "Fecha-I" = Ok fecha_i ->
  rmap (fun c => match c with VStr s => get_period_day s | _ => Raise TypeError end)
       fecha_i = Ok period_day ->
  rmap (fun c => match c with VStr s => is_high_season s | _ => Raise AttributeError end)
       fecha_i = Ok high_season ->
  rmap get_min_diff (df_rows df) = Ok min_diff ->
  df_get df "OPERA" = Ok (map VStr (map OPERA fs)) ->
  df_get df "TIPOVUELO" = Ok (map VStr (map TIPOVUELO fs)) ->
  df_get df "MES" = Ok (map VInt (map MES fs)) ->
  let threshold := THRESHOLD_IN_MINUTES Model self in
  let w1 := with_frame Model w data
              (derived_frame df threshold period_day high_season min_diff) in
  let w2 := mk_world Model (frames Model w1) (model_h5 Model w1)
              (Some (features_of_flights fs))
              (io Model w1 ++ [PickleDump "data/all_features.p"]) in
  preprocess Model self data target_column w =
  match df_select (features_of_flights fs) (top_10_features Model self) with
  | Ok projected =>
      (w2, Ok (if truthy target_column
               then FeaturesTarget projected
                      [("delay", map (delay_label threshold) min_diff)]
               else Features projected))
  | Raise e => (w2, Raise e)
  end.
Proof.
  intros Hw Hwf Hn Hfi Hpd Hhs Hmd Hop Hti Hme threshold w1 w2.
  pose proof (derive_columns_run Model self data w df fecha_i period_day
                high_season min_diff Hw Hwf Hn Hfi Hpd Hhs Hmd) as Hrun.
  fold threshold in Hrun. fold w1 in Hrun.
  destruct (derived_frame_get df threshold period_day high_season min_diff)
    as (_ & _ & _ & G4 & G5).
  assert (Hw1 : frames Model w1 !! data =
                Some (derived_frame df threshold period_day high_season min_diff))
    by apply with_frame_lookup.
  assert (Hhot : one_hot Model data w1 = (w1, Ok (features_of_flights fs))).
  { unfold one_hot, mbind, lift, mret. rewrite !(getitem_eq _ _ _ _ _ Hw1).
    rewrite !G5 by (unfold derived_names; cbn [In]; intuition discriminate).
    rewrite Hop, Hti, Hme, !get_dummies_str, get_dummies_int. reflexivity. }
  unfold preprocess, mbind at 1. rewrite Hrun.
  unfold mbind at 1. rewrite Hhot.
  unfold mbind, dump_features, lift, mret. fold w2.
  destruct (df_select (features_of_flights fs) _); [|reflexivity].
  destruct (truthy target_column); [|reflexivity].
  unfold getitem. subst w2. cbn [frames]. rewrite Hw1, G4. reflexivity.
Qed.

(** X9. [preprocess] writes the one-hot columns of its frame to
    data/all_features.p, also when the projection then raises, and these
    are what [check_response] validates airlines against afterwards: the
    accepted airlines are exactly the frame's airlines with every
    'OPERA_' removed, so a flight of the frame whose airline does not
    contain 'OPERA_' and whose MES and TIPOVUELO are in range is valid. *)
Theorem preprocess_feeds_validation
    (self : DelayModel Model) (data : loc) (target_column : option string)
    (w : world Model) (df : DataFrame) (si so : list string) (fs : list flight) :
  frames Model w !! data = Some df ->
  wf_frame df -> nrows df <> 0%nat ->
  df_get df "Fecha-I" = Ok (map VStr si) ->
  df_get df "Fecha-O" = Ok (map VStr so) ->
  Forall parses si -> Forall parses so ->
  df_get df "OPERA" = Ok (map VStr (map OPERA fs)) ->
  df_get df "TIPOVUELO" = Ok (map VStr (map TIPOVUELO fs)) ->
  df_get df "MES" = Ok (map VInt (map MES fs)) ->
  let w' := fst (preprocess Model self data target_column w) in
  exists features,
    all_features_p Model w' = Some features /\
    (forall x, In x (replace_opera_of features) <->
       exists f, In f fs /\ x = Str.replace (OPERA f) "OPERA_" "") /\
    (forall f, In f fs -> occurs "OPERA_" (OPERA f) = false ->
       1 <= MES f <= 12 -> TIPOVUELO f = "N" \/ TIPOVUELO f = "I" ->
       valid_flight (replace_opera_of features) f).
Proof.
  intros Hw Hwf Hn Hi Ho Psi Pso Hop Hti Hme w'.
  destruct (derivations_defined df si so Hwf Hi Ho Psi Pso)
    as (pd & hs & md & Hpd & Hhs & Hmd).
  exists (features_of_flights fs). split; [|split].
  - subst w'. rewrite (preprocess_run self data target_column w df (map VStr si)
                         pd hs md fs) by assumption.
    destruct (df_select _ _); reflexivity.
  - apply replace_opera_of_features.
  - intros f Hf Hocc Hmes Htipo. split; [exact Hmes|]. split; [exact Htipo|].
    apply replace_opera_of_features. exists f. split; [exact Hf|].
    symmetry. apply replace_absent; [discriminate|exact Hocc].
Qed.



(** X12. Calling [preprocess] again on the frame it has already
    processed leaves every frame as the first call left it. *)
Theorem preprocess_twice_same_frames
    (self : DelayModel Model) (data : loc) (target_column target_column' : option string)
    (w : world Model) (df : DataFrame) (si so : list string) :
  frames Model w !! data = Some df ->
  wf_frame df -> nrows df <> 0%nat ->
  df_get df "Fecha-I" = Ok (map VStr si) ->
  df_get df "Fecha-O" = Ok (map VStr so) ->
  Forall parses si -> Forall parses so ->
  let w1 := fst (preprocess Model self data target_column w) in
  frames Model (fst (preprocess Model self data target_column' w1)) = frames Model w1.
Proof.
  intros Hw Hwf Hn Hi Ho Psi Pso w1.
  destruct (derivations_defined df si so Hwf Hi Ho Psi Pso)
    as (pd & hs & md & Hpd & Hhs & Hmd).
  pose proof (derive_columns_run Model self data w df _ pd hs md
                Hw Hwf Hn Hi Hpd Hhs Hmd) as Hrun.
  set (th := THRESHOLD_IN_MINUTES Model self) in *.
  set (df' := derived_frame df th pd hs md) in *.
  assert (Hf1 : frames Model w1 = <[data := df']> (frames Model w)).
  { subst w1. now rewrite (preprocess_frames Model self data target_column w _ Hrun). }
  assert (Hne : df <> []) by (intros ->; discriminate Hi).
  destruct (derived_frame_get df th pd hs md) as (_ & _ & _ & _ & G5).
  fold df' in G5.
  destruct (derived_frame_wf df th pd hs md Hwf Hne) as [Hwf' Hn'].
  { rewrite (rmap_length _ _ _ Hpd), length_map.
    rewrite <- (df_get_wf _ _ _ Hwf Hi). now rewrite length_map. }
  { rewrite (rmap_length _ _ _ Hhs), length_map.
    rewrite <- (df_get_wf _ _ _ Hwf Hi). now rewrite length_map. }
  { rewrite (rmap_length _ _ _ Hmd). apply df_rows_length. }
  fold df' in Hwf', Hn'.
  assert (Hw1 : frames Model w1 !! data = Some df')
    by (rewrite Hf1; apply lookup_insert_eq).
  assert (Hi' : df_get df' "Fecha-I" = Ok (map VStr si))
    by (rewrite G5; [exact Hi|unfold derived_names; cbn [In]; intuition discriminate]).
  assert (Hmd' : rmap get_min_diff (df_rows df') = Ok md).
  { rewrite <- Hmd. unfold df_rows. rewrite Hn', !rmap_map.
    apply rmap_ext_in. intros i _. apply get_min_diff_row;
      apply G5; unfold derived_names; cbn [In]; intuition discriminate. }
  pose proof (derive_columns_run Model self data w1 df' _ pd hs md
                Hw1 Hwf' ltac:(lia) Hi' Hpd Hhs Hmd') as Hrun'.
  fold th in Hrun'.
  pose proof (derived_frame_again df th pd hs md) as Hag. cbv zeta in Hag.
  fold df' in Hag. rewrite Hag in Hrun'.
  rewrite (preprocess_frames Model self data target_column' w1 _ Hrun').
  unfold with_frame. cbn [frames]. rewrite Hf1. apply insert_insert_eq.
Qed.

(** X13. [preprocess] keeps the caller's rows and column order: the
    frame has the same number of rows, its columns stay where they were,
    and those of period_day, high_season, min_diff and delay that were
    not there are appended in that order. *)
Theorem preprocess_keeps_rows_and_column_order
    (self : DelayModel Model) (data : loc) (target_column : option string)
    (w : world Model) (df : DataFrame) (si so : list string) :
  frames Model w !! data = Some df ->
  wf_frame df -> nrows df <> 0%nat ->
  df_get df "Fecha-I" = Ok (map VStr si) ->
  df_get df "Fecha-O" = Ok (map VStr so) ->
  Forall parses si -> Forall parses so ->
  exists df',
    frames Model (fst (preprocess Model self data target_column w)) !! data = Some df' /\
    columns df' =
      (columns df ++
       List.filter (fun k => negb (contains (columns df) k)) derived_names)%list /\
    nrows df' = nrows df /\ wf_frame df'.
Proof.
  intros Hw Hwf Hn Hi Ho Psi Pso.
  destruct (derivations_defined df si so Hwf Hi Ho Psi Pso)
    as (pd & hs & md & Hpd & Hhs & Hmd).
  pose proof (derive_columns_run Model self data w df _ pd hs md
                Hw Hwf Hn Hi Hpd Hhs Hmd) as Hrun.
  exists (derived_frame df (THRESHOLD_IN_MINUTES Model self) pd hs md).
  rewrite (preprocess_frames Model self data target_column w _ Hrun).
  split; [apply with_frame_lookup|]. split; [apply derived_frame_columns|].
  assert (Hne : df <> []) by (intros ->; discriminate Hi).
  destruct (derived_frame_wf df (THRESHOLD_IN_MINUTES Model self) pd hs md Hwf Hne)
    as [Hwf' Hn']; [..|now split].
  - rewrite (rmap_length _ _ _ Hpd), length_map.
    rewrite <- (df_get_wf _ _ _ Hwf Hi). now rewrite length_map.
  - rewrite (rmap_length _ _ _ Hhs), length_map.
    rewrite <- (df_get_wf _ _ _ Hwf Hi). now rewrite length_map.
  - rewrite (rmap_length _ _ _ Hmd). apply df_rows_length.
Qed.

(** X14. [preprocess] uses [target_column] only as a flag.  With [None]
    or the empty string it returns the features alone; with any other
    string, whatever it names, it returns the same features together with
    the 'delay' column. *)
Theorem target_column_is_only_a_flag
    (self : DelayModel Model) (data : loc)
    (w : world Model) (df : DataFrame) (si so : list string) (fs : list flight) :
  frames Model w !! data = Some df ->
  wf_frame df -> nrows df <> 0%nat ->
  df_get df "Fecha-I" = Ok (map VStr si) ->
  df_get df "Fecha-O" = Ok (map VStr so) ->
  Forall parses si -> Forall parses so ->
  df_get df "OPERA" = Ok (map VStr (map OPERA fs)) ->
  df_get df "TIPOVUELO" = Ok (map VStr (map TIPOVUELO fs)) ->
  df_get df "MES" = Ok (map VInt (map MES fs)) ->
  (forall k, In k (top_10_features Model self) ->
     exists f, In f fs /\ In k (one_hot_names f)) ->
  exists features min_diff,
    rmap get_min_diff (df_rows df) = Ok min_diff /\
    let target :=
      [("delay", map (delay_label (THRESHOLD_IN_MINUTES Model self)) min_diff)] in
    snd (preprocess Model self data None w) = Ok (Features features) /\
    snd (preprocess Model self data (Some "") w) = Ok (Features features) /\
    (forall name, name <> "" ->
       snd (preprocess Model self data (Some name) w) =
       Ok (FeaturesTarget features target)).
Proof.
  intros Hw Hwf Hn Hi Ho Psi Pso Hop Hti Hme Hcov.
  destruct (derivations_defined df si so Hwf Hi Ho Psi Pso)
    as (pd & hs & md & Hpd & Hhs & Hmd).
  exists (projection (features_of_flights fs) (top_10_features Model self)), md.
  split; [exact Hmd|]. cbv zeta.
  assert (Hsel : df_select (features_of_flights fs) (top_10_features Model self) =
                 Ok (projection (features_of_flights fs) (top_10_features Model self))).
  { apply df_select_ok. intros k Hk. apply contains_In, features_columns.
    now apply Hcov. }
  assert (Hrun : forall tc, snd (preprocess Model self data tc w) =
     Ok (if truthy tc
         then FeaturesTarget
                (projection (features_of_flights fs) (top_10_features Model self))
                [("delay", map (delay_label (THRESHOLD_IN_MINUTES Model self)) md)]
         else Features
                (projection (features_of_flights fs) (top_10_features Model self)))).
  { intros tc. rewrite (preprocess_run self data tc w df (map VStr si) pd hs md fs)
      by assumption. now rewrite Hsel. }
  split; [apply Hrun|]. split; [apply Hrun|].
  intros name Hname. rewrite Hrun. cbn [truthy].
  apply String.eqb_neq in Hname. now rewrite Hname.
Qed.

End PreprocessEdges.

(** ** Algebra and errors of the derivations *)

Lemma get_min_diff_timestamps scheduled actual d_i d_o :
  strptime_Ymd_HMS scheduled = Ok d_i -> strptime_Ymd_HMS actual = Ok d_o ->
  get_min_diff (timestamps scheduled actual) =
  Ok (Qred (Qmake (sub_total_seconds d_o d_i) 60)).
Proof.
  intros Hi Ho. unfold get_min_diff.
  change (row_get (timestamps scheduled actual) "Fecha-O") with (Ok (VStr actual)).
  change (row_get (timestamps scheduled actual) "Fecha-I") with (Ok (VStr scheduled)).
  cbn [rbind strptime_cell]. rewrite Ho. cbn [rbind]. rewrite Hi. reflexivity.
Qed.

(** X15. The minute difference is antisymmetric and follows the order of
    time: swapping the scheduled and the actual timestamp negates it, a
    timestamp differs from itself by 0, and for one scheduled timestamp
    the differences to two actual timestamps compare as the two actual
    timestamps do. *)
Theorem min_diff_antisymmetric_and_ordered (a b c : string) (db dc : datetime) :
  parses a -> strptime_Ymd_HMS b = Ok db -> strptime_Ymd_HMS c = Ok dc ->
  exists q_ab q_ba q_ac q_aa,
    get_min_diff (timestamps a b) = Ok q_ab /\
    get_min_diff (timestamps b a) = Ok q_ba /\
    get_min_diff (timestamps a c) = Ok q_ac /\
    get_min_diff (timestamps a a) = Ok q_aa /\
    (q_ba == - q_ab)%Q /\ (q_aa == 0)%Q /\
    (q_ab ?= q_ac)%Q = cmp db dc.
Proof.
  intros [da Ha] Hb Hc.
  do 4 eexists.
  rewrite (get_min_diff_timestamps a b da db Ha Hb).
  rewrite (get_min_diff_timestamps b a db da Hb Ha).
  rewrite (get_min_diff_timestamps a c da dc Ha Hc).
  rewrite (get_min_diff_timestamps a a da da Ha Ha).
  repeat (split; [reflexivity|]).
  split; [|split].
  - rewrite !Qred_correct. unfold sub_total_seconds, Qeq, Qopp. cbn [Qnum Qden]. lia.
  - rewrite !Qred_correct. unfold sub_total_seconds, Qeq. cbn [Qnum Qden]. lia.
  - rewrite <- Qred_compare.
    rewrite <- (sub_total_seconds_compare db dc)
      by (apply valid_bounds; eapply strptime_valid; eassumption).
    unfold Qcompare, sub_total_seconds. cbn [Qnum Qden].
    destruct (Z.compare_spec
                ((toordinal db - toordinal dc) * 86400 +
                 (seconds_of_day db - seconds_of_day dc)) 0);
      [apply Z.compare_eq_iff|apply Z.compare_lt_iff|apply Z.compare_gt_iff]; lia.
Qed.

Lemma min_diff_antisymmetric_and_ordered_witness :
  exists q_ab q_ba q_ac,
    get_min_diff (timestamps "2023-01-01 10:00:00" "2023-01-01 10:20:00") = Ok q_ab /\
    get_min_diff (timestamps "2023-01-01 10:20:00" "2023-01-01 10:00:00") = Ok q_ba /\
    get_min_diff (timestamps "2023-01-01 10:00:00" "2023-01-01 23:59:59") = Ok q_ac /\
    (q_ba == - q_ab)%Q /\ (q_ab < q_ac)%Q.
Proof.
  destruct (min_diff_antisymmetric_and_ordered
              "2023-01-01 10:00:00" "2023-01-01 10:20:00" "2023-01-01 23:59:59"
              (mk_datetime 2023 1 1 10 20 0) (mk_datetime 2023 1 1 23 59 59))
    as (q_ab & q_ba & q_ac & _ & H1 & H2 & H3 & _ & H4 & _ & H5);
    [eexists; vm_compute; reflexivity|reflexivity|reflexivity|].
  exists q_ab, q_ba, q_ac. repeat (split; [assumption|]).
  apply Qlt_alt. rewrite H5. reflexivity.
Defined.

Lemma strptime_raises s e : strptime_Ymd_HMS s = Raise e -> e = ValueError.
Proof.
  unfold strptime_Ymd_HMS, of_match, construct.
  destruct (obind _ _) as [[d [|c r]]|]; try (now intros [= <-]).
  destruct (valid d); [discriminate|now intros [= <-]].
Qed.

Lemma int_raises s e : Str.int s = Raise e -> e = ValueError.
Proof.
  unfold Str.int.
  destruct (match Str.strip s with EmptyString => _ | String _ _ => _ end);
    [discriminate|now intros [= <-]].
Qed.

(** X16. On a text of ASCII characters: when the format
    '%Y-%m-%d %H:%M:%S' accepts it, [get_period_day] returns and
    [is_high_season] returns 0 or 1; when it does not, both raise
    [ValueError] and nothing else. *)
Theorem derivations_raise_only_ValueError (s : string) :
  isascii s = true ->
  (parses s /\ (exists p, get_period_day s = Ok p) /\
   (is_high_season s = Ok 0 \/ is_high_season s = Ok 1)) \/
  (~ parses s /\ get_period_day s = Raise ValueError /\
   is_high_season s = Raise ValueError).
Proof.
  intros _.
  destruct (strptime_Ymd_HMS s) as [d|e] eqn:E.
  - left. split; [now exists d|]. split.
    + eexists. apply (get_period_day_seconds _ _ E).
    + destruct (is_high_season_eval _ _ E) as [[-> _]|[-> _]]; auto.
  - right. apply strptime_raises in E as E'. subst e.
    split; [intros [d Hd]; congruence|]. split.
    + unfold get_period_day. now rewrite E.
    + unfold is_high_season.
      destruct (Str.int _) as [y|e] eqn:Ei.
      * cbn [rbind]. now rewrite E.
      * apply int_raises in Ei as ->. reflexivity.
Qed.

Lemma derivations_raise_only_ValueError_witness :
  get_period_day "2023-02-30 10:00:00" = Raise ValueError /\
  is_high_season "2023-02-30 10:00:00" = Raise ValueError /\
  (exists p, get_period_day "2024-02-29 10:00:00" = Ok p).
Proof.
  destruct (derivations_raise_only_ValueError "2023-02-30 10:00:00" eq_refl)
    as [[[d Hd] _]|(_ & H1 & H2)]; [vm_compute in Hd; discriminate Hd|].
  destruct (derivations_raise_only_ValueError "2024-02-29 10:00:00" eq_refl)
    as [(_ & H3 & _)|[Hn _]].
  - split; [exact H1|]. split; [exact H2|exact H3].
  - exfalso. apply Hn. eexists. vm_compute. reflexivity.
Defined.

Lemma below_100 (P : Z -> Prop) :
  (forall k : nat, (k < 100)%nat -> P (Z.of_nat k)) ->
  forall n, 0 <= n <= 99 -> P n.
Proof.
  intros H n Hn. replace n with (Z.of_nat (Z.to_nat n)) by lia. apply H. lia.
Qed.

Lemma re_Y_digits hi lo r :
  0 <= hi <= 99 -> 0 <= lo <= 99 ->
  re_Y (two_digits hi +:+ two_digits lo +:+ r) = Some (100 * hi + lo, r).
Proof.
  intros Hhi Hlo.
  assert (D : forall n s, 0 <= n <= 99 ->
            d2 "0" "9" "0" "9" (two_digits n +:+ s) = Some (n, s)).
  { intros n s Hn. revert n Hn. apply below_100. intros k Hk.
    do 100 (destruct k as [|k]; [reflexivity|]). lia. }
  unfold re_Y. rewrite (D hi _ Hhi), (D lo _ Hlo). reflexivity.
Qed.

Lemma re_m_digits n r :
  1 <= n <= 12 -> re_m (two_digits n +:+ "-" +:+ r) = Some (n, "-" +:+ r).
Proof.
  intros Hn. assert (0 <= n <= 99) as Hn' by lia. revert n Hn' Hn.
  apply (below_100 (fun n => 1 <= n <= 12 -> _)). intros k Hk Hn.
  do 13 (destruct k as [|k]; [try reflexivity; lia|]). lia.
Qed.

Lemma re_d_digits n r :
  1 <= n <= 31 -> re_d (two_digits n +:+ " " +:+ r) = Some (n, " " +:+ r).
Proof.
  intros Hn. assert (0 <= n <= 99) as Hn' by lia. revert n Hn' Hn.
  apply (below_100 (fun n => 1 <= n <= 31 -> _)). intros k Hk Hn.
  do 32 (destruct k as [|k]; [try reflexivity; lia|]). lia.
Qed.

Lemma re_H_digits n r :
  0 <= n <= 23 -> re_H (two_digits n +:+ ":" +:+ r) = Some (n, ":" +:+ r).
Proof.
  intros Hn. assert (0 <= n <= 99) as Hn' by lia. revert n Hn' Hn.
  apply (below_100 (fun n => 0 <= n <= 23 -> _)). intros k Hk Hn.
  do 24 (destruct k as [|k]; [reflexivity|]). lia.
Qed.

Lemma re_M_digits n r :
  0 <= n <= 59 -> re_M (two_digits n +:+ ":" +:+ r) = Some (n, ":" +:+ r).
Proof.
  intros Hn. assert (0 <= n <= 99) as Hn' by lia. revert n Hn' Hn.
  apply (below_100 (fun n => 0 <= n <= 59 -> _)). intros k Hk Hn.
  do 60 (destruct k as [|k]; [reflexivity|]). lia.
Qed.

Lemma re_S_digits n :
  0 <= n <= 59 -> re_S (two_digits n) = Some (n, "").
Proof.
  intros Hn. assert (0 <= n <= 99) as Hn' by lia. revert n Hn' Hn.
  apply (below_100 (fun n => 0 <= n <= 59 -> _)). intros k Hk Hn.
  do 60 (destruct k as [|k]; [reflexivity|]). lia.
Qed.

Lemma skip_spaces_digits n s :
  0 <= n <= 99 -> skip_spaces (two_digits n +:+ s) = two_digits n +:+ s.
Proof.
  revert n. apply (below_100 (fun n => skip_spaces _ = _)). intros k Hk.
  do 100 (destruct k as [|k]; [reflexivity|]). lia.
Qed.

Lemma lit_append c r : lit c (String c "" +:+ r) = Some r.
Proof. simpl. now rewrite Ascii.eqb_refl. Qed.

Lemma spaces1_digits n s :
  0 <= n <= 99 -> spaces1 (" " +:+ two_digits n +:+ s) = Some (two_digits n +:+ s).
Proof. intros Hn. simpl. now rewrite <- (skip_spaces_digits n s Hn). Qed.

(** X18. Every timestamp the constructor of [datetime] accepts, written
    as [YYYY-MM-DD HH:MM:SS], is read back by the format
    '%Y-%m-%d %H:%M:%S' as that timestamp. *)
Theorem strptime_reads_isoformat (d : datetime) :
  valid d = true -> strptime_Ymd_HMS (isoformat d) = Ok d.
Proof.
  intros Hv. pose proof (valid_bounds d Hv) as [Hy Hm Hd HH HM HS].
  assert (day d <= 31)
    by (unfold days_in_month in Hd;
        repeat match type of Hd with context [if ?b then _ else _] =>
          destruct b end; lia).
  unfold strptime_Ymd_HMS, isoformat.
  rewrite re_Y_digits by (Z.div_mod_to_equations; lia).
  cbn [obind snd fst]. rewrite lit_append.
  cbn [obind]. rewrite (re_m_digits _ _ Hm).
  cbn [obind snd fst]. rewrite lit_append.
  cbn [obind]. rewrite re_d_digits by lia.
  cbn [obind snd fst]. rewrite spaces1_digits by lia.
  cbn [obind]. rewrite (re_H_digits _ _ HH).
  cbn [obind snd fst]. rewrite lit_append.
  cbn [obind]. rewrite (re_M_digits _ _ HM).
  cbn [obind snd fst]. rewrite lit_append.
  cbn [obind]. rewrite (re_S_digits _ HS).
  cbn [obind snd fst of_match].
  replace (100 * (year d / 100) + year d mod 100) with (year d)
    by (pose proof (Z.div_mod (year d) 100); lia).
  unfold construct. destruct d. cbn [Datetime.year Datetime.month Datetime.day
    Datetime.hour Datetime.minute Datetime.second] in *. now rewrite Hv.
Qed.

Lemma strptime_reads_isoformat_witness :
  isoformat (mk_datetime 2024 2 29 23 59 7) = "2024-02-29 23:59:07" /\
  strptime_Ymd_HMS "2024-02-29 23:59:07" = Ok (mk_datetime 2024 2 29 23 59 7).
Proof.
  split; [reflexivity|].
  exact (strptime_reads_isoformat (mk_datetime 2024 2 29 23 59 7) eq_refl).
Defined.

(** ** Order of the one-hot columns *)

Lemma ascii_compare_trans a b c :
  Ascii.compare a b = Lt -> Ascii.compare b c = Lt -> Ascii.compare a c = Lt.
Proof.
  unfold Ascii.compare. rewrite !N.compare_lt_iff. apply N.lt_trans.
Qed.

Lemma string_compare_trans s1 s2 s3 :
  String.compare s1 s2 <> Gt -> String.compare s2 s3 <> Gt ->
  String.compare s1 s3 <> Gt.
Proof.
  revert s2 s3. induction s1 as [|a s1 IH]; intros [|b s2] [|c s3];
    cbn [String.compare]; try congruence.
  destruct (Ascii.compare a b) eqn:Eab; [|destruct (Ascii.compare b c) eqn:Ebc|];
    try congruence.
  - apply Ascii.compare_eq_iff in Eab as ->.
    destruct (Ascii.compare b c); [apply IH|congruence..].
  - apply Ascii.compare_eq_iff in Ebc as <-. rewrite Eab. congruence.
  - rewrite (ascii_compare_trans _ _ _ Eab Ebc). congruence.
Qed.

Lemma string_leb_trans s1 s2 s3 :
  String.leb s1 s2 = true -> String.leb s2 s3 = true -> String.leb s1 s3 = true.
Proof.
  unfold String.leb. intros H12 H23.
  pose proof (string_compare_trans s1 s2 s3) as H.
  destruct (String.compare s1 s2), (String.compare s2 s3), (String.compare s1 s3);
    try reflexivity; try discriminate; exfalso; apply H; congruence.
Qed.

Section Ascending.

Variable K : cell -> Prop.
Hypothesis K_eqb : forall a b, K a -> K b -> cell_eqb a b = true -> a = b.
Hypothesis K_refl : forall a, K a -> cell_eqb a a = true.
Hypothesis K_total : forall a b, K a -> K b -> cell_leb a b = true \/ cell_leb b a = true.
Hypothesis K_trans : forall a b c, K a -> K b -> K c ->
  cell_leb a b = true -> cell_leb b c = true -> cell_leb a c = true.
Hypothesis K_antisym : forall a b, K a -> K b ->
  cell_leb a b = true -> cell_leb b a = true -> a = b.

Lemma cell_lt_trans a b c :
  K a -> K b -> K c -> cell_leb a b = true -> cell_eqb a b = false ->
  cell_lt b c -> cell_lt a c.
Proof.
  intros Ka Kb Kc Hab Nab [Hbc Nbc]. split; [now apply (K_trans a b c)|].
  destruct (cell_eqb a c) eqn:E; [|reflexivity].
  apply K_eqb in E; try assumption. subst c.
  assert (a = b) by now apply K_antisym. subst b. now rewrite K_refl in Nab.
Qed.

Lemma insert_category_ascending v l :
  K v -> Forall K l -> ascending l -> ascending (insert_category v l).
Proof.
  intros Kv. induction 1 as [|x l Kx Kl IH]; cbn [insert_category ascending].
  - intros _. split; constructor.
  - intros [Hx Hl]. destruct (cell_eqb v x) eqn:E; [now split|].
    destruct (cell_leb v x) eqn:L; cbn [ascending].
    + split; [|now split]. constructor; [now split|].
      rewrite List.Forall_forall in Hx, Kl |- *. intros y Hy.
      apply (cell_lt_trans v x y); auto.
    + split; [|now apply IH].
      assert (Lx : cell_leb x v = true)
        by (destruct (K_total x v Kx Kv) as [H|H]; [exact H|congruence]).
      assert (Nx : cell_eqb x v = false).
      { destruct (cell_eqb x v) eqn:E'; [|reflexivity].
        apply K_eqb in E'; try assumption. subst x. now rewrite K_refl in E. }
      rewrite List.Forall_forall in Hx |- *. intros y Hy.
      apply (insert_category_In K K_eqb) in Hy as [->|Hy]; try assumption.
      * now split.
      * now apply Hx.
Qed.

Lemma categories_ascending data :
  Forall K data -> ascending (fold_right insert_category [] data).
Proof.
  induction 1 as [|x data Kx Kd IH]; cbn [fold_right]; [exact I|].
  apply insert_category_ascending; [exact Kx| |exact IH].
  now apply (categories_spec K K_eqb).
Qed.

Lemma ascending_NoDup l : Forall K l -> ascending l -> List.NoDup l.
Proof.
  induction 1 as [|x l Kx Kl IH]; cbn [ascending]; [constructor|].
  intros [Hx Hl]. constructor; [|now apply IH].
  intros Hin. rewrite List.Forall_forall in Hx. destruct (Hx x Hin) as [_ N].
  now rewrite K_refl in N.
Qed.

Lemma dummies_columns_NoDup prefix data cats :
  (forall a b, K a -> K b -> cell_str a = cell_str b -> a = b) ->
  Forall K cats -> List.NoDup cats ->
  List.NoDup (columns (dummies prefix data cats)).
Proof.
  intros Kstr Kc Hnd. rewrite dummies_columns.
  induction Hnd as [|v cats Hv Hnd IH]; cbn [map]; constructor.
  - intros Hin. apply in_map_iff in Hin as (v' & E & Hv').
    inversion Kc as [|? ? Kv Kc']; subst.
    apply (dummy_name_inj K Kstr) in E; [congruence| |assumption].
    rewrite List.Forall_forall in Kc'. now apply Kc'.
  - apply IH. now inversion Kc.
Qed.

End Ascending.

Lemma K_str_inj a b : K_str a -> K_str b -> cell_str a = cell_str b -> a = b.
Proof. intros [x ->] [y ->]. cbn. congruence. Qed.

Lemma K_int_inj a b : K_int a -> K_int b -> cell_str a = cell_str b -> a = b.
Proof. intros [x ->] [y ->]. cbn. intros H. f_equal. now apply (inj pretty). Qed.

Lemma K_str_refl a : K_str a -> cell_eqb a a = true.
Proof. intros [x ->]. apply String.eqb_refl. Qed.

Lemma K_int_refl a : K_int a -> cell_eqb a a = true.
Proof. intros [x ->]. apply Z.eqb_refl. Qed.

Lemma ascending_str ss : ascending (fold_right insert_category [] (map VStr ss)).
Proof.
  apply (categories_ascending K_str K_str_eqb K_str_refl).
  - intros a b [x ->] [y ->]. apply String.leb_total.
  - intros a b c [x ->] [y ->] [z ->]. apply string_leb_trans.
  - intros a b [x ->] [y ->]. cbn. intros H1 H2. f_equal. now apply String.leb_antisym.
  - apply Forall_K_str.
Qed.

Lemma ascending_int zs : ascending (fold_right insert_category [] (map VInt zs)).
Proof.
  apply (categories_ascending K_int K_int_eqb K_int_refl).
  - intros a b [x ->] [y ->]. cbn. lia.
  - intros a b c [x ->] [y ->] [z ->]. cbn. lia.
  - intros a b [x ->] [y ->]. cbn. intros H1 H2. f_equal. lia.
  - apply Forall_K_int.
Qed.

(** X17. The columns [get_dummies] gives a series of strings, or of
    integers, are named after the distinct values of the series, in
    strictly ascending order of the values, and no two columns have the
    same name. *)
Theorem get_dummies_columns_ascending_distinct (prefix : string)
    (ss : list string) (zs : list Z) :
  (exists cats,
     get_dummies (map VStr ss) prefix = Ok (dummies prefix (map VStr ss) cats) /\
     columns (dummies prefix (map VStr ss) cats) = map (dummy_name prefix) cats /\
     ascending cats /\ (forall v, In v cats <-> In v (map VStr ss)) /\
     List.NoDup (columns (dummies prefix (map VStr ss) cats))) /\
  (exists cats,
     get_dummies (map VInt zs) prefix = Ok (dummies prefix (map VInt zs) cats) /\
     columns (dummies prefix (map VInt zs) cats) = map (dummy_name prefix) cats /\
     ascending cats /\ (forall v, In v cats <-> In v (map VInt zs)) /\
     List.NoDup (columns (dummies prefix (map VInt zs) cats))).
Proof.
  split; eexists; (split; [first [apply get_dummies_str|apply get_dummies_int]|]);
    (split; [apply dummies_columns|]).
  - pose proof (categories_spec K_str K_str_eqb _ (Forall_K_str ss)) as [Kc Hin].
    split; [apply ascending_str|]. split; [exact Hin|].
    apply (dummies_columns_NoDup K_str); [exact K_str_inj|exact Kc|].
    apply (ascending_NoDup K_str K_str_refl); [exact Kc|apply ascending_str].
  - pose proof (categories_spec K_int K_int_eqb _ (Forall_K_int zs)) as [Kc Hin].
    split; [apply ascending_int|]. split; [exact Hin|].
    apply (dummies_columns_NoDup K_int); [exact K_int_inj|exact Kc|].
    apply (ascending_NoDup K_int K_int_refl); [exact Kc|apply ascending_int].
Qed.

(** ** The pipeline on the demonstration store *)

Lemma covered_by_rows (top : list string) (fs : list flight) :
  forallb (fun k => existsb (fun f => contains (one_hot_names f) k) fs) top = true ->
  forall k, In k top -> exists f, In f fs /\ In k (one_hot_names f).
Proof.
  rewrite forallb_forall. intros H k Hk.
  apply H, existsb_exists in Hk as (f & Hf & Hc).
  exists f. split; [exact Hf|]. now apply contains_In.
Qed.

Lemma wf_training : wf_frame Demo.training.
Proof. repeat constructor. Qed.

Lemma parses_training_scheduled :
  Forall parses ["2023-07-15 10:00:00"; "2023-10-01 13:00:00";
                 "2023-12-31 23:00:00"; "2023-04-02 05:00:00";
                 "2023-11-05 20:00:00"].
Proof. repeat (constructor; [eexists; vm_compute; reflexivity|]). constructor. Qed.

Lemma parses_training_actual :
  Forall parses ["2023-07-15 10:20:00"; "2023-10-01 13:15:00";
                 "2024-01-01 00:30:00"; "2023-04-02 04:50:00";
                 "2023-11-05 20:00:30"].
Proof. repeat (constructor; [eexists; vm_compute; reflexivity|]). constructor. Qed.

Lemma preprocess_mutates_caller_frame_witness :
  exists df',
    frames Demo.Model
      (fst (preprocess Demo.Model Demo.self 1%positive None Demo.w0)) !! 1%positive
    = Some df' /\
    df_get df' "delay" = Ok [VInt 1; VInt 0; VInt 1; VInt 0; VInt 0] /\
    df_get df' "OPERA" = df_get Demo.training "OPERA".
Proof.
  destruct (preprocess_mutates_caller_frame Demo.Model Demo.self 1%positive None
              Demo.w0 Demo.training _ _
              eq_refl wf_training ltac:(discriminate) eq_refl eq_refl
              parses_training_scheduled parses_training_actual)
    as (pd & hs & md & df' & _ & _ & Hmd & Hdf & _ & _ & _ & Hdelay & Hraw & _).
  vm_compute in Hmd. injection Hmd as <-.
  exists df'. split; [exact Hdf|]. split; [exact Hdelay|].
  apply Hraw. unfold derived_names. cbn [In]. intuition discriminate.
Defined.

(** C9 does not hold for every frame.  On a frame with a row whose
    'Fecha-O' is not a timestamp, and on a frame without rows, [preprocess]
    raises at line 75: the caller's frame has gained period_day and
    high_season, and neither min_diff nor delay. *)
Lemma preprocess_adds_two_columns_only :
  (exists df',
     snd (preprocess Demo.Model Demo.self 3%positive None Edges.frames_world)
     = Raise ValueError /\
     frames Demo.Model
       (fst (preprocess Demo.Model Demo.self 3%positive None Edges.frames_world))
       !! 3%positive = Some df' /\
     columns df' = (columns Edges.bad_actual ++ ["period_day"; "high_season"])%list /\
     df_get df' "min_diff" = Raise KeyError /\
     df_get df' "delay" = Raise KeyError) /\
  (exists df',
     snd (preprocess Demo.Model Demo.self 1%positive None Edges.no_rows_world)
     = Raise ValueError /\
     frames Demo.Model
       (fst (preprocess Demo.Model Demo.self 1%positive None Edges.no_rows_world))
       !! 1%positive = Some df' /\
     columns df' = (columns Edges.no_rows ++ ["period_day"; "high_season"])%list /\
     df_get df' "min_diff" = Raise KeyError /\
     df_get df' "delay" = Raise KeyError).
Proof.
  split; eexists; (split; [vm_compute; reflexivity|]);
    (split; [vm_compute; reflexivity|]); repeat split; vm_compute; reflexivity.
Qed.

Lemma feature_projection_witness :
  exists out,
    snd (preprocess Demo.Model Demo.self 1%positive None Demo.w0) = Ok out /\
    features_of out =
    map (fun k => (k, map (hot k) Demo.train_flights)) vocabulary.
Proof.
  destruct (proj2 (feature_projection Demo.Model) Demo.self 1%positive None
              Demo.w0 Demo.training _ _ Demo.train_flights
              eq_refl wf_training ltac:(discriminate) eq_refl eq_refl
              parses_training_scheduled parses_training_actual
              eq_refl eq_refl eq_refl)
    as (_ & Hok & _).
  apply Hok. apply covered_by_rows. vm_compute. reflexivity.
Defined.

(** C3 does not hold for [preprocess]: on the one flight whose airline,
    type and month are all outside the vocabulary it raises [KeyError] and
    does not return the all-zero vector. *)
Lemma preprocess_outside_vocabulary_raises :
  (forall k, In k (one_hot_names (mk_flight "American Airlines" "N" 1)) ->
     ~ In k vocabulary) /\
  snd (preprocess Demo.Model Demo.self 2%positive None Demo.w0) = Raise KeyError /\
  snd (preprocess Demo.Model Demo.self 2%positive None Demo.w0)
  <> Ok (Features (zero_frame vocabulary)).
Proof.
  split; [|split].
  - intros k Hk Hv. apply contains_In in Hk. apply contains_In in Hv.
    revert Hk. unfold vocabulary in Hv. unfold contains in Hv.
    cbn [existsb] in Hv. rewrite !orb_true_iff in Hv.
    decompose [or] Hv; try discriminate;
      match goal with H : String.eqb k _ = true |- _ =>
        apply String.eqb_eq in H; subst k end; vm_compute; discriminate.
  - vm_compute. reflexivity.
  - vm_compute. discriminate.
Qed.

(** ** The edge cases on the demonstration stores *)

Lemma no_stored_model_is_server_error_witness :
  snd (post_predict Demo.Model Demo.sk_predict Demo.two_flights Edges.no_model)
  = ServerError AttributeError.
Proof.
  apply (no_stored_model_is_server_error Demo.Model Demo.sk_predict
           Edges.no_model Demo.stored_features Demo.two_flights eq_refl eq_refl).
  constructor; [|constructor; [|constructor]];
    (split; [cbn; lia|split; [cbn; auto|vm_compute; auto 10]]).
Defined.

Lemma no_stored_features_is_server_error_witness :
  snd (post_predict Demo.Model Demo.sk_predict Demo.two_flights Edges.nothing_stored)
  = ServerError FileNotFoundError.
Proof.
  apply (no_stored_features_is_server_error Demo.Model Demo.sk_predict
           Edges.nothing_stored Demo.self Demo.two_flights eq_refl).
Defined.

Lemma bad_request_iff_invalid_flight_witness :
  exists detail,
    snd (post_predict Demo.Model Demo.sk_predict
           (mk_request [mk_flight "Grupo LATAM" "N" 0]) Demo.w0)
    = HTTPException 400 detail.
Proof.
  apply (bad_request_iff_invalid_flight Demo.Model Demo.sk_predict Demo.w0
           Demo.stored_features (mk_request [mk_flight "Grupo LATAM" "N" 0]) eq_refl).
  intros H. inversion H as [|? ? [Hm _] _]; subst. cbn in Hm. lia.
Defined.

Lemma fit_without_rows_raises_witness :
  exists e,
    fit Demo.Model Demo.LogisticRegression Demo.sk_fit Demo.self []
        [("delay", [])] Demo.w0 = (Demo.w0, Raise e) /\
    e = ZeroDivisionError.
Proof.
  destruct (fit_without_rows_raises Demo.Model Demo.LogisticRegression Demo.sk_fit
              Demo.self [] [("delay", [])] Demo.w0 eq_refl) as (e & H & He & _).
  exists e. split; [exact H|]. apply He. discriminate.
Defined.

Lemma fitted_model_is_the_one_loaded_witness :
  exists fitted,
    model_h5 Demo.Model
      (fst (fit Demo.Model Demo.LogisticRegression Demo.sk_fit Demo.self []
                [("delay", [VInt 1; VInt 0])] Demo.w0)) = Some fitted.
Proof.
  destruct (fitted_model_is_the_one_loaded Demo.Model Demo.LogisticRegression
              Demo.sk_fit Demo.sk_predict Demo.self Demo.self []
              [("delay", [VInt 1; VInt 0])] Demo.w0
              (mk_world Demo.Model (frames Demo.Model Demo.w0) (Some "TIPOVUELO_I")
                        (all_features_p Demo.Model Demo.w0)
                        (io Demo.Model Demo.w0 ++ [PickleDump "data/model.h5"]))
              eq_refl)
    as (weights & fitted & _ & _ & _ & _ & _ & H & _).
  exists fitted. exact H.
Defined.

Lemma class_weights_sum_to_one_witness :
  exists w1 w0, (w1 + w0 == 1)%Q /\
    class_weight [("delay", map VInt [1; 0; 0; 0])] = Ok [(1, w1); (0, w0)].
Proof.
  destruct (class_weights_sum_to_one [1; 0; 0; 0] [(1, Qmake 3 4); (0, Qmake 1 4)])
    as (w1 & w0 & E & H & _).
  - discriminate.
  - repeat (apply List.Forall_cons; [lia|]). apply List.Forall_nil.
  - reflexivity.
  - exists w1, w0. split; [exact H|]. now rewrite <- E.
Defined.

Lemma preprocess_feeds_validation_witness :
  exists features,
    all_features_p Demo.Model
      (fst (preprocess Demo.Model Demo.self 1%positive None Demo.w0)) = Some features /\
    valid_flight (replace_opera_of features) (mk_flight "Copa Air" "N" 4).
Proof.
  destruct (preprocess_feeds_validation Demo.Model Demo.self 1%positive None
              Demo.w0 Demo.training _ _ Demo.train_flights
              eq_refl wf_training ltac:(discriminate) eq_refl eq_refl
              parses_training_scheduled parses_training_actual
              eq_refl eq_refl eq_refl)
    as (features & Hf & _ & Hv).
  exists features. split; [exact Hf|].
  apply Hv; [cbn; auto 10|reflexivity|cbn; lia|now left].
Defined.



Lemma preprocess_twice_same_frames_witness :
  frames Demo.Model
    (fst (preprocess Demo.Model Demo.self 1%positive (Some "delay")
            (fst (preprocess Demo.Model Demo.self 1%positive None Demo.w0))))
  = frames Demo.Model (fst (preprocess Demo.Model Demo.self 1%positive None Demo.w0)).
Proof.
  apply (preprocess_twice_same_frames Demo.Model Demo.self 1%positive None
           (Some "delay") Demo.w0 Demo.training _ _
           eq_refl wf_training ltac:(discriminate) eq_refl eq_refl
           parses_training_scheduled parses_training_actual).
Defined.

Lemma preprocess_keeps_rows_and_column_order_witness :
  exists df',
    frames Demo.Model
      (fst (preprocess Demo.Model Demo.self 1%positive None Demo.w0)) !! 1%positive
    = Some df' /\
    columns df' = ["Fecha-I"; "Fecha-O"; "OPERA"; "TIPOVUELO"; "MES";
                   "period_day"; "high_season"; "min_diff"; "delay"] /\
    nrows df' = 5%nat.
Proof.
  destruct (preprocess_keeps_rows_and_column_order Demo.Model Demo.self 1%positive
              None Demo.w0 Demo.training _ _
              eq_refl wf_training ltac:(discriminate) eq_refl eq_refl
              parses_training_scheduled parses_training_actual)
    as (df' & Hdf & Hc & Hn & _).
  exists df'. split; [exact Hdf|]. split; [exact Hc|exact Hn].
Defined.

Lemma target_column_is_only_a_flag_witness :
  exists features target,
    snd (preprocess Demo.Model Demo.self 1%positive (Some "") Demo.w0)
    = Ok (Features features) /\
    snd (preprocess Demo.Model Demo.self 1%positive (Some "MES") Demo.w0)
    = Ok (FeaturesTarget features target).
Proof.
  destruct (target_column_is_only_a_flag Demo.Model Demo.self 1%positive
              Demo.w0 Demo.training _ _ Demo.train_flights
              eq_refl wf_training ltac:(discriminate) eq_refl eq_refl
              parses_training_scheduled parses_training_actual
              eq_refl eq_refl eq_refl)
    as (features & md & _ & _ & Hempty & Hname).
  - apply covered_by_rows. vm_compute. reflexivity.
  - eexists features, _. split; [exact Hempty|]. apply Hname. discriminate.
Defined.
